(** * api-generator: the conditional flow interpreter and its dispatcher

    A shallow embedding of [internal/core/transform.go],
    [internal/core/conditional.go] and of [DynamicAPIHandler] from the
    handler file of package [api], together with the properties of the
    specification that concern them.

    Go values of type [interface{}] are an inductive type, Go maps are
    [gmap]s, [float64] is the kernel's binary64 float.  Functions of the
    Go standard library that the code calls and whose definition is large
    (Unicode case mapping, decimal parsing, [%v] formatting, deep equality,
    BSON conversion) are the fields of the class [GoLib]; everything proved
    in general holds for every implementation of them. *)

From Stdlib Require Import ZArith Bool Ascii String List Setoid.
From Stdlib Require Import Floats Numbers.Cyclic.Int63.Uint63.
From stdpp Require Import gmap strings list fin_maps pretty.

#[local] Set Warnings "-register-all".
#[local] Open Scope Z_scope.
#[local] Open Scope string_scope.

(** ** Go's [strings] package, on byte strings *)

Module strings.

(** [strings.HasPrefix(s, prefix)] *)
Fixpoint HasPrefix (s prefix : string) : bool :=
  match prefix, s with
  | EmptyString, _ => true
  | String p prefix', String c s' => Ascii.eqb c p && HasPrefix s' prefix'
  | String _ _, EmptyString => false
  end.

(** [strings.TrimPrefix(s, prefix)]: [s] without the leading [prefix], or
    [s] itself when it does not start with it. *)
Fixpoint drop_bytes (n : nat) (s : string) : string :=
  match n, s with
  | O, _ => s
  | S n', String _ s' => drop_bytes n' s'
  | S _, EmptyString => EmptyString
  end.

Definition TrimPrefix (s prefix : string) : string :=
  if HasPrefix s prefix then drop_bytes (String.length prefix) s else s.

(** [strings.Split(s, sep)] for a one-byte separator: the pieces between
    the separators; never the empty list ([Split("", ".")] is [[""]]). *)
Fixpoint Split (s : string) (sep : ascii) : list string :=
  match s with
  | EmptyString => [EmptyString]
  | String c s' =>
      if Ascii.eqb c sep then EmptyString :: Split s' sep
      else match Split s' sep with
           | p :: ps => String c p :: ps
           | [] => [String c EmptyString]
           end
  end.

(** The text before and after the first [sep], if there is one. *)
Fixpoint Cut (s : string) (sep : ascii) : option (string * string) :=
  match s with
  | EmptyString => None
  | String c s' =>
      if Ascii.eqb c sep then Some (EmptyString, s')
      else match Cut s' sep with
           | Some (a, b) => Some (String c a, b)
           | None => None
           end
  end.

(** [strings.SplitN(s, sep, 2)]: split at the first separator only. *)
Definition SplitN2 (s : string) (sep : ascii) : list string :=
  match Cut s sep with
  | Some (a, b) => [a; b]
  | None => [s]
  end.

(** [strings.Contains(s, substr)] *)
Fixpoint Contains (s substr : string) : bool :=
  HasPrefix s substr ||
  match s with
  | EmptyString => false
  | String _ s' => Contains s' substr
  end.

End strings.

(** ** Values of type [interface{}] *)

(** The named map types the code tells apart in type assertions:
    [map[string]interface{}], [fiber.Map] and [bson.M]. *)
Inductive map_type := PlainMap | FiberMap | BsonM.

(** The slice types that occur: [[]interface{}], [[]map[string]interface{}]
    and [[]bson.M] (what [FindData] returns). *)
Inductive slice_type := SliceAny | SliceMap | SliceBsonM.

(** Go's integer types. *)
Inductive int_type :=
  Int | Int8 | Int16 | Int32 | Int64 | Uint | Uint8 | Uint16 | Uint32 | Uint64.

(** What an [interface{}] holds in this program: what JSON and BSON
    decoding produce and what the code builds itself.  [VDoc] is
    [primitive.D], an ordered document. *)
Inductive value :=
| VNil
| VBool (b : bool)
| VInt (t : int_type) (z : Z)
| VFloat32 (f : float)
| VFloat64 (f : float)
| VStr (s : string)
| VList (t : slice_type) (l : list value)
| VMap (t : map_type) (m : gmap string value)
| VDoc (d : list (string * value)).

(** A data map, [map[string]interface{}]. *)
Abbreviation datamap := (gmap string value).

Definition is_nil (v : value) : bool :=
  match v with VNil => true | _ => false end.

(** The address of a map, and the maps in memory by address. *)
Abbreviation ref := positive.
Abbreviation heap := (gmap positive datamap).

(** [m[k]] in an expression: the zero value [nil] when the key is absent. *)
Definition index (m : datamap) (k : string) : value :=
  default VNil (m !! k).

(** A Go [error], by its message; [None] is the [nil] error. *)
Definition error := string.

(** ** The standard-library functions the code relies on *)

Class GoLib := {
  (** [strings.ToLower] *)
  ToLower : string -> string;
  (** [strings.TrimSpace] *)
  TrimSpace : string -> string;
  (** [strconv.ParseFloat(s, 64)], [None] when it returns an error *)
  ParseFloat : string -> option float;
  (** [fmt.Sscan(arg, &f)] into a [float64], [None] on error *)
  SscanFloat : string -> option float;
  (** [fmt.Sprintf("%v", v)] *)
  Sprint : value -> string;
  (** [reflect.DeepEqual] *)
  DeepEqual : value -> value -> bool;
  (** [bson.Marshal] of a [primitive.D] followed by [bson.Unmarshal] into a
      [bson.M]; [None] when either step fails *)
  bsonToM : list (string * value) -> option datamap;
  (** the conversion [int(f)] of a [float64] *)
  float_to_int : float -> Z;
}.

(** ** package models *)

Module models.

Record Condition := {
  Field : string;
  Operator : string;
  Value : value;
}.

Record Transformation := {
  Operation : string;
  TField : string;
  TValue : value;
  Formula : string;
}.

Record ApiCall := {
  ApiName : string;
  Parameters : datamap;
  ResultField : string;
}.

(** [ConditionalBlock] and [ActionDefinition] refer to each other through
    pointers; a [nil] pointer is [None]. *)
Inductive ConditionalBlock := mkConditionalBlock {
  Conditions : list Condition;
  Then : option ActionDefinition;
  Else : option ActionDefinition;
}
with ActionDefinition := mkActionDefinition {
  Type_ : string;
  ReturnData : value;
  ConditionalFlow : option ConditionalBlock;
  SaveData : bool;
  Transform : list Transformation;
  ApiCall_ : option ApiCall;
}.

(** [Parameter] in the source; the name is reserved here. *)
Record Parameter_ := {
  PName : string;
  PType : string;
  Required : bool;
}.

Record ApiDefinition := {
  Name : string;
  Endpoint : string;
  Method : string;
  Database : string;
  Collection : string;
  Params : list Parameter_;
  Flow : option ConditionalBlock;
  UniqueKey : string;
}.

End models.
Import models.

(** ** package database

    The store is the MongoDB driver behind four calls.  One request makes
    them in a fixed order (definitions are read while the flow runs, then
    at most one of find and delete, then at most one save), so within a
    request each call is a function of its arguments. *)

Module database.

Record Store := {
  GetAPIDefinitionByName : string -> ApiDefinition + error;
  FindData : string -> string -> datamap -> list datamap + error;
  DeleteData : string -> string -> datamap -> Z + error;
  SaveData : string -> string -> string -> datamap -> option error;
}.

End database.

(** ** package core: transform.go and conditional.go *)

Module core.
Section WithGoLib.
Context {L : GoLib}.

(** The conversion [float64(v)] of an integer, rounded to nearest even.
    Magnitudes from 2^63 on (only [uint64] and the least [int64] reach
    them) are halved with a sticky last bit first. *)
Definition float64_of_Z (z : Z) : float :=
  let mag (n : Z) : float :=
    if (n <? 2 ^ 63)%Z then PrimFloat.of_uint63 (Uint63.of_Z n)
    else PrimFloat.mul
           (PrimFloat.of_uint63 (Uint63.of_Z (Z.lor (Z.shiftr n 1) (Z.land n 1))))
           2%float in
  if (z <? 0)%Z then PrimFloat.opp (mag (- z)%Z) else mag z.

(** [convertToFloat64]: [None] is the result [(0, false)].  A string that
    does not parse falls through to the reflection switch, where its kind
    is not numeric; so do maps, slices and documents. *)
Definition convertToFloat64 (val : value) : option float :=
  match val with
  | VNil => None
  | VFloat64 v => Some v
  | VFloat32 v => Some v
  | VInt _ v => Some (float64_of_Z v)
  | VStr v => ParseFloat v
  | VBool v => Some (if v then 1%float else 0%float)
  | VList _ _ | VMap _ _ | VDoc _ => None
  end.

(** The traversal shared by [SubstituteVariables], [getValueAsFloat] and
    the parameters of an [apiCall]: follow the segments through
    [map[string]interface{}] values; [None] when a segment is missing or
    the value reached is not such a map. *)
Fixpoint lookupPath (fieldParts : list string) (value_ : value) : option value :=
  match fieldParts with
  | [] => Some value_
  | part :: rest =>
      match value_ with
      | VMap PlainMap m =>
          match m !! part with
          | Some val => lookupPath rest val
          | None => None
          end
      | _ => None
      end
  end.

(** [SubstituteVariables] *)
Fixpoint SubstituteVariables (template : value) (data : datamap) : value :=
  match template with
  | VNil => VNil
  | VStr t =>
      if strings.HasPrefix t "$" then
        let fieldPath := strings.TrimPrefix t "$" in
        let fieldParts := strings.Split fieldPath "." in
        default VNil (lookupPath fieldParts (VMap PlainMap data))
      else VStr t
  | VMap PlainMap t => VMap PlainMap ((fun v => SubstituteVariables v data) <$> t)
  | VList SliceAny t => VList SliceAny (map (fun v => SubstituteVariables v data) t)
  | _ => template
  end.

(** [getValueAsFloat] *)
Definition getValueAsFloat (arg : string) (data : datamap) : option float :=
  if strings.HasPrefix arg "$" then
    let fieldPath := strings.TrimPrefix arg "$" in
    let fieldParts := strings.Split fieldPath "." in
    match lookupPath fieldParts (VMap PlainMap data) with
    | Some value_ => convertToFloat64 value_
    | None => None
    end
  else SscanFloat arg.

(** *** The [calculate] operation *)

(** case ["add"], ["sum"]: the loop over [fieldArgs]. *)
Definition calcAdd (fieldArgs : list string) (result : datamap) : float :=
  foldl (fun calcResult arg =>
           let arg := TrimSpace arg in
           if String.eqb arg "" then calcResult
           else
             let isSubtract := strings.HasPrefix arg "-" in
             let arg := if isSubtract then strings.TrimPrefix arg "-" else arg in
             match getValueAsFloat arg result with
             | None => calcResult
             | Some numVal =>
                 if isSubtract then PrimFloat.sub calcResult numVal
                 else PrimFloat.add calcResult numVal
             end)
        0%float fieldArgs.

(** case ["multiply"], ["product"]: the state of the loop is
    [(calcResult, hasValidOperand)]. *)
Definition calcMultiply (fieldArgs : list string) (result : datamap) : float :=
  let '(calcResult, hasValidOperand) :=
    foldl (fun st arg =>
             let arg := TrimSpace arg in
             if String.eqb arg "" then st
             else match getValueAsFloat arg result with
                  | None => st
                  | Some numVal => (PrimFloat.mul (fst st) numVal, true)
                  end)
          (1%float, false) fieldArgs in
  if hasValidOperand then calcResult else 0%float.

(** case ["subtract"]; [None] is [calculationPossible = false]. *)
Definition calcSubtract (fieldArgs : list string) (result : datamap) : option float :=
  if (length fieldArgs <? 2)%nat then None
  else
    match fieldArgs with
    | [] => None
    | arg0 :: subtrahends =>
        match getValueAsFloat (TrimSpace arg0) result with
        | None => None
        | Some minuend =>
            Some (foldl (fun calcResult arg =>
                           match getValueAsFloat (TrimSpace arg) result with
                           | None => calcResult
                           | Some subtrahend => PrimFloat.sub calcResult subtrahend
                           end)
                        minuend subtrahends)
        end
    end.

(** case ["divide"]; [None] is [calculationPossible = false]. *)
Definition calcDivide (fieldArgs : list string) (result : datamap) : option float :=
  match fieldArgs with
  | [arg0; arg1] =>
      let dividendArg := TrimSpace arg0 in
      let divisorArg := TrimSpace arg1 in
      match getValueAsFloat dividendArg result, getValueAsFloat divisorArg result with
      | Some dividend, Some divisor =>
          if PrimFloat.eqb divisor 0%float then Some 0%float
          else Some (PrimFloat.div dividend divisor)
      | _, _ => None
      end
  | _ => None
  end.

(** The body of case ["calculate"] after the guard on empty [Formula] and
    [Field]: the value to store, or [None] when the field is not updated. *)
Definition calculate (formula : string) (result : datamap) : option float :=
  match strings.SplitN2 formula ":" with
  | [part0; part1] =>
      let calcOp := ToLower (TrimSpace part0) in
      let fieldArgs := strings.Split part1 "," in
      if String.eqb calcOp "add" || String.eqb calcOp "sum" then
        Some (calcAdd fieldArgs result)
      else if String.eqb calcOp "multiply" || String.eqb calcOp "product" then
        Some (calcMultiply fieldArgs result)
      else if String.eqb calcOp "subtract" then calcSubtract fieldArgs result
      else if String.eqb calcOp "divide" then calcDivide fieldArgs result
      else None
  | _ => None
  end.

(** One iteration of the loop of [ApplyTransformations] on the map
    [result]. *)
Definition applyTransformation (t : Transformation) (result : datamap) : datamap :=
  if String.eqb t.(Operation) "set" then
    match t.(TValue) with
    | VStr strVal =>
        if strings.HasPrefix strVal "$" then
          let substituted := SubstituteVariables t.(TValue) result in
          if is_nil substituted then result
          else <[t.(TField) := substituted]> result
        else <[t.(TField) := t.(TValue)]> result
    | _ => <[t.(TField) := t.(TValue)]> result
    end
  else if String.eqb t.(Operation) "remove" then
    delete t.(TField) result
  else if String.eqb t.(Operation) "append" then
    let valueToAppend := SubstituteVariables t.(TValue) result in
    match result !! t.(TField) with
    | None | Some VNil => <[t.(TField) := valueToAppend]> result
    | Some currentVal =>
        <[t.(TField) := VStr (Sprint currentVal +:+ Sprint valueToAppend)]> result
    end
  else if String.eqb t.(Operation) "calculate" then
    if String.eqb t.(Formula) "" || String.eqb t.(TField) "" then result
    else match calculate t.(Formula) result with
         | Some calcResult => <[t.(TField) := VFloat64 calcResult]> result
         | None => result
         end
  else result.

(** [ApplyTransformations], on the contents of the maps: the contents of
    the map it returns, from the contents of [data]. *)
Definition ApplyTransformations
    (transformations : list Transformation) (data : datamap) : datamap :=
  match transformations with
  | [] => data
  | _ => foldl (fun result t => applyTransformation t result) data transformations
  end.

(** *** Maps as references

    A Go map is a reference.  [ApplyTransformations] is the one function
    whose specification speaks of the identity of the map it returns, so
    it is also given over a heap of maps: [make] takes a fresh address,
    the [range] loop copies the entries of [data] one by one, and every
    transformation updates the map at [result] in place.  Only the maps
    passed and returned have an address here: the function writes to
    [result] alone, never to a map nested in a value. *)


Definition deref (h : heap) (r : ref) : datamap := default ∅ (h !! r).

(** [m[k] = v] on the map at [r] *)
Definition store_entry (r : ref) (k : string) (v : value) (h : heap) : heap :=
  <[r := <[k := v]> (deref h r)]> h.

Definition ApplyTransformations_ref
    (transformations : list Transformation) (data : ref) (h : heap) : ref * heap :=
  match transformations with
  | [] => (data, h)
  | _ =>
      let result := fresh (dom h) in
      let h := <[result := ∅]> h in
      let h := map_fold (store_entry result) h (deref h data) in
      let h := foldl (fun h t => <[result := applyTransformation t (deref h result)]> h)
                     h transformations in
      (result, h)
  end.

(** *** Conditions *)

(** The loop at the head of [evaluateCondition]: [m[part]] without a
    presence test, and [None] for the early [return false] when the value
    at hand is not a map. *)
Fixpoint walkField (fieldParts : list string) (fieldValue : value) : option value :=
  match fieldParts with
  | [] => Some fieldValue
  | part :: rest =>
      match fieldValue with
      | VMap PlainMap m => walkField rest (index m part)
      | _ => None
      end
  end.

(** [evaluateCondition].  The value the loop computes is overwritten by
    the lookup [data[condition.Field]] that follows it. *)
Definition evaluateCondition (condition : Condition) (data : datamap) : bool :=
  let fieldParts := strings.Split condition.(Field) "." in
  match walkField fieldParts (VMap PlainMap data) with
  | None => false
  | Some _ =>
      match data !! condition.(Field) with
      | None => String.eqb condition.(Operator) "neq"
      | Some VNil =>
          if String.eqb condition.(Operator) "eq" then is_nil condition.(Value)
          else if String.eqb condition.(Operator) "neq" then negb (is_nil condition.(Value))
          else false
      | Some fieldValue =>
          let op := condition.(Operator) in
          if String.eqb op "eq" then DeepEqual fieldValue condition.(Value)
          else if String.eqb op "neq" then negb (DeepEqual fieldValue condition.(Value))
          else if String.eqb op "contains" then
            match fieldValue, condition.(Value) with
            | VStr sVal, VStr cVal => strings.Contains sVal cVal
            | _, _ => false
            end
          else if String.eqb op "in" then
            match condition.(Value) with
            | VList _ items => existsb (fun item => DeepEqual fieldValue item) items
            | _ => false
            end
          else if String.eqb op "gt" || String.eqb op "lt"
                  || String.eqb op "gte" || String.eqb op "lte" then
            match convertToFloat64 fieldValue, convertToFloat64 condition.(Value) with
            | Some fvFloat, Some cvFloat =>
                if String.eqb op "gt" then PrimFloat.ltb cvFloat fvFloat
                else if String.eqb op "lt" then PrimFloat.ltb fvFloat cvFloat
                else if String.eqb op "gte" then PrimFloat.leb cvFloat fvFloat
                else PrimFloat.leb fvFloat cvFloat
            | _, _ => false
            end
          else false
      end
  end.

(** [evaluateConditions]: the first condition that is not met ends the
    loop with [false]. *)
Fixpoint evaluateConditions (conditions : list Condition) (data : datamap) : bool :=
  match conditions with
  | [] => true
  | cond :: rest =>
      if evaluateCondition cond data then evaluateConditions rest data else false
  end.

(** *** The flow interpreter *)

(** The four results of [ProcessConditionalFlow] and [processAction]. *)
Record FlowResult := {
  responseToSend : value;
  finalDataState : datamap;
  shouldSave : bool;
  err : option error;
}.

(** A result with an error does not ask for a save. *)
Definition no_save_on_err (r : FlowResult) : Prop :=
  is_Some r.(err) -> r.(shouldSave) = false.

(** [fiber.Map{"error": msg}] *)
Definition errorMap (msg : string) : value :=
  VMap FiberMap {[ "error" := VStr msg ]}.

(** [fiber.Map{"status": "error", "message": msg}] *)
Definition statusErrorMap (msg : string) : value :=
  VMap FiberMap (<["status" := VStr "error"]> {[ "message" := VStr msg ]}).

(** Case ["return"] with a [[]interface{}]: the loop over the items.  Its
    state is [(returnMap, finalReturnData)]; [finalReturnData] is assigned
    inside the loop, once per item. *)
Definition returnFromPairs (v : list value) (dataAfterTransform : datamap) : value :=
  snd (foldl
         (fun st item =>
            let returnMap :=
              match item with
              | VMap PlainMap kvPair =>
                  match kvPair !! "Key" with
                  | Some (VStr key) => <[key := index kvPair "Value"]> (fst st)
                  | _ => fst st
                  end
              | _ => fst st
              end in
            (returnMap, SubstituteVariables (VMap PlainMap returnMap) dataAfterTransform))
         (∅, VNil) v).

(** The map the loop of case ["return"] has built when it ends. *)
Definition foldPairs (v : list value) : datamap :=
  foldl (fun returnMap item =>
           match item with
           | VMap PlainMap kvPair =>
               match kvPair !! "Key" with
               | Some (VStr key) => <[key := index kvPair "Value"]> returnMap
               | _ => returnMap
               end
           | _ => returnMap
           end) ∅ v.

(** Case ["apiCall"]: the value passed for one entry of
    [action.ApiCall.Parameters], or [None] when the entry is left out of
    [callParams]. *)
Definition callParam (v : value) (dataAfterTransform : datamap) : option value :=
  match v with
  | VStr strVal =>
      if strings.HasPrefix strVal "$" then
        let paramName := strings.TrimPrefix strVal "$" in
        let fieldParts := strings.Split paramName "." in
        match default VNil (lookupPath fieldParts (VMap PlainMap dataAfterTransform)) with
        | VNil => None
        | value_ => Some value_
        end
      else Some v
  | _ => Some v
  end.

(** The loop "Validate required parameters": an entry of [callParams]
    that is [nil], if there is one.  Go ranges over a map in an order it
    does not fix; the first such entry in key order stands for the one
    found. *)
Definition nilParam (callParams : datamap) : option string :=
  match filter (fun kv => is_nil (snd kv)) (map_to_list callParams) with
  | (k, _) :: _ => Some k
  | [] => None
  end.

(** Normalising the response of the called flow. *)
Definition processResponse (apiResponse : value) : value :=
  match apiResponse with
  | VDoc v =>
      match bsonToM v with
      | Some m => VMap BsonM m
      | None => apiResponse
      end
  | VMap FiberMap v =>
      match v !! "data" with
      | Some data => data
      | None => apiResponse
      end
  | _ => apiResponse
  end.

(** Storing at a dotted [resultField]: missing intermediate maps are
    created; [None] when an intermediate value is not a
    [map[string]interface{}] (nothing has been created by then). *)
Fixpoint storeNested (parts : list string) (v : value) (current : datamap)
  : option datamap :=
  match parts with
  | [] => Some current
  | [last] => Some (<[last := v]> current)
  | part :: rest =>
      let current :=
        match current !! part with
        | None => <[part := VMap PlainMap ∅]> current
        | Some _ => current
        end in
      match current !! part with
      | Some (VMap PlainMap next) =>
          match storeNested rest v next with
          | Some next' => Some (<[part := VMap PlainMap next']> current)
          | None => None
          end
      | _ => None
      end
  end.

(** [processAction].  [recur] is [ProcessConditionalFlow], which calls it
    and which it calls; a result [None] is a recursion that does not
    end within the depth allowed. *)
Definition processAction
    (recur : option ConditionalBlock -> datamap -> database.Store -> string -> string
             -> option FlowResult)
    (action : option ActionDefinition) (dataBeforeAction : datamap)
    (store : database.Store) (dbName collName : string) : option FlowResult :=
  match action with
  | None =>
      Some {| responseToSend := VMap PlainMap dataBeforeAction;
              finalDataState := dataBeforeAction; shouldSave := false; err := None |}
  | Some action =>
      let dataAfterTransform := ApplyTransformations action.(Transform) dataBeforeAction in
      if String.eqb action.(Type_) "return" then
        let finalReturnData :=
          match action.(ReturnData) with
          | VList SliceAny v => returnFromPairs v dataAfterTransform
          | _ => SubstituteVariables action.(ReturnData) dataAfterTransform
          end in
        Some {| responseToSend := finalReturnData; finalDataState := dataAfterTransform;
                shouldSave := action.(SaveData); err := None |}
      else if String.eqb action.(Type_) "conditionalBlock" then
        match action.(ConditionalFlow) with
        | None =>
            Some {| responseToSend := VMap PlainMap dataAfterTransform;
                    finalDataState := dataAfterTransform;
                    shouldSave := action.(SaveData); err := None |}
        | Some _ =>
            recur action.(ConditionalFlow) dataAfterTransform store dbName collName
        end
      else if String.eqb action.(Type_) "continue" then
        Some {| responseToSend := VMap PlainMap dataAfterTransform;
                finalDataState := dataAfterTransform;
                shouldSave := action.(SaveData); err := None |}
      else if String.eqb action.(Type_) "apiCall" then
        match action.(ApiCall_) with
        | None =>
            Some {| responseToSend := statusErrorMap "Invalid API call configuration";
                    finalDataState := dataAfterTransform; shouldSave := false; err := None |}
        | Some apiCall =>
            match store.(database.GetAPIDefinitionByName) apiCall.(ApiName) with
            | inr e =>
                Some {| responseToSend :=
                          errorMap ("Failed to process API call to " +:+ apiCall.(ApiName));
                        finalDataState := dataAfterTransform;
                        shouldSave := false; err := Some e |}
            | inl targetAPI =>
                let callParams :=
                  omap (fun v => callParam v dataAfterTransform) apiCall.(Parameters) in
                match nilParam callParams with
                | Some k =>
                    Some {| responseToSend :=
                              statusErrorMap ("Missing required parameter: " +:+ k);
                            finalDataState := dataAfterTransform;
                            shouldSave := false; err := None |}
                | None =>
                    match recur targetAPI.(Flow) callParams store
                                targetAPI.(Database) targetAPI.(Collection) with
                    | None => None
                    | Some called =>
                        match called.(err) with
                        | Some callErr =>
                            Some {| responseToSend :=
                                      errorMap ("API call to " +:+ apiCall.(ApiName)
                                                +:+ " failed: " +:+ callErr);
                                    finalDataState := dataAfterTransform;
                                    shouldSave := false; err := Some callErr |}
                        | None =>
                            let processedResponse := processResponse called.(responseToSend) in
                            let resultField := apiCall.(ResultField) in
                            let stored :=
                              if strings.Contains resultField "." then
                                storeNested (strings.Split resultField ".")
                                            processedResponse dataAfterTransform
                              else Some (<[resultField := processedResponse]> dataAfterTransform) in
                            match stored with
                            | None =>
                                Some {| responseToSend := statusErrorMap "Invalid result field path";
                                        finalDataState := dataAfterTransform;
                                        shouldSave := false; err := None |}
                            | Some dataAfterTransform =>
                                let finalState :=
                                  ApplyTransformations action.(Transform) dataAfterTransform in
                                match action.(ReturnData) with
                                | VMap PlainMap returnMap =>
                                    match SubstituteVariables (VMap PlainMap returnMap) finalState with
                                    | VMap PlainMap finalResult =>
                                        Some {| responseToSend := VMap PlainMap finalResult;
                                                finalDataState := finalResult;
                                                shouldSave := action.(SaveData); err := None |}
                                    | _ =>
                                        Some {| responseToSend := VMap PlainMap finalState;
                                                finalDataState := finalState;
                                                shouldSave := action.(SaveData); err := None |}
                                    end
                                | _ =>
                                    Some {| responseToSend := VMap PlainMap finalState;
                                            finalDataState := finalState;
                                            shouldSave := action.(SaveData); err := None |}
                                end
                            end
                        end
                    end
                end
            end
        end
      else
        let e := "unknown action type: " +:+ action.(Type_) in
        Some {| responseToSend := errorMap e; finalDataState := dataAfterTransform;
                shouldSave := false; err := Some e |}
  end.

(** [ProcessConditionalFlow].  The recursion follows the flow through
    nested blocks and, by [apiCall], into the flows of other definitions,
    which may call back; [fuel] bounds its depth and [None] is a flow
    that goes deeper. *)
Fixpoint ProcessConditionalFlow (fuel : nat)
    (flow : option ConditionalBlock) (initialData : datamap)
    (store : database.Store) (dbName collName : string) : option FlowResult :=
  match fuel with
  | O => None
  | S fuel =>
      let currentDataState := initialData in
      match flow with
      | None =>
          Some {| responseToSend := VMap PlainMap initialData;
                  finalDataState := initialData; shouldSave := false; err := None |}
      | Some flow =>
          let conditionsMet := evaluateConditions flow.(Conditions) currentDataState in
          let actionToProcess := if conditionsMet then flow.(Then) else flow.(Else) in
          match actionToProcess with
          | Some _ =>
              match processAction (ProcessConditionalFlow fuel) actionToProcess
                                  currentDataState store dbName collName with
              | None => None
              | Some fromAction =>
                  match fromAction.(err) with
                  | Some actionErr =>
                      Some {| responseToSend := errorMap actionErr;
                              finalDataState := fromAction.(finalDataState);
                              shouldSave := false; err := Some actionErr |}
                  | None =>
                      Some {| responseToSend := fromAction.(responseToSend);
                              finalDataState := fromAction.(finalDataState);
                              shouldSave := fromAction.(shouldSave); err := None |}
                  end
              end
          | None =>
              Some {| responseToSend := VMap PlainMap currentDataState;
                      finalDataState := currentDataState;
                      shouldSave := false; err := None |}
          end
      end
  end.

End WithGoLib.
End core.

(** ** package api: the dynamic route handler *)

Module api.
Section WithGoLib.
Context {L : GoLib}.

(** What the handler reads from the [fiber.Ctx] of a request. *)
Record Request := {
  ReqMethod : string;                  (* c.Method() *)
  ReqPath : string;                    (* c.Path() *)
  AllParams : gmap string string;      (* c.AllParams() *)
  QueryArgs : list (string * string);  (* the pairs VisitAll visits, in order *)
  Body : option datamap;               (* c.BodyParser(&bodyData); None on error *)
}.

(** What the handler does besides answering: it enters the flow
    interpreter or the default logic of the verb, and it calls the store
    itself to find, delete or save data. *)
Inductive event :=
| EvFlow
| EvDefault
| EvFind (dbName collName : string) (filter : datamap)
| EvDelete (dbName collName : string) (filter : datamap)
| EvSave (dbName collName uniqueKey : string) (data : datamap).

Definition is_save (e : event) : bool :=
  match e with EvSave _ _ _ _ => true | _ => false end.

Definition no_save (evs : list event) : Prop :=
  Forall (fun ev => is_save ev = false) evs.

(** How the handler ends: [c.Next()], a JSON response with its status, or
    a panic (a failed type assertion). *)
Inductive Answer :=
| Next
| Sent (statusCode : Z) (json : value)
| Panic.

Record Handled := {
  answer : Answer;
  trace : list event;
}.

(** [convertArrayToMap] *)
Definition hasKeyValue (item : value) : bool :=
  match item with
  | VMap PlainMap m =>
      (bool_decide (is_Some (m !! "Key")) || bool_decide (is_Some (m !! "key")))
      && (bool_decide (is_Some (m !! "Value")) || bool_decide (is_Some (m !! "value")))
  | _ => false
  end.

Definition pairKey (m : datamap) : string :=
  let asString (k : value) := match k with VStr s => s | _ => "" end in
  match m !! "Key" with
  | Some VNil | None =>
      match m !! "key" with
      | Some VNil | None => ""
      | Some k => asString k
      end
  | Some k => asString k
  end.

Definition pairValue (m : datamap) : value :=
  match m !! "Value" with
  | Some v => v
  | None => index m "value"
  end.

Definition convertArrayToMap (data : value) : value :=
  match data with
  | VList SliceAny slice | VList SliceMap slice =>
      if (length slice =? 0)%nat then data
      else if forallb hasKeyValue slice then
        VMap PlainMap
          (foldl (fun result item =>
                    match item with
                    | VMap PlainMap m =>
                        let key := pairKey m in
                        if String.eqb key "" then result
                        else <[key := pairValue m]> result
                    | _ => result
                    end)
                 ∅ slice)
      else data
  | _ => data
  end.

(** Step 2: the request data, path parameters first, then the query
    arguments and the body fields whose key is still free. *)
Definition requestData (req : Request) : datamap :=
  let reqData : datamap := VStr <$> req.(AllParams) in
  let reqData :=
    foldl (fun (reqData : datamap) kv =>
             match reqData !! fst kv with
             | None => <[fst kv := VStr (snd kv)]> reqData
             | Some _ => reqData
             end)
          reqData req.(QueryArgs) in
  if String.eqb req.(ReqMethod) "POST" || String.eqb req.(ReqMethod) "PUT"
     || String.eqb req.(ReqMethod) "PATCH" then
    match req.(Body) with
    | Some bodyData => reqData ∪ bodyData
    | None => reqData
    end
  else reqData.

(** Step 3: the first required parameter that is missing, [nil] or
    printed as the empty string. *)
Definition paramMissing (param : Parameter_) (reqData : datamap) : bool :=
  param.(Required) &&
  match reqData !! param.(PName) with
  | None => true
  | Some val => is_nil val || String.eqb (Sprint val) ""
  end.

Fixpoint missingRequired (params : list Parameter_) (reqData : datamap) : option string :=
  match params with
  | [] => None
  | param :: rest =>
      if paramMissing param reqData then Some param.(PName)
      else missingRequired rest reqData
  end.

(** The variables of the handler after step 5. *)
Record Logic := {
  response : value;
  dataForSaving : option datamap;
  saveData : bool;
  processingError : option error;
  status : Z;
  events : list event;
}.

Definition failed (e : error) (code : Z) (evs : list event) : Logic :=
  {| response := core.errorMap e; dataForSaving := None; saveData := false;
     processingError := Some e; status := code; events := evs |}.

(** Step 5: the conditional flow, or the default logic of the verb.
    [None] is a flow deeper than [fuel]. *)
Definition processLogic (fuel : nat) (api : ApiDefinition) (store : database.Store)
    (method : string) (currentDataState : datamap) : option Logic :=
  match api.(Flow) with
  | Some _ =>
      match core.ProcessConditionalFlow fuel api.(Flow) currentDataState store
                                        api.(Database) api.(Collection) with
      | None => None
      | Some r =>
          match r.(core.err) with
          | Some e => Some (failed ("failed to process request logic: " +:+ e) 500 [EvFlow])
          | None =>
              Some {| response := r.(core.responseToSend);
                      dataForSaving :=
                        if r.(core.shouldSave) then Some r.(core.finalDataState) else None;
                      saveData := r.(core.shouldSave);
                      processingError := None; status := 200; events := [EvFlow] |}
          end
      end
  | None =>
      let db := api.(Database) in
      let coll := api.(Collection) in
      if String.eqb method "GET" then
        let filter := currentDataState in
        match store.(database.FindData) db coll filter with
        | inr e =>
            Some (failed ("failed to retrieve data: " +:+ e) 500
                         [EvDefault; EvFind db coll filter])
        | inl results =>
            Some {| response := VList SliceBsonM (VMap BsonM <$> results);
                    dataForSaving := None; saveData := false;
                    processingError := None; status := 200;
                    events := [EvDefault; EvFind db coll filter] |}
        end
      else if String.eqb method "POST" || String.eqb method "PUT" then
        Some {| response := VMap PlainMap currentDataState;
                dataForSaving := Some currentDataState; saveData := true;
                processingError := None; status := 200; events := [EvDefault] |}
      else if String.eqb method "DELETE" then
        let filter := currentDataState in
        if (size filter =? 0)%nat then
          Some (failed "DELETE requires parameters to identify data to delete" 400 [EvDefault])
        else
          match store.(database.DeleteData) db coll filter with
          | inr e =>
              Some (failed ("failed to delete data: " +:+ e) 500
                           [EvDefault; EvDelete db coll filter])
          | inl delCount =>
              Some {| response :=
                        VMap FiberMap (<["success" := VBool true]>
                                         {[ "deletedCount" := VInt Int64 delCount ]});
                      dataForSaving := None; saveData := false;
                      processingError := None; status := 200;
                      events := [EvDefault; EvDelete db coll filter] |}
          end
      else
        Some {| response :=
                  VMap FiberMap (<["success" := VBool true]>
                                   {[ "message" := VStr ("Method " +:+ method +:+ " received") ]});
                dataForSaving := None; saveData := false;
                processingError := None; status := 200; events := [EvDefault] |}
  end.

(** Step 6: save if required and no error so far.  The right-hand
    result is the panic of [response.(fiber.Map)] on a response of another
    type, with the events up to it. *)
Definition saveStep (api : ApiDefinition) (store : database.Store) (st : Logic)
  : Logic + list event :=
  if st.(saveData) && negb (bool_decide (is_Some st.(processingError))) then
    match st.(dataForSaving) with
    | None =>
        let e := "internal error: data marked for saving is missing" in
        inl {| response := core.errorMap e; dataForSaving := None;
                saveData := st.(saveData); processingError := Some e;
                status := 500; events := st.(events) |}
    | Some data =>
        let db := api.(Database) in
        let coll := api.(Collection) in
        let evs := (st.(events) ++ [EvSave db coll api.(UniqueKey) data])%list in
        match store.(database.SaveData) db coll api.(UniqueKey) data with
        | Some e =>
            let e := "failed to save data to database: " +:+ e in
            match st.(response) with
            | VNil =>
                inl {| response := core.errorMap e; dataForSaving := st.(dataForSaving);
                        saveData := st.(saveData); processingError := Some e;
                        status := 500; events := evs |}
            | VMap FiberMap respMap =>
                if is_nil (index respMap "error") then
                  inl {| response := core.errorMap e; dataForSaving := st.(dataForSaving);
                          saveData := st.(saveData); processingError := Some e;
                          status := 500; events := evs |}
                else
                  inl {| response := st.(response); dataForSaving := st.(dataForSaving);
                          saveData := st.(saveData); processingError := Some e;
                          status := st.(status); events := evs |}
            | _ => inr evs
            end
        | None =>
            let response' :=
              match st.(response) with
              | VMap FiberMap respMap =>
                  if is_nil (index respMap "message") && is_nil (index respMap "data") then
                    VMap FiberMap
                      (<["message" := VStr "Data processed and saved successfully"]> respMap)
                  else st.(response)
              | _ => st.(response)
              end in
            inl {| response := response'; dataForSaving := st.(dataForSaving);
                    saveData := st.(saveData); processingError := None;
                    status := st.(status); events := evs |}
        end
    end
  else inl st.

(** Step 8, the status code: taken from the response when it carries
    one. *)
Definition codeOf (code : value) (statusCode : Z) : Z :=
  match code with
  | VInt Int v => v
  | VFloat64 v => float_to_int v
  | _ => statusCode
  end.

Definition responseStatus (response : value) : Z :=
  match response with
  | VMap FiberMap respMap =>
      let statusCode :=
        match respMap !! "opdResult" with
        | Some (VMap PlainMap opdResult) =>
            match opdResult !! "statusCode" with
            | Some code => codeOf code 200
            | None => 200
            end
        | _ => 200
        end in
      match respMap !! "statusCode" with
      | Some code => codeOf code statusCode
      | None => statusCode
      end
  | VDoc primitiveDoc =>
      match bsonToM primitiveDoc with
      | None => 500
      | Some convertedMap =>
          match convertedMap !! "statusCode" with
          | Some (VInt Int32 v) | Some (VInt Int64 v) => v
          | Some (VFloat64 v) => float_to_int v
          | _ => 200
          end
      end
  | _ => 200
  end.

(** Step 8, the body. *)
Definition shapeResponse (response : value) : value :=
  let response :=
    match response with
    | VMap PlainMap mapResp => VMap FiberMap mapResp
    | _ => response
    end in
  match response with
  | VDoc primitiveDoc =>
      match bsonToM primitiveDoc with
      | None => core.errorMap "Internal server error"
      | Some convertedMap => VMap BsonM convertedMap
      end
  | VMap FiberMap respMap =>
      match respMap !! "data" with
      | Some (VDoc primitiveData) =>
          match bsonToM primitiveData with
          | None => VDoc primitiveData
          | Some convertedData => VMap BsonM convertedData
          end
      | Some data => convertArrayToMap data
      | None => response
      end
  | VList _ _ =>
      match convertArrayToMap response with
      | VMap PlainMap convertedMap =>
          if (0 <? size convertedMap)%nat then VMap PlainMap convertedMap else response
      | _ => response
      end
  | _ => response
  end.

(** Steps 7 and 8. *)
Definition finish (st : Logic) : Answer :=
  match st.(processingError) with
  | Some e =>
      let code := if (st.(status) =? 200)%Z then 500 else st.(status) in
      let response :=
        match st.(response) with
        | VMap FiberMap respMap =>
            if is_nil (index respMap "error") then core.errorMap e else st.(response)
        | _ => core.errorMap e
        end in
      Sent code response
  | None =>
      let response :=
        if is_nil st.(response) then VMap FiberMap {[ "success" := VBool true ]}
        else st.(response) in
      Sent (responseStatus response) (shapeResponse response)
  end.

(** [DynamicAPIHandler].  [routes] is [h.dynamicRoutes]. *)
Definition DynamicAPIHandler (fuel : nat) (routes : gmap string ApiDefinition)
    (store : database.Store) (req : Request) : option Handled :=
  let key := req.(ReqMethod) +:+ ":" +:+ req.(ReqPath) in
  match routes !! key with
  | None => Some {| answer := Next; trace := [] |}
  | Some api =>
      let reqData := requestData req in
      match missingRequired api.(Params) reqData with
      | Some name =>
          Some {| answer :=
                    Sent 400 (core.errorMap ("Missing or empty required parameter: " +:+ name));
                  trace := [] |}
      | None =>
          if String.eqb api.(Database) "" || String.eqb api.(Collection) "" then
            Some {| answer :=
                      Sent 500 (core.errorMap
                        "API configuration error: missing target database or collection");
                    trace := [] |}
          else
            let currentDataState := reqData in
            match processLogic fuel api store req.(ReqMethod) currentDataState with
            | None => None
            | Some st =>
                match saveStep api store st with
                | inr evs => Some {| answer := Panic; trace := evs |}
                | inl st' => Some {| answer := finish st'; trace := st'.(events) |}
                end
            end
      end
  end.

End WithGoLib.
End api.

(** ** A small implementation of [GoLib]

    For running the model on examples.  It agrees with Go on what the
    examples use: ASCII letters and white space, plain decimal literals
    short enough to be converted exactly (at most 15 digits), [%v] of
    [nil], booleans, integers and strings, and documents without repeated
    keys. *)

Module smallLib.

Definition lower_byte (c : ascii) : ascii :=
  let n := nat_of_ascii c in
  if ((65 <=? n) && (n <=? 90))%nat then ascii_of_nat (n + 32) else c.

Fixpoint to_lower (s : string) : string :=
  match s with
  | EmptyString => EmptyString
  | String c s' => String (lower_byte c) (to_lower s')
  end.

Definition is_space (c : ascii) : bool :=
  let n := nat_of_ascii c in
  ((9 <=? n) && (n <=? 13) || (n =? 32))%nat.

Fixpoint trim_left (s : string) : string :=
  match s with
  | String c s' => if is_space c then trim_left s' else s
  | EmptyString => EmptyString
  end.

Fixpoint trim_right (s : string) : string :=
  match s with
  | EmptyString => EmptyString
  | String c s' =>
      match trim_right s' with
      | EmptyString => if is_space c then EmptyString else String c EmptyString
      | t => String c t
      end
  end.

Definition trim_space (s : string) : string := trim_right (trim_left s).

(** The number a string of decimal digits writes, after [acc]. *)
Fixpoint digits (s : string) (acc : Z) : option Z :=
  match s with
  | EmptyString => Some acc
  | String c s' =>
      let n := nat_of_ascii c in
      if ((48 <=? n) && (n <=? 57))%nat
      then digits s' (10 * acc + Z.of_nat (n - 48))%Z
      else None
  end.

Definition unsigned_literal (s : string) : option float :=
  let '(whole, frac) :=
    match strings.Cut s "." with
    | Some (a, b) => (a, b)
    | None => (s, EmptyString)
    end in
  if ((String.length whole + String.length frac =? 0)%nat
      || (15 <? String.length whole + String.length frac)%nat) then None
  else
    match digits (whole +:+ frac) 0 with
    | Some m =>
        Some (PrimFloat.div (PrimFloat.of_uint63 (Uint63.of_Z m))
                (PrimFloat.of_uint63 (Uint63.of_Z (10 ^ Z.of_nat (String.length frac)))))
    | None => None
    end.

Definition parse_float (s : string) : option float :=
  match s with
  | String "-" s' => PrimFloat.opp <$> unsigned_literal s'
  | String "+" s' => unsigned_literal s'
  | _ => unsigned_literal s
  end.

Definition sprint (v : value) : string :=
  match v with
  | VNil => "<nil>"
  | VBool true => "true"
  | VBool false => "false"
  | VInt _ z => pretty z
  | VStr s => s
  | VFloat32 _ | VFloat64 _ => "<float>"
  | VList _ _ | VMap _ _ | VDoc _ => "<composite>"
  end.

Definition map_type_eqb (a b : map_type) : bool :=
  match a, b with
  | PlainMap, PlainMap | FiberMap, FiberMap | BsonM, BsonM => true
  | _, _ => false
  end.

Definition slice_type_eqb (a b : slice_type) : bool :=
  match a, b with
  | SliceAny, SliceAny | SliceMap, SliceMap | SliceBsonM, SliceBsonM => true
  | _, _ => false
  end.

Definition int_type_eqb (a b : int_type) : bool :=
  match a, b with
  | Int, Int | Int8, Int8 | Int16, Int16 | Int32, Int32 | Int64, Int64
  | Uint, Uint | Uint8, Uint8 | Uint16, Uint16 | Uint32, Uint32 | Uint64, Uint64 => true
  | _, _ => false
  end.

(** Same dynamic type and equal contents; floats compare with [==]. *)
Fixpoint deep_equal (a b : value) {struct a} : bool :=
  match a, b with
  | VNil, VNil => true
  | VBool x, VBool y => Bool.eqb x y
  | VInt s x, VInt t y => int_type_eqb s t && Z.eqb x y
  | VFloat32 x, VFloat32 y => PrimFloat.eqb x y
  | VFloat64 x, VFloat64 y => PrimFloat.eqb x y
  | VStr x, VStr y => String.eqb x y
  | VList s x, VList t y =>
      slice_type_eqb s t &&
      (fix all2 (x y : list value) : bool :=
         match x, y with
         | [], [] => true
         | a :: x', b :: y' => deep_equal a b && all2 x' y'
         | _, _ => false
         end) x y
  | VMap s x, VMap t y =>
      map_type_eqb s t && bool_decide (dom x = dom y) &&
      map_fold (fun k v acc => acc && match y !! k with
                                      | Some w => deep_equal v w
                                      | None => false
                                      end) true x
  | VDoc x, VDoc y =>
      (fix all2 (x y : list (string * value)) : bool :=
         match x, y with
         | [], [] => true
         | (j, a) :: x', (k, b) :: y' => String.eqb j k && deep_equal a b && all2 x' y'
         | _, _ => false
         end) x y
  | _, _ => false
  end.

Definition trunc (f : float) : Z :=
  match FloatOps.Prim2SF f with
  | SpecFloat.S754_finite s m e =>
      let n := if (0 <=? e)%Z then Z.shiftl (Zpos m) e else Z.shiftr (Zpos m) (- e) in
      if s then (- n)%Z else n
  | _ => 0%Z
  end.

Definition lib : GoLib := {|
  ToLower := to_lower;
  TrimSpace := trim_space;
  ParseFloat := parse_float;
  SscanFloat := parse_float;
  Sprint := sprint;
  DeepEqual := deep_equal;
  bsonToM := fun d => Some (list_to_map d);
  float_to_int := trunc;
|}.

End smallLib.

(** ** Data for the examples *)

Module scenario.

Definition num (z : Z) : value := VFloat64 (core.float64_of_Z z).

Definition returning (returnData : value) : ActionDefinition :=
  {| Type_ := "return"; ReturnData := returnData; ConditionalFlow := None;
     SaveData := false; Transform := []; ApiCall_ := None |}.

Definition always (action : ActionDefinition) : ConditionalBlock :=
  {| Conditions := []; Then := Some action; Else := None |}.

(** S2: the role check. *)
Definition role_flow : ConditionalBlock :=
  {| Conditions := [ {| Field := "role"; Operator := "eq"; Value := VStr "admin" |} ];
     Then := Some (returning (VMap PlainMap
               (<["ok" := VBool true]> {[ "who" := VStr "$name" ]})));
     Else := Some (returning (VMap PlainMap {[ "ok" := VBool false ]})) |}.

(** S3 and S4: formulas. *)
Definition total : Transformation :=
  {| Operation := "calculate"; TField := "total"; TValue := VNil;
     Formula := "add:$price,$tax,-$discount,1.5" |}.

Definition prices : datamap :=
  <["price" := num 10]> (<["tax" := num 2]> {[ "discount" := num 3 ]}).

Definition ratio : Transformation :=
  {| Operation := "calculate"; TField := "r"; TValue := VNil;
     Formula := "divide:$a,$b" |}.

Definition five_zero : datamap := <["a" := num 5]> {[ "b" := num 0 ]}.
Definition five_two : datamap := <["a" := num 5]> {[ "b" := num 2 ]}.

(** A [set] from a path. *)
Definition copy_to (field path : string) : Transformation :=
  {| Operation := "set"; TField := field; TValue := VStr path; Formula := "" |}.

(** S5: definition A calls definition B. *)
Definition defB : ApiDefinition :=
  {| Name := "B"; Endpoint := "/b"; Method := "GET";
     Database := "app"; Collection := "users"; Params := [];
     Flow := Some (always (returning (VMap PlainMap
               (<["id" := VStr "$uid"]> {[ "label" := VStr "u" ]}))));
     UniqueKey := "" |}.

Definition callB (resultField : string) (returnData : value) : ActionDefinition :=
  {| Type_ := "apiCall"; ReturnData := returnData; ConditionalFlow := None;
     SaveData := false; Transform := [];
     ApiCall_ := Some {| ApiName := "B"; Parameters := {[ "uid" := VStr "$uid" ]};
                         ResultField := resultField |} |}.

Definition defA : ApiDefinition :=
  {| Name := "A"; Endpoint := "/a"; Method := "GET";
     Database := "app"; Collection := "users"; Params := [];
     Flow := Some (always (callB "out.user"
               (VMap PlainMap {[ "user" := VStr "$out.user" ]})));
     UniqueKey := "" |}.

(** A store that holds A and B and an empty collection. *)
Definition store : database.Store :=
  {| database.GetAPIDefinitionByName := fun name =>
       if String.eqb name "A" then inl defA
       else if String.eqb name "B" then inl defB
       else inr "document not found";
     database.FindData := fun _ _ _ => inl [];
     database.DeleteData := fun _ _ _ => inl 0%Z;
     database.SaveData := fun _ _ _ _ => None |}.

(** S1: the definition with a required parameter, and a request that
    lacks it. *)
Definition defU : ApiDefinition :=
  {| Name := "u"; Endpoint := "/u"; Method := "POST";
     Database := "app"; Collection := "users";
     Params := [ {| PName := "id"; PType := "string"; Required := true |} ];
     Flow := None; UniqueKey := "id" |}.

(** A definition whose flow has an action of an unknown type and asks for
    a save. *)
Definition defBad : ApiDefinition :=
  {| Name := "bad"; Endpoint := "/bad"; Method := "POST";
     Database := "app"; Collection := "users"; Params := [];
     Flow := Some (always {| Type_ := "bogus"; ReturnData := VNil;
                             ConditionalFlow := None; SaveData := true;
                             Transform := []; ApiCall_ := None |});
     UniqueKey := "" |}.

Definition routes : gmap string ApiDefinition :=
  <["GET:/a" := defA]> (<["POST:/u" := defU]> {[ "POST:/bad" := defBad ]}).

Definition request (method path : string) (query : list (string * string))
    (body : option datamap) : api.Request :=
  {| api.ReqMethod := method; api.ReqPath := path; api.AllParams := ∅;
     api.QueryArgs := query; api.Body := body |}.

End scenario.

(** ** Measures on templates and flows *)

Module analysis.

(** The number of constructors of a value. *)
Fixpoint vsize (v : value) : nat :=
  match v with
  | VList _ l => S (list_sum (map vsize l))
  | VMap _ m => S (map_fold (fun _ x acc => vsize x + acc)%nat 0%nat m)
  | VDoc d => S (list_sum (map (fun kv => vsize (snd kv)) d))
  | _ => 1%nat
  end.

(** A template in which [SubstituteVariables] finds no reference: no
    string it reaches starts with [$]. *)
Fixpoint refFree (template : value) : bool :=
  match template with
  | VStr t => negb (strings.HasPrefix t "$")
  | VMap PlainMap t => map_fold (fun _ v acc => refFree v && acc) true t
  | VList SliceAny t => forallb refFree t
  | _ => true
  end.

(** How deep the blocks of a flow are nested, and whether any of its
    actions is an [apiCall]. *)
Fixpoint blockDepth (b : ConditionalBlock) : nat :=
  match b with
  | mkConditionalBlock _ then_ else_ =>
      S (Nat.max (match then_ with Some a => actionDepth a | None => 0%nat end)
                 (match else_ with Some a => actionDepth a | None => 0%nat end))
  end
with actionDepth (a : ActionDefinition) : nat :=
  match a with
  | mkActionDefinition _ _ nested _ _ _ =>
      match nested with Some b => blockDepth b | None => 0%nat end
  end.

Fixpoint blockCallFree (b : ConditionalBlock) : bool :=
  match b with
  | mkConditionalBlock _ then_ else_ =>
      match then_ with Some a => actionCallFree a | None => true end
      && match else_ with Some a => actionCallFree a | None => true end
  end
with actionCallFree (a : ActionDefinition) : bool :=
  match a with
  | mkActionDefinition type_ _ nested _ _ _ =>
      negb (String.eqb type_ "apiCall")
      && match nested with Some b => blockCallFree b | None => true end
  end.

End analysis.

(** ** package database: the methods of [Store]

    The MongoDB driver is behind the calls of [DataDriver] (the dynamic
    collections) and [DefDriver] (the collection of definitions); what a
    call answers is given, and the calls made are recorded in order. *)

Module dbstore.

(** The error values the package exports. *)
Inductive sentinel :=
| ErrNotFound | ErrDuplicateName | ErrDuplicateEndpoint | ErrDuplicateKey
| ErrMissingRequiredFields | ErrUpdateFailed | ErrSaveFailed | ErrDeleteFailed
| ErrConfigError.

Definition sentinel_eqb (a b : sentinel) : bool :=
  match a, b with
  | ErrNotFound, ErrNotFound | ErrDuplicateName, ErrDuplicateName
  | ErrDuplicateEndpoint, ErrDuplicateEndpoint | ErrDuplicateKey, ErrDuplicateKey
  | ErrMissingRequiredFields, ErrMissingRequiredFields
  | ErrUpdateFailed, ErrUpdateFailed | ErrSaveFailed, ErrSaveFailed
  | ErrDeleteFailed, ErrDeleteFailed | ErrConfigError, ErrConfigError => true
  | _, _ => false
  end.

Definition text (s : sentinel) : string :=
  match s with
  | ErrNotFound => "document not found"
  | ErrDuplicateName => "API name already exists"
  | ErrDuplicateEndpoint => "API method and endpoint combination already exists"
  | ErrDuplicateKey => "duplicate key error during insert/update"
  | ErrMissingRequiredFields => "missing required fields"
  | ErrUpdateFailed => "failed to update document"
  | ErrSaveFailed => "failed to save data"
  | ErrDeleteFailed => "failed to delete data"
  | ErrConfigError => "configuration error (e.g., missing db/collection name)"
  end.

(** An error of the package: its message, and the exported errors that
    [errors.Is] finds in its chain.  An error of the driver wraps none
    of them. *)
Record goerror := {
  Error : string;
  wraps : list sentinel;
}.

(** [errors.Is(err, target)] *)
Definition Is (e : goerror) (target : sentinel) : bool :=
  existsb (sentinel_eqb target) e.(wraps).

(** The exported error itself. *)
Definition exported (s : sentinel) : goerror :=
  {| Error := text s; wraps := [s] |}.

(** [fmt.Errorf("%w: " + detail, s)] *)
Definition wrapping (s : sentinel) (detail : string) : goerror :=
  {| Error := text s +:+ ": " +:+ detail; wraps := [s] |}.

(** [fmt.Errorf(prefix + ": %w", err)] on an error of the driver *)
Definition fromDriver (prefix cause : string) : goerror :=
  {| Error := prefix +:+ ": " +:+ cause; wraps := [] |}.

Section WithGoLib.
Context {L : GoLib}.

(** *** Dynamic data *)

Record DataDriver := {
  (* UpdateOne(filter, {"$set": set}) with upsert *)
  UpdateOne : string -> string -> datamap -> datamap -> option string;
  InsertOne : string -> string -> datamap -> option string;
  (* Find, then cursor.All: a query error, a decode error, the documents *)
  Find : string -> string -> datamap -> string + (string + list datamap);
  DeleteMany : string -> string -> datamap -> string + Z;
}.

Inductive call :=
| CallUpdateOne (dbName collName : string) (filter set : datamap)
| CallInsertOne (dbName collName : string) (doc : datamap)
| CallFind (dbName collName : string) (filter : datamap)
| CallDeleteMany (dbName collName : string) (filter : datamap).

(** [getDynamicCollection]: the error, if any. *)
Definition getDynamicCollection (dbName collName : string) : option goerror :=
  if String.eqb dbName "" || String.eqb collName "" then
    Some (wrapping ErrConfigError
            "Database and Collection names cannot be empty for dynamic operation")
  else None.

(** The keys [SaveData] keeps out of the fields it sets. *)
Definition excluded (uniqueKey k : string) : bool :=
  String.eqb k "_id" || String.eqb k uniqueKey.

(** The loop of [SaveData] that builds [updateData]; its state is
    [(updateData, hasOtherFields)]. *)
Definition upsertSet (uniqueKey : string) (data : datamap) : datamap * bool :=
  map_fold (fun k v st =>
              if negb (String.eqb k "_id") && negb (String.eqb k uniqueKey)
              then (<[k := v]> (fst st), true)
              else st)
           (∅, false) data.

(** [SaveData] *)
Definition SaveData (drv : DataDriver) (dbName collName uniqueKey : string)
    (data : datamap) : option goerror * list call :=
  match getDynamicCollection dbName collName with
  | Some e => (Some e, [])
  | None =>
      let insert (why : string) :=
        (match drv.(InsertOne) dbName collName data with
         | Some e => Some (wrapping ErrSaveFailed ("insert failed (" +:+ why +:+ "): " +:+ e))
         | None => None
         end, [CallInsertOne dbName collName data]) in
      if negb (String.eqb uniqueKey "") then
        match data !! uniqueKey with
        | Some uniqueValue =>
            if negb (is_nil uniqueValue) && negb (String.eqb (Sprint uniqueValue) "") then
              let filter : datamap := {[ uniqueKey := uniqueValue ]} in
              let '(updateData, hasOtherFields) := upsertSet uniqueKey data in
              if negb hasOtherFields then (None, [])
              else
                (match drv.(UpdateOne) dbName collName filter updateData with
                 | Some e => Some (wrapping ErrSaveFailed ("upsert failed: " +:+ e))
                 | None => None
                 end, [CallUpdateOne dbName collName filter updateData])
            else insert "unique key missing"
        | None => insert "unique key missing"
        end
      else insert "no unique key"
  end.

(** [FindData] *)
Definition FindData (drv : DataDriver) (dbName collName : string) (filter : datamap)
  : (list datamap + goerror) * list call :=
  match getDynamicCollection dbName collName with
  | Some e => (inr e, [])
  | None =>
      (match drv.(Find) dbName collName filter with
       | inl e => inr (fromDriver "database query failed" e)
       | inr (inl e) => inr (fromDriver "database decode failed" e)
       | inr (inr results) => inl results
       end, [CallFind dbName collName filter])
  end.

(** [DeleteData] *)
Definition DeleteData (drv : DataDriver) (dbName collName : string) (filter : datamap)
  : (Z + goerror) * list call :=
  match getDynamicCollection dbName collName with
  | Some e => (inr e, [])
  | None =>
      if (size filter =? 0)%nat then
        (inr (wrapping ErrDeleteFailed "empty filter provided for delete operation"), [])
      else
        (match drv.(DeleteMany) dbName collName filter with
         | inl e => inr (wrapping ErrDeleteFailed e)
         | inr deletedCount => inl deletedCount
         end, [CallDeleteMany dbName collName filter])
  end.

End WithGoLib.

(** *** Definitions *)

(** What [FindOne(...).Decode] gives: [mongo.ErrNoDocuments], another
    error, or the document with its [_id]. *)
Inductive found :=
| NoDocuments
| FindFailed (e : string)
| Found (id : positive) (doc : ApiDefinition).

(** An error of [InsertOne] or [UpdateOne]: whether
    [mongo.IsDuplicateKeyError] holds of it, and its message. *)
Record writeError := {
  duplicateKey : bool;
  detail : string;
}.

Record DefDriver := {
  (* CountDocuments({name}) *)
  CountName : string -> string + Z;
  (* CountDocuments({method, endpoint}) *)
  CountEndpoint : string -> string -> string + Z;
  (* CountDocuments({method, endpoint, _id: {$ne: id}}) *)
  CountConflict : string -> string -> positive -> string + Z;
  InsertDef : positive -> ApiDefinition -> option writeError;
  FindByName : string -> found;
  FindById : positive -> found;
  (* UpdateOne({name}, {$set: fields of the payload}): an error, or
     MatchedCount and ModifiedCount *)
  UpdateByName : string -> ApiDefinition -> writeError + (Z * Z);
  (* DeleteOne({name}): an error or DeletedCount *)
  DeleteByName : string -> string + Z;
  (* Find({}): an error, or the documents, each decoded or not *)
  FindAll : string + list (option ApiDefinition);
  (* primitive.NewObjectID() *)
  NewObjectID : positive;
}.

Inductive defcall :=
| CallCountName (name : string)
| CallCountEndpoint (method endpoint : string)
| CallCountConflict (method endpoint : string) (id : positive)
| CallInsertDef (id : positive) (api : ApiDefinition)
| CallFindByName (name : string)
| CallFindById (id : positive)
| CallUpdateByName (name : string) (payload : ApiDefinition)
| CallDeleteByName (name : string)
| CallFindAll.

Definition is_write (c : defcall) : bool :=
  match c with
  | CallInsertDef _ _ | CallUpdateByName _ _ | CallDeleteByName _ => true
  | _ => false
  end.

(** The key of a definition in the route table. *)
Definition routeKey (api : ApiDefinition) : string :=
  api.(Method) +:+ ":" +:+ api.(Endpoint).

(** A definition with a method and an endpoint, and one with the five
    fields [CreateAPIDefinition] requires. *)
Definition usable (api : ApiDefinition) : Prop :=
  api.(Method) <> "" /\ api.(Endpoint) <> "".

Definition complete (api : ApiDefinition) : Prop :=
  api.(Name) <> "" /\ api.(Endpoint) <> "" /\ api.(Method) <> ""
  /\ api.(Database) <> "" /\ api.(Collection) <> "".

(** One turn of the loop of [LoadAPIs] over the cursor: what does not
    decode and what has no method or no endpoint is skipped. *)
Definition loadStep (loadedRoutes : gmap string ApiDefinition) (doc : option ApiDefinition)
  : gmap string ApiDefinition :=
  match doc with
  | None => loadedRoutes
  | Some api =>
      if String.eqb api.(Method) "" || String.eqb api.(Endpoint) ""
      then loadedRoutes
      else <[routeKey api := api]> loadedRoutes
  end.

(** [LoadAPIs] *)
Definition LoadAPIs (drv : DefDriver) : gmap string ApiDefinition + goerror :=
  match drv.(FindAll) with
  | inl e => inr (fromDriver "failed to query API definitions" e)
  | inr docs => inl (foldl loadStep ∅ docs)
  end.

(** [CreateAPIDefinition] *)
Definition CreateAPIDefinition (drv : DefDriver) (api : ApiDefinition)
  : (positive + goerror) * list defcall :=
  if String.eqb api.(Name) "" || String.eqb api.(Endpoint) ""
     || String.eqb api.(Method) "" || String.eqb api.(Database) ""
     || String.eqb api.(Collection) "" then
    (inr (exported ErrMissingRequiredFields), [])
  else
    match drv.(CountName) api.(Name) with
    | inl e =>
        (inr (fromDriver "failed to check existing API name" e),
         [CallCountName api.(Name)])
    | inr countName =>
        if (0 <? countName)%Z then
          (inr (wrapping ErrDuplicateName api.(Name)), [CallCountName api.(Name)])
        else
          let checks := [CallCountName api.(Name);
                         CallCountEndpoint api.(Method) api.(Endpoint)] in
          match drv.(CountEndpoint) api.(Method) api.(Endpoint) with
          | inl e => (inr (fromDriver "failed to check existing API endpoint" e), checks)
          | inr countEndpoint =>
              if (0 <? countEndpoint)%Z then
                (inr (wrapping ErrDuplicateEndpoint
                        (api.(Method) +:+ " " +:+ api.(Endpoint))), checks)
              else
                let id := drv.(NewObjectID) in
                let calls := (checks ++ [CallInsertDef id api])%list in
                match drv.(InsertDef) id api with
                | Some e =>
                    if e.(duplicateKey) then
                      if strings.Contains e.(detail) "name_1" then
                        (inr (wrapping ErrDuplicateName api.(Name)), calls)
                      else if strings.Contains e.(detail) "method_1_endpoint_1" then
                        (inr (wrapping ErrDuplicateEndpoint
                                (api.(Method) +:+ " " +:+ api.(Endpoint))), calls)
                      else (inr (exported ErrDuplicateKey), calls)
                    else (inr (fromDriver "database insert failed" e.(detail)), calls)
                | None => (inl id, calls)
                end
          end
    end.

(** [GetAPIDefinitionByName] *)
Definition GetAPIDefinitionByName (drv : DefDriver) (name : string)
  : ((positive * ApiDefinition) + goerror) * list defcall :=
  (match drv.(FindByName) name with
   | NoDocuments => inr (exported ErrNotFound)
   | FindFailed e => inr (fromDriver "database query failed" e)
   | Found id api => inl (id, api)
   end, [CallFindByName name]).

(** [DeleteAPIDefinitionByName] *)
Definition DeleteAPIDefinitionByName (drv : DefDriver) (name : string)
  : (Z + goerror) * list defcall :=
  (match drv.(DeleteByName) name with
   | inl e => inr (wrapping ErrDeleteFailed e)
   | inr deletedCount =>
       if (deletedCount =? 0)%Z then inr (exported ErrNotFound) else inl deletedCount
   end, [CallDeleteByName name]).

(** [UpdateAPIDefinition] *)
Definition UpdateAPIDefinition (drv : DefDriver) (name : string) (payload : ApiDefinition)
  : ((positive * ApiDefinition) + goerror) * list defcall :=
  if String.eqb payload.(Endpoint) "" || String.eqb payload.(Method) ""
     || String.eqb payload.(Database) "" || String.eqb payload.(Collection) "" then
    (inr (exported ErrMissingRequiredFields), [])
  else
    match drv.(FindByName) name with
    | NoDocuments => (inr (exported ErrNotFound), [CallFindByName name])
    | FindFailed e =>
        (inr (fromDriver "failed to retrieve existing API" e), [CallFindByName name])
    | Found id existingAPI =>
        let changed :=
          negb (String.eqb existingAPI.(Method) payload.(Method))
          || negb (String.eqb existingAPI.(Endpoint) payload.(Endpoint)) in
        let checks :=
          if changed
          then [CallFindByName name;
                CallCountConflict payload.(Method) payload.(Endpoint) id]
          else [CallFindByName name] in
        let conflict : option goerror :=
          if changed then
            match drv.(CountConflict) payload.(Method) payload.(Endpoint) id with
            | inl e => Some (fromDriver "failed to check for endpoint conflict" e)
            | inr count =>
                if (0 <? count)%Z then
                  Some (wrapping ErrDuplicateEndpoint
                          (payload.(Method) +:+ " " +:+ payload.(Endpoint)))
                else None
            end
          else None in
        match conflict with
        | Some e => (inr e, checks)
        | None =>
            let calls := (checks ++ [CallUpdateByName name payload])%list in
            match drv.(UpdateByName) name payload with
            | inl e =>
                if e.(duplicateKey) then
                  if strings.Contains e.(detail) "method_1_endpoint_1" then
                    (inr (wrapping ErrDuplicateEndpoint
                            (payload.(Method) +:+ " " +:+ payload.(Endpoint))), calls)
                  else (inr (exported ErrDuplicateKey), calls)
                else (inr (wrapping ErrUpdateFailed e.(detail)), calls)
            | inr (matched, modified) =>
                if (matched =? 0)%Z then (inr (exported ErrNotFound), calls)
                else if (modified =? 0)%Z && (matched =? 1)%Z then
                  (inl (id, existingAPI), calls)
                else
                  let calls := (calls ++ [CallFindById id])%list in
                  match drv.(FindById) id with
                  | Found id' updatedAPI => (inl (id', updatedAPI), calls)
                  | NoDocuments =>
                      (inr (fromDriver "database updated, but failed to retrieve result"
                              "mongo: no documents in result"), calls)
                  | FindFailed e =>
                      (inr (fromDriver "database updated, but failed to retrieve result" e),
                       calls)
                  end
            end
        end
    end.

End dbstore.

(** ** package api: the handlers of the definitions *)

Module crud.

(** The JSON bodies these handlers send. *)
Inductive reply :=
| ReplyError (msg : string)                      (* {"error": msg} *)
| ReplyStatus (code : Z) (message : string)      (* {"status": "error", "code", "message"} *)
| ReplyCreated (api : ApiDefinition)             (* {"status": "success", "code": 201, "message", "data": api} *)
| ReplyMessage (message : string)                (* {"message": message} *)
| ReplyUpdated (api : ApiDefinition)             (* {"message", "api": api} *)
| ReplyDefinition (api : ApiDefinition).         (* the definition itself *)

(** What a handler leaves: the status and body sent, the route table
    [h.dynamicRoutes], and the calls made to the driver. *)
Record Outcome := {
  code : Z;
  body : reply;
  routes : gmap string ApiDefinition;
  calls : list dbstore.defcall;
}.

(** [CreateAPI]; [parsed] is the result of [c.BodyParser(&api)], [None]
    when it fails. *)
Definition CreateAPI (drv : dbstore.DefDriver) (dynamicRoutes : gmap string ApiDefinition)
    (parsed : option ApiDefinition) : Outcome :=
  match parsed with
  | None =>
      {| code := 400; body := ReplyStatus 400 "Cannot parse JSON";
         routes := dynamicRoutes; calls := [] |}
  | Some api =>
      match dbstore.CreateAPIDefinition drv api with
      | (inr e, cs) =>
          if dbstore.Is e dbstore.ErrMissingRequiredFields then
            {| code := 400; body := ReplyError e.(dbstore.Error);
               routes := dynamicRoutes; calls := cs |}
          else if dbstore.Is e dbstore.ErrDuplicateName
                  || dbstore.Is e dbstore.ErrDuplicateEndpoint
                  || dbstore.Is e dbstore.ErrDuplicateKey then
            {| code := 409; body := ReplyError e.(dbstore.Error);
               routes := dynamicRoutes; calls := cs |}
          else
            {| code := 500; body := ReplyError "Failed to save API definition";
               routes := dynamicRoutes; calls := cs |}
      | (inl insertedID, cs) =>
          let key := api.(Method) +:+ ":" +:+ api.(Endpoint) in
          {| code := 201; body := ReplyCreated api;
             routes := <[key := api]> dynamicRoutes; calls := cs |}
      end
  end.

(** [GetAPIDetail]; [name] is [c.Params("name")]. *)
Definition GetAPIDetail (drv : dbstore.DefDriver) (dynamicRoutes : gmap string ApiDefinition)
    (name : string) : Outcome :=
  match dbstore.GetAPIDefinitionByName drv name with
  | (inr e, cs) =>
      {| code := 500; body := ReplyError "Failed to retrieve API detail";
         routes := dynamicRoutes; calls := cs |}
  | (inl (_, api), cs) =>
      {| code := 200; body := ReplyDefinition api; routes := dynamicRoutes; calls := cs |}
  end.

(** [DeleteAPI] *)
Definition DeleteAPI (drv : dbstore.DefDriver) (dynamicRoutes : gmap string ApiDefinition)
    (name : string) : Outcome :=
  if String.eqb name "" then
    {| code := 400; body := ReplyError "API name parameter is required";
       routes := dynamicRoutes; calls := [] |}
  else
    match dbstore.GetAPIDefinitionByName drv name with
    | (inr e, cs) =>
        {| code := 500; body := ReplyError "Failed to retrieve API data before deletion";
           routes := dynamicRoutes; calls := cs |}
    | (inl (_, apiToDelete), cs) =>
        let keyToDelete := apiToDelete.(Method) +:+ ":" +:+ apiToDelete.(Endpoint) in
        match dbstore.DeleteAPIDefinitionByName drv name with
        | (inr e, cs') =>
            {| code := 500; body := ReplyError "Failed to delete API definition";
               routes := dynamicRoutes; calls := (cs ++ cs')%list |}
        | (inl deletedCount, cs') =>
            if (deletedCount =? 0)%Z then
              {| code := 404; body := ReplyError "API not found during delete operation";
                 routes := dynamicRoutes; calls := (cs ++ cs')%list |}
            else
              {| code := 200; body := ReplyMessage "API deleted successfully";
                 routes := delete keyToDelete dynamicRoutes; calls := (cs ++ cs')%list |}
        end
    end.

(** [UpdateAPI] *)
Definition UpdateAPI (drv : dbstore.DefDriver) (dynamicRoutes : gmap string ApiDefinition)
    (name : string) (parsed : option ApiDefinition) : Outcome :=
  if String.eqb name "" then
    {| code := 400; body := ReplyError "API name parameter is required";
       routes := dynamicRoutes; calls := [] |}
  else
    match parsed with
    | None =>
        {| code := 400; body := ReplyError "Cannot parse JSON";
           routes := dynamicRoutes; calls := [] |}
    | Some payloadToUpdate =>
        match dbstore.GetAPIDefinitionByName drv name with
        | (inr e, cs) =>
            {| code := 500;
               body := ReplyError "Failed to retrieve existing API data for update";
               routes := dynamicRoutes; calls := cs |}
        | (inl (_, existingAPI), cs) =>
            let oldKey := existingAPI.(Method) +:+ ":" +:+ existingAPI.(Endpoint) in
            match dbstore.UpdateAPIDefinition drv name payloadToUpdate with
            | (inr e, cs') =>
                let cs := (cs ++ cs')%list in
                if dbstore.Is e dbstore.ErrMissingRequiredFields then
                  {| code := 400; body := ReplyError e.(dbstore.Error);
                     routes := dynamicRoutes; calls := cs |}
                else if dbstore.Is e dbstore.ErrNotFound then
                  {| code := 404; body := ReplyError "API not found during update";
                     routes := dynamicRoutes; calls := cs |}
                else if dbstore.Is e dbstore.ErrDuplicateEndpoint then
                  {| code := 409; body := ReplyError e.(dbstore.Error);
                     routes := dynamicRoutes; calls := cs |}
                else
                  {| code := 500; body := ReplyError "Failed to update API definition";
                     routes := dynamicRoutes; calls := cs |}
            | (inl (_, updatedAPI), cs') =>
                let newKey := updatedAPI.(Method) +:+ ":" +:+ updatedAPI.(Endpoint) in
                let dynamicRoutes :=
                  if negb (String.eqb oldKey newKey) && negb (String.eqb oldKey "")
                  then delete oldKey dynamicRoutes
                  else dynamicRoutes in
                {| code := 200; body := ReplyUpdated updatedAPI;
                   routes := <[newKey := updatedAPI]> dynamicRoutes;
                   calls := (cs ++ cs')%list |}
            end
        end
    end.

(** Every entry of the route table is stored under the method and
    endpoint of its definition. *)
Definition keyed (dynamicRoutes : gmap string ApiDefinition) : Prop :=
  forall key api, dynamicRoutes !! key = Some api -> key = dbstore.routeKey api.

(** The store the dynamic handler works with, over the drivers: what
    each method of [Store] returns, an error by its message. *)
Definition asStore {L : GoLib} (defs : dbstore.DefDriver) (data : dbstore.DataDriver)
  : database.Store :=
  {| database.GetAPIDefinitionByName := fun name =>
       match fst (dbstore.GetAPIDefinitionByName defs name) with
       | inl (_, api) => inl api
       | inr e => inr e.(dbstore.Error)
       end;
     database.FindData := fun dbName collName filter =>
       match fst (dbstore.FindData data dbName collName filter) with
       | inl results => inl results
       | inr e => inr e.(dbstore.Error)
       end;
     database.DeleteData := fun dbName collName filter =>
       match fst (dbstore.DeleteData data dbName collName filter) with
       | inl deletedCount => inl deletedCount
       | inr e => inr e.(dbstore.Error)
       end;
     database.SaveData := fun dbName collName uniqueKey d =>
       match fst (dbstore.SaveData data dbName collName uniqueKey d) with
       | Some e => Some e.(dbstore.Error)
       | None => None
       end |}.

End crud.

(** ** More data for the examples *)

Module fixtures.
Import scenario.

(** A definition without a flow, served by the default logic of the
    verb, under each of three verbs; and one whose target is not named. *)
Definition plain (method : string) : ApiDefinition :=
  {| Name := "items"; Endpoint := "/items"; Method := method;
     Database := "app"; Collection := "items"; Params := [];
     Flow := None; UniqueKey := "id" |}.

Definition noTarget : ApiDefinition :=
  {| Name := "lost"; Endpoint := "/lost"; Method := "GET";
     Database := ""; Collection := "items"; Params := [];
     Flow := None; UniqueKey := "" |}.

Definition table : gmap string ApiDefinition :=
  <["GET:/items" := plain "GET"]>
    (<["POST:/items" := plain "POST"]>
       (<["DELETE:/items" := plain "DELETE"]>
          (<["GET:/lost" := noTarget]> routes))).

(** A store whose saves fail. *)
Definition readOnly : database.Store :=
  {| database.GetAPIDefinitionByName := fun _ => inr "document not found";
     database.FindData := fun _ _ _ => inl [ {[ "id" := VStr "7" ]} ];
     database.DeleteData := fun _ _ _ => inl 1%Z;
     database.SaveData := fun _ _ _ _ => Some "connection refused" |}.

(** A request with a path parameter, two query arguments of one name and
    a body. *)
Definition mixed : api.Request :=
  {| api.ReqMethod := "POST"; api.ReqPath := "/u";
     api.AllParams := {[ "id" := "1" ]};
     api.QueryArgs := [("id", "2"); ("q", "x"); ("q", "y")];
     api.Body := Some (<["id" := VStr "3"]> (<["q" := VStr "z"]> {[ "w" := VStr "v" ]})) |}.

(** An [apiCall] with a parameter written as [nil]. *)
Definition callWithNil : ActionDefinition :=
  {| Type_ := "apiCall"; ReturnData := VNil; ConditionalFlow := None;
     SaveData := true; Transform := [];
     ApiCall_ := Some {| ApiName := "B"; Parameters := {[ "uid" := VNil ]};
                         ResultField := "out" |} |}.

(** A [return] of one pair. *)
Definition returnPair : ActionDefinition :=
  returning (VList SliceAny
    [VMap PlainMap (<["Key" := VStr "who"]> {[ "Value" := VStr "$name" ]})]).

(** A [calculate] whose formula has no colon. *)
Definition noColon : Transformation :=
  {| Operation := "calculate"; TField := "x"; TValue := VNil; Formula := "add 1 2" |}.

(** A driver of the dynamic collections where every call goes through. *)
Definition dataDriver : dbstore.DataDriver :=
  {| dbstore.UpdateOne := fun _ _ _ _ => None;
     dbstore.InsertOne := fun _ _ _ => None;
     dbstore.Find := fun _ _ _ => inr (inr []);
     dbstore.DeleteMany := fun _ _ _ => inr 1%Z |}.

Definition ada : datamap := <["id" := VStr "7"]> (<["_id" := VStr "x1"]> {[ "name" := VStr "Ada" ]}).
Definition keyOnly : datamap := <["id" := VStr "7"]> {[ "_id" := VStr "x1" ]}.

(** A driver of the definitions: the collection holds A, a document that
    does not decode, a document without endpoint, and B; nothing is a
    duplicate and every write goes through. *)
Definition noEndpoint : ApiDefinition :=
  {| Name := "n"; Endpoint := ""; Method := "GET";
     Database := "app"; Collection := "users"; Params := [];
     Flow := None; UniqueKey := "" |}.

Definition movedA : ApiDefinition :=
  {| Name := "A"; Endpoint := "/a2"; Method := "GET";
     Database := "app"; Collection := "users"; Params := [];
     Flow := None; UniqueKey := "" |}.

Definition defDriver : dbstore.DefDriver :=
  {| dbstore.CountName := fun _ => inr 0%Z;
     dbstore.CountEndpoint := fun _ _ => inr 0%Z;
     dbstore.CountConflict := fun _ _ _ => inr 0%Z;
     dbstore.InsertDef := fun _ _ => None;
     dbstore.FindByName := fun name =>
       if String.eqb name "A" then dbstore.Found 1 defA else dbstore.NoDocuments;
     dbstore.FindById := fun _ => dbstore.Found 1 movedA;
     dbstore.UpdateByName := fun _ _ => inr (1%Z, 1%Z);
     dbstore.DeleteByName := fun _ => inr 1%Z;
     dbstore.FindAll := inr [Some defA; None; Some noEndpoint; Some defB];
     dbstore.NewObjectID := 7%positive |}.

End fixtures.

(** * Properties *)

Import core.

(** ** Conditions *)

Section Conditions.
Context {L : GoLib}.

Lemma evaluateConditions_cons cond rest (d : datamap) :
  evaluateConditions (cond :: rest) d
  = evaluateCondition cond d && evaluateConditions rest d.
Proof. simpl. destruct (evaluateCondition cond d); reflexivity. Qed.

(** C9.  A list of conditions is met exactly when each of its conditions
    is met, and the empty list is always met. *)
Theorem evaluateConditions_conjunction (conditions : list Condition) (d : datamap) :
  (evaluateConditions conditions d = true
   <-> Forall (fun c => evaluateCondition c d = true) conditions)
  /\ evaluateConditions [] d = true.
Proof.
  split; [|reflexivity].
  induction conditions as [|cond rest IH].
  - split; [constructor | reflexivity].
  - rewrite evaluateConditions_cons, andb_true_iff, Forall_cons, IH. reflexivity.
Qed.

(** Once the walk over the segments has gone through, the result depends
    on the data only through the entry whose key is the whole field
    name. *)
Lemma evaluateCondition_absent (c : Condition) (d : datamap) :
  is_Some (walkField (strings.Split c.(Field) ".") (VMap PlainMap d)) ->
  d !! c.(Field) = None ->
  evaluateCondition c d = String.eqb c.(Operator) "neq".
Proof.
  intros [v Hwalk] Hd. unfold evaluateCondition. rewrite Hwalk, Hd. reflexivity.
Qed.

(** A field name without a dot is a single segment, and the walk over it
    always goes through. *)
Lemma Split_no_sep (s : string) (sep : ascii) :
  strings.Contains s (String sep EmptyString) = false ->
  strings.Split s sep = [s].
Proof.
  induction s as [|ch s IH]; [reflexivity|].
  cbn [strings.Contains strings.HasPrefix strings.Split].
  destruct (Ascii.eqb ch sep) eqn:E.
  - destruct s; discriminate.
  - cbn [andb orb]. intros H. rewrite (IH H). reflexivity.
Qed.

Lemma evaluateCondition_absent_flat (c : Condition) (d : datamap) :
  strings.Contains c.(Field) "." = false ->
  d !! c.(Field) = None ->
  evaluateCondition c d = String.eqb c.(Operator) "neq".
Proof.
  intros Hflat Hd. apply evaluateCondition_absent; [|exact Hd].
  rewrite (Split_no_sep _ _ Hflat). simpl. eauto.
Qed.

(** When no entry of the data has the whole dotted name as its key, the
    value at the end of the path plays no part: only [neq] can hold. *)
Lemma evaluateCondition_no_flat_key (c : Condition) (d : datamap) :
  d !! c.(Field) = None ->
  evaluateCondition c d = true -> c.(Operator) = "neq".
Proof.
  intros Hd. unfold evaluateCondition.
  destruct (walkField _ _); [|discriminate].
  rewrite Hd. apply String.eqb_eq.
Qed.

(** For a field that is not a key of the data, no operator other than
    [neq] holds. *)
Lemma evaluateCondition_absent_other (c : Condition) (d : datamap) :
  d !! c.(Field) = None ->
  c.(Operator) <> "neq" ->
  evaluateCondition c d = false.
Proof.
  intros Hd Hop. destruct (evaluateCondition c d) eqn:E; [|reflexivity].
  destruct Hop. exact (evaluateCondition_no_flat_key c d Hd E).
Qed.

End Conditions.

(** C2.  The condition [a.b eq "v"] on the data [{a: {b: "v"}}]: the path
    leads to ["v"], as variable substitution finds, and the condition is
    nevertheless not met, whatever the library functions are. *)
Theorem evaluateCondition_nested_value_unused :
  let d : datamap := {[ "a" := VMap PlainMap {[ "b" := VStr "v" ]} ]} in
  SubstituteVariables (VStr "$a.b") d = VStr "v"
  /\ walkField (strings.Split "a.b" ".") (VMap PlainMap d) = Some (VStr "v")
  /\ forall L : GoLib,
       @evaluateCondition L {| Field := "a.b"; Operator := "eq"; Value := VStr "v" |} d
       = false.
Proof.
  split; [vm_compute; reflexivity|].
  split; [vm_compute; reflexivity|].
  intros L. unfold evaluateCondition.
  replace (walkField _ _) with (Some (VStr "v")) by (vm_compute; reflexivity).
  reflexivity.
Qed.

(** C3.  The condition [a.b neq v] on data without [a]: the target of the
    path is absent and the condition is not met, because the walk stops at
    the missing intermediate value before the operator is looked at. *)
Theorem evaluateCondition_neq_missing_intermediate :
  forall (L : GoLib) (v : value),
    @evaluateCondition L {| Field := "a.b"; Operator := "neq"; Value := v |} ∅ = false
    /\ @evaluateCondition L {| Field := "a"; Operator := "neq"; Value := v |} ∅ = true.
Proof.
  intros L v. split.
  - unfold evaluateCondition.
    replace (walkField _ _) with (@None value) by (vm_compute; reflexivity).
    reflexivity.
  - rewrite evaluateCondition_absent_flat; reflexivity.
Qed.

(** ** Transformations *)

Section Transformations.
Context {L : GoLib}.

Lemma ApplyTransformations_foldl (ts : list Transformation) (d : datamap) :
  ApplyTransformations ts d = foldl (fun result t => applyTransformation t result) d ts.
Proof. destruct ts; reflexivity. Qed.

(** Transformations apply in order: the last one works on the map the
    earlier ones have produced. *)
Lemma ApplyTransformations_snoc (ts : list Transformation) (t : Transformation)
    (d : datamap) :
  ApplyTransformations (ts ++ [t]) d = applyTransformation t (ApplyTransformations ts d).
Proof. rewrite !ApplyTransformations_foldl, foldl_app. reflexivity. Qed.

(** *** The map returned and the map passed *)

Lemma deref_insert (r : ref) (m : datamap) (h : heap) : deref (<[r := m]> h) r = m.
Proof. unfold deref. rewrite lookup_insert_eq. reflexivity. Qed.

Lemma copy_entries (result : ref) (h : heap) (m : datamap) :
  map_fold (store_entry result) (<[result := ∅]> h) m = <[result := m]> h.
Proof.
  apply (map_fold_weak_ind (fun acc m' => acc = <[result := m']> h)); [reflexivity|].
  intros k v m' acc _ ->. unfold store_entry.
  rewrite deref_insert, insert_insert_eq. reflexivity.
Qed.

Lemma transform_in_place (result : ref) (ts : list Transformation) (h : heap)
    (m : datamap) :
  foldl (fun h t => <[result := applyTransformation t (deref h result)]> h)
        (<[result := m]> h) ts
  = <[result := foldl (fun r t => applyTransformation t r) m ts]> h.
Proof.
  revert m. induction ts as [|t ts IH]; intros m; [reflexivity|].
  cbn [foldl]. rewrite deref_insert, insert_insert_eq. apply IH.
Qed.

Lemma ApplyTransformations_ref_nonempty (ts : list Transformation) (d : ref) (h : heap) :
  ts <> [] ->
  ApplyTransformations_ref ts d h
  = (fresh (dom h),
     <[fresh (dom h) := ApplyTransformations ts (deref (<[fresh (dom h) := ∅]> h) d)]> h).
Proof.
  intros Hts. destruct ts as [|t ts]; [congruence|].
  unfold ApplyTransformations_ref.
  rewrite copy_entries, transform_in_place, ApplyTransformations_foldl. reflexivity.
Qed.

Lemma fresh_ref_unused (h : heap) : h !! fresh (dom h) = None.
Proof. apply not_elem_of_dom, is_fresh. Qed.

(** C4.  With at least one transformation the map returned is newly
    allocated, distinct from [data], and holds the transformed contents;
    with none it is [data] itself, where the comment above the function
    and the one at its call in [processAction] promise a new map.  Either
    way the map [data] and every other map of the heap are as they were
    when the function returns. *)
Theorem ApplyTransformations_ref_frame
    (ts : list Transformation) (data : ref) (h : heap) (m : datamap) :
  h !! data = Some m ->
  let result := fst (ApplyTransformations_ref ts data h) in
  let h' := snd (ApplyTransformations_ref ts data h) in
  h' !! data = Some m
  /\ deref h' result = ApplyTransformations ts m
  /\ (forall r, r <> result -> h' !! r = h !! r)
  /\ (ts = [] -> result = data /\ h' = h)
  /\ (ts <> [] -> h !! result = None /\ result <> data).
Proof.
  intros Hd. destruct (decide (ts = [])) as [->|Hts].
  - cbn. unfold deref. rewrite Hd. repeat split; congruence.
  - rewrite (ApplyTransformations_ref_nonempty ts data h Hts). cbn.
    pose proof (fresh_ref_unused h) as Hfresh.
    assert (fresh (dom h) <> data) as Hne by congruence.
    unfold deref. rewrite !lookup_insert_eq, !lookup_insert_ne, Hd by congruence.
    repeat split; try congruence.
    intros r Hr. rewrite lookup_insert_ne by congruence. reflexivity.
Qed.

(** What the shared map means for a caller that writes to the map
    returned, as [processAction] does when it stores the answer of an
    [apiCall]: after a call with no transformation the write lands in
    [data]; after a call with at least one it does not. *)
Lemma write_to_result_reaches_data
    (ts : list Transformation) (data : ref) (h : heap) (m : datamap)
    (k : string) (v : value) :
  h !! data = Some m ->
  let result := fst (ApplyTransformations_ref ts data h) in
  let h' := snd (ApplyTransformations_ref ts data h) in
  deref (store_entry result k v h') data
  = if decide (ts = []) then <[k := v]> m else m.
Proof.
  intros Hd. destruct (decide (ts = [])) as [->|Hts].
  - cbn. unfold store_entry, deref. rewrite lookup_insert_eq, Hd. reflexivity.
  - rewrite (ApplyTransformations_ref_nonempty ts data h Hts). cbn.
    pose proof (fresh_ref_unused h) as Hfresh.
    assert (fresh (dom h) <> data) as Hne by congruence.
    unfold store_entry, deref. rewrite !lookup_insert_ne, Hd by congruence. reflexivity.
Qed.

(** *** set *)

(** C5, as the code has it.  A [set] whose value is a [$path]: when the
    path resolves to [nil] the current map is left as it is (the field
    stays absent if it was absent and keeps its value if it had one);
    otherwise the field is written with the value found. *)
Theorem set_path_value
    (ts : list Transformation) (t : Transformation) (d : datamap) (strVal : string) :
  t.(Operation) = "set" ->
  t.(TValue) = VStr strVal ->
  strings.HasPrefix strVal "$" = true ->
  let current := ApplyTransformations ts d in
  let substituted := SubstituteVariables (VStr strVal) current in
  (substituted = VNil -> ApplyTransformations (ts ++ [t]) d = current)
  /\ (substituted <> VNil ->
      ApplyTransformations (ts ++ [t]) d = <[t.(TField) := substituted]> current).
Proof.
  intros Hop Hval Hpre current substituted.
  rewrite ApplyTransformations_snoc. fold current.
  unfold applyTransformation. rewrite Hop, Hval, Hpre. cbn [String.eqb Ascii.eqb Bool.eqb].
  fold substituted. split; intros H.
  - rewrite H. reflexivity.
  - destruct substituted; try reflexivity. congruence.
Qed.

(** *** calculate, divide *)

Lemma calculate_step (t : Transformation) (current : datamap) (op args : string) :
  t.(Operation) = "calculate" ->
  t.(TField) <> "" ->
  strings.SplitN2 t.(Formula) ":" = [op; args] ->
  ToLower (TrimSpace op) = "divide" ->
  applyTransformation t current
  = match calcDivide (strings.Split args ",") current with
    | Some calcResult => <[t.(TField) := VFloat64 calcResult]> current
    | None => current
    end.
Proof.
  intros Hop Hfield Hsplit Hdiv. unfold applyTransformation. rewrite Hop.
  cbn [String.eqb Ascii.eqb Bool.eqb].
  assert (String.eqb t.(Formula) "" = false) as ->.
  { apply String.eqb_neq. intros E. rewrite E in Hsplit. discriminate. }
  apply String.eqb_neq in Hfield. rewrite Hfield. cbn [orb].
  unfold calculate. rewrite Hsplit, Hdiv. reflexivity.
Qed.

(** C7, as the code has it.  A [calculate] with a field name that is not
    empty and a [divide] formula, on the current map: the field is not
    written unless there are exactly two arguments and both convert to a
    number; with a divisor equal to 0 the field is set to 0; otherwise it
    is set to the quotient of the two numbers. *)
Theorem calculate_divide
    (ts : list Transformation) (t : Transformation) (d : datamap) (op args : string) :
  t.(Operation) = "calculate" ->
  t.(TField) <> "" ->
  strings.SplitN2 t.(Formula) ":" = [op; args] ->
  ToLower (TrimSpace op) = "divide" ->
  let current := ApplyTransformations ts d in
  let after := ApplyTransformations (ts ++ [t]) d in
  let fieldArgs := strings.Split args "," in
  let coerce arg := getValueAsFloat (TrimSpace arg) current in
  (length fieldArgs <> 2%nat \/ (exists arg, arg ∈ fieldArgs /\ coerce arg = None) ->
   after = current)
  /\ (forall x y dividend divisor,
        fieldArgs = [x; y] -> coerce x = Some dividend -> coerce y = Some divisor ->
        (PrimFloat.eqb divisor 0 = true ->
         after = <[t.(TField) := VFloat64 0]> current)
        /\ (PrimFloat.eqb divisor 0 = false ->
            after = <[t.(TField) := VFloat64 (dividend / divisor)]> current)).
Proof.
  intros Hop Hfield Hsplit Hdiv current after fieldArgs coerce.
  assert (after = match calcDivide fieldArgs current with
                  | Some calcResult => <[t.(TField) := VFloat64 calcResult]> current
                  | None => current
                  end) as ->.
  { unfold after. rewrite ApplyTransformations_snoc. fold current.
    apply (calculate_step t current op args); assumption. }
  split.
  - intros [Hlen | (arg & Hin & Hnone)].
    + destruct fieldArgs as [|x [|y [|z rest]]]; try reflexivity. cbn in Hlen. congruence.
    + destruct fieldArgs as [|x [|y [|z rest]]]; try reflexivity.
      unfold calcDivide. fold (coerce x) (coerce y).
      apply list_elem_of_In in Hin. destruct Hin as [<-|[<-|[]]]; rewrite Hnone.
      * reflexivity.
      * destruct (coerce x); reflexivity.
  - intros x y dividend divisor -> Hx Hy. unfold calcDivide.
    fold (coerce x) (coerce y). rewrite Hx, Hy.
    split; intros ->; reflexivity.
Qed.

End Transformations.

(** ** The flow interpreter *)

Section Flow.
Context {L : GoLib}.

(** *** return *)

(** On a list that is not empty, case ["return"] substitutes into the map
    folded from all the pairs that have a string under ["Key"]. *)
Lemma returnFromPairs_snoc (v : list value) (item : value) (d : datamap) :
  returnFromPairs (v ++ [item]) d
  = SubstituteVariables (VMap PlainMap (foldPairs (v ++ [item]))) d.
Proof.
  unfold returnFromPairs, foldPairs. rewrite !foldl_app. cbn [foldl snd].
  set (st := foldl _ (∅, VNil) v). set (m := foldl _ ∅ v).
  assert (fst st = m) as ->; [|reflexivity].
  subst st m. induction v as [|x v IH] using rev_ind; [reflexivity|].
  rewrite !foldl_app. cbn [foldl fst]. rewrite IH. reflexivity.
Qed.

Lemma returnFromPairs_nonempty (v : list value) (d : datamap) :
  v <> [] ->
  returnFromPairs v d = SubstituteVariables (VMap PlainMap (foldPairs v)) d.
Proof.
  destruct v as [|x v] using rev_ind; [congruence|].
  intros _. apply returnFromPairs_snoc.
Qed.

(** *** apiCall *)

(** An entry of the parameters that is a [$path] resolving to [nil] is
    left out of the call parameters. *)
Lemma callParam_null_path (strVal : string) (d : datamap) :
  strings.HasPrefix strVal "$" = true ->
  SubstituteVariables (VStr strVal) d = VNil ->
  callParam (VStr strVal) d = None.
Proof.
  intros Hpre. unfold callParam. cbn [SubstituteVariables]. rewrite Hpre.
  intros ->. reflexivity.
Qed.

Lemma callParam_nil (v : value) (d : datamap) :
  callParam v d = Some VNil -> v = VNil.
Proof.
  unfold callParam. destruct v; try congruence.
  destruct (strings.HasPrefix s "$"); [|congruence].
  destruct (default VNil _); congruence.
Qed.

(** The "missing required parameter" response is reached only through a
    parameter written as a literal [nil]. *)
Lemma nilParam_literal (params d : datamap) (k : string) :
  nilParam (omap (fun v => callParam v d) params) = Some k ->
  params !! k = Some VNil.
Proof.
  unfold nilParam. intros H.
  destruct (filter _ _) as [|[k' v'] rest] eqn:E; [discriminate|].
  injection H as ->.
  assert ((k, v') ∈ filter (fun kv => is_nil kv.2) (map_to_list (omap (fun v => callParam v d) params)))
    as Hin by (rewrite E; left).
  apply list_elem_of_filter in Hin as [Hnil Hin]. cbn in Hnil.
  apply elem_of_map_to_list in Hin. rewrite lookup_omap in Hin.
  destruct v'; try (exfalso; exact Hnil).
  destruct (params !! k) as [v|]; [|discriminate]. cbn in Hin.
  apply callParam_nil in Hin. congruence.
Qed.

(** *** Errors and the save flag *)

Lemma processAction_no_save_on_err
    (recur : option ConditionalBlock -> datamap -> database.Store -> string -> string
             -> option FlowResult)
    (action : option ActionDefinition) (d : datamap) (store : database.Store)
    (db coll : string) (r : FlowResult) :
  (forall flow d' store' db' coll' r',
     recur flow d' store' db' coll' = Some r' -> no_save_on_err r') ->
  processAction recur action d store db coll = Some r ->
  no_save_on_err r.
Proof.
  intros Hrec. unfold processAction, no_save_on_err.
  intros H; repeat case_match; simplify_eq; cbn;
    try (intros [? ?]; congruence); try reflexivity;
    try (eapply Hrec; eassumption).
Qed.

Lemma ProcessConditionalFlow_no_save_on_err (fuel : nat) :
  forall flow d store db coll r,
    ProcessConditionalFlow fuel flow d store db coll = Some r -> no_save_on_err r.
Proof.
  induction fuel as [|fuel IH]; intros flow d store db coll r; [discriminate|].
  cbn [ProcessConditionalFlow]. unfold no_save_on_err.
  intros H; repeat case_match; simplify_eq; cbn;
    try (intros [? ?]; congruence); reflexivity.
Qed.

(** *** The depth of the recursion *)

Lemma processAction_mono
    (recur recur' : option ConditionalBlock -> datamap -> database.Store -> string -> string
             -> option FlowResult)
    (action : option ActionDefinition) (d : datamap) (store : database.Store)
    (db coll : string) (r : FlowResult) :
  (forall flow d' store' db' coll' r',
     recur flow d' store' db' coll' = Some r' -> recur' flow d' store' db' coll' = Some r') ->
  processAction recur action d store db coll = Some r ->
  processAction recur' action d store db coll = Some r.
Proof.
  intros Hrec. unfold processAction.
  destruct action as [action|]; [|trivial].
  destruct (String.eqb _ "return"); [trivial|].
  destruct (String.eqb _ "conditionalBlock").
  { destruct (ConditionalFlow action); [apply Hrec | trivial]. }
  destruct (String.eqb _ "continue"); [trivial|].
  destruct (String.eqb _ "apiCall"); [|trivial].
  destruct (ApiCall_ action) as [apiCall|]; [|trivial].
  destruct (database.GetAPIDefinitionByName _ _) as [target|e]; [|trivial].
  destruct (nilParam _); [trivial|].
  destruct (recur _ _ _ _ _) as [called|] eqn:E; [|discriminate].
  rewrite (Hrec _ _ _ _ _ _ E). trivial.
Qed.

Lemma ProcessConditionalFlow_S (fuel : nat) flow d store db coll :
  ProcessConditionalFlow (S fuel) flow d store db coll
  = match flow with
    | None =>
        Some {| responseToSend := VMap PlainMap d; finalDataState := d;
                shouldSave := false; err := None |}
    | Some flow =>
        match (if evaluateConditions flow.(Conditions) d
               then flow.(Then) else flow.(Else)) with
        | Some action =>
            match processAction (ProcessConditionalFlow fuel) (Some action)
                                d store db coll with
            | None => None
            | Some fromAction =>
                match fromAction.(err) with
                | Some actionErr =>
                    Some {| responseToSend := errorMap actionErr;
                            finalDataState := fromAction.(finalDataState);
                            shouldSave := false; err := Some actionErr |}
                | None =>
                    Some {| responseToSend := fromAction.(responseToSend);
                            finalDataState := fromAction.(finalDataState);
                            shouldSave := fromAction.(shouldSave); err := None |}
                end
            end
        | None =>
            Some {| responseToSend := VMap PlainMap d; finalDataState := d;
                    shouldSave := false; err := None |}
        end
    end.
Proof.
  cbn [ProcessConditionalFlow]. destruct flow as [flow|]; [|reflexivity].
  destruct (if evaluateConditions _ _ then _ else _); reflexivity.
Qed.

(** A flow that ends within some depth gives the same result within any
    greater depth. *)
Lemma ProcessConditionalFlow_mono (fuel : nat) :
  forall flow d store db coll r,
    ProcessConditionalFlow fuel flow d store db coll = Some r ->
    ProcessConditionalFlow (S fuel) flow d store db coll = Some r.
Proof.
  induction fuel as [|fuel IH]; intros flow d store db coll r; [discriminate|].
  rewrite (ProcessConditionalFlow_S (S fuel)), (ProcessConditionalFlow_S fuel).
  destruct flow as [flow|]; [|trivial].
  destruct (if evaluateConditions _ _ then _ else _) as [action|]; [|trivial].
  destruct (processAction (ProcessConditionalFlow fuel) _ _ _ _ _) as [fromAction|] eqn:Hp;
    [|discriminate].
  rewrite (processAction_mono _ (ProcessConditionalFlow (S fuel)) _ _ _ _ _ _ IH Hp).
  trivial.
Qed.

End Flow.

(** ** The dispatcher *)

Section Handler.
Context {L : GoLib}.

Lemma paramMissing_spec (param : Parameter_) (reqData : datamap) :
  api.paramMissing param reqData = true
  <-> param.(Required) = true
      /\ (reqData !! param.(PName) = None
          \/ reqData !! param.(PName) = Some VNil
          \/ exists val, reqData !! param.(PName) = Some val /\ Sprint val = "").
Proof.
  unfold api.paramMissing. rewrite andb_true_iff.
  destruct (reqData !! param.(PName)) as [val|].
  - rewrite orb_true_iff, String.eqb_eq. split.
    + intros [Hreq [Hnil|Hempty]]; split; try assumption.
      * destruct val; try discriminate. right; left; reflexivity.
      * right; right. exists val. split; [reflexivity|assumption].
    + intros [Hreq [H|[H|(v & H & Hempty)]]]; split; try assumption; simplify_eq.
      * left; reflexivity.
      * right; assumption.
  - split; [intros [Hreq _]; split; [assumption|left; reflexivity] | intros [Hreq _]; split; [assumption|reflexivity]].
Qed.

Lemma missingRequired_found (params : list Parameter_) (reqData : datamap) :
  (exists param, param ∈ params /\ api.paramMissing param reqData = true) ->
  exists param, param ∈ params /\ api.paramMissing param reqData = true
                /\ api.missingRequired params reqData = Some param.(PName).
Proof.
  induction params as [|p params IH]; intros (param & Hin & Hmiss).
  - apply elem_of_nil in Hin as [].
  - cbn [api.missingRequired]. destruct (api.paramMissing p reqData) eqn:E.
    + exists p. split; [left|split; [assumption|reflexivity]].
    + apply elem_of_cons in Hin as [->|Hin]; [congruence|].
      destruct IH as (q & Hq & Hmq & Hres); [exists param; split; assumption|].
      exists q. split; [right; assumption|split; assumption].
Qed.

(** C8.  When a required parameter of the matched definition is absent
    from the request data, or [nil], or printed as the empty string, the
    handler answers 400 with an [error] field naming such a parameter, and
    has entered neither the flow nor the default logic nor called the
    store; this for every depth allowed to the interpreter. *)
Theorem required_parameter_missing
    (fuel : nat) (routes : gmap string ApiDefinition) (store : database.Store)
    (req : api.Request) (def : ApiDefinition) (param : Parameter_) :
  routes !! (req.(api.ReqMethod) +:+ ":" +:+ req.(api.ReqPath)) = Some def ->
  param ∈ def.(Params) ->
  param.(Required) = true ->
  (api.requestData req !! param.(PName) = None
   \/ api.requestData req !! param.(PName) = Some VNil
   \/ exists val, api.requestData req !! param.(PName) = Some val /\ Sprint val = "") ->
  exists culprit,
    culprit ∈ def.(Params)
    /\ api.paramMissing culprit (api.requestData req) = true
    /\ api.DynamicAPIHandler fuel routes store req
       = Some {| api.answer :=
                   api.Sent 400
                     (VMap FiberMap
                        {[ "error" := VStr ("Missing or empty required parameter: "
                                            +:+ culprit.(PName)) ]});
                 api.trace := [] |}.
Proof.
  intros Hroute Hin Hreq Hbad.
  destruct (missingRequired_found def.(Params) (api.requestData req))
    as (culprit & Hc & Hmiss & Hres).
  { exists param. split; [assumption|]. apply paramMissing_spec. split; assumption. }
  exists culprit. split; [assumption|]. split; [assumption|].
  unfold api.DynamicAPIHandler. rewrite Hroute, Hres. reflexivity.
Qed.

Lemma processLogic_no_save (fuel : nat) (def : ApiDefinition) (store : database.Store)
    (method : string) (d : datamap) (st : api.Logic) :
  api.processLogic fuel def store method d = Some st -> api.no_save st.(api.events).
Proof.
  unfold api.processLogic, api.no_save, api.failed.
  intros H; repeat case_match; simplify_eq; cbn; repeat constructor.
Qed.

(** An error from the flow reaches the handler as a processing error. *)
Lemma processLogic_flow_error (fuel : nat) (def : ApiDefinition) (store : database.Store)
    (method : string) (d : datamap) (r : FlowResult) (e : error) :
  is_Some def.(Flow) ->
  ProcessConditionalFlow fuel def.(Flow) d store def.(Database) def.(Collection) = Some r ->
  r.(err) = Some e ->
  exists st, api.processLogic fuel def store method d = Some st
             /\ is_Some st.(api.processingError) /\ st.(api.saveData) = false.
Proof.
  intros [flow Hflow] Hrun Herr. unfold api.processLogic.
  rewrite Hflow in *. rewrite Hrun, Herr. eexists. split; [reflexivity|].
  cbn. split; [eauto|reflexivity].
Qed.

Lemma saveStep_after_error (def : ApiDefinition) (store : database.Store) (st : api.Logic) :
  is_Some st.(api.processingError) -> api.saveStep def store st = inl st.
Proof.
  intros [e He]. unfold api.saveStep. rewrite He.
  rewrite bool_decide_eq_true_2 by eauto. rewrite andb_false_r. reflexivity.
Qed.

(** C10.  A result of [ProcessConditionalFlow] or of [processAction] that
    carries an error has its save flag off; and a request whose
    processing (the flow or the default logic) ended with an error is
    answered without any call of [SaveData]. *)
Theorem no_save_on_error (fuel : nat) (store : database.Store) :
  (forall flow d db coll r,
     ProcessConditionalFlow fuel flow d store db coll = Some r ->
     is_Some r.(err) -> r.(shouldSave) = false)
  /\ (forall action d db coll r,
        processAction (ProcessConditionalFlow fuel) action d store db coll = Some r ->
        is_Some r.(err) -> r.(shouldSave) = false)
  /\ (forall routes req def st handled,
        routes !! (req.(api.ReqMethod) +:+ ":" +:+ req.(api.ReqPath)) = Some def ->
        api.processLogic fuel def store req.(api.ReqMethod) (api.requestData req) = Some st ->
        is_Some st.(api.processingError) ->
        api.DynamicAPIHandler fuel routes store req = Some handled ->
        Forall (fun ev => api.is_save ev = false) handled.(api.trace)).
Proof.
  split; [|split].
  - intros flow d db coll r H. exact (ProcessConditionalFlow_no_save_on_err fuel _ _ _ _ _ _ H).
  - intros action d db coll r H.
    apply (processAction_no_save_on_err _ _ _ _ _ _ _
             (fun flow d' s db' coll' r' => ProcessConditionalFlow_no_save_on_err fuel flow d' s db' coll' r') H).
  - intros routes req def st handled Hroute Hlogic Herr.
    unfold api.DynamicAPIHandler. rewrite Hroute.
    destruct (api.missingRequired _ _); [intros [= <-]; constructor|].
    destruct (_ || _); [intros [= <-]; constructor|].
    rewrite Hlogic, (saveStep_after_error def store st Herr).
    intros [= <-]. cbn. exact (processLogic_no_save _ _ _ _ _ _ Hlogic).
Qed.

End Handler.

(** ** The code on concrete inputs *)

Section Examples.
Import scenario.
#[local] Existing Instance smallLib.lib.

(** S1 *)
Example default_post :
  api.DynamicAPIHandler 0 routes store
    (request "POST" "/u" [] (Some (<["id" := VStr "7"]> {[ "name" := VStr "Ada" ]})))
  = Some {| api.answer :=
              api.Sent 200 (VMap FiberMap (<["id" := VStr "7"]> {[ "name" := VStr "Ada" ]}));
            api.trace :=
              [api.EvDefault;
               api.EvSave "app" "users" "id" (<["id" := VStr "7"]> {[ "name" := VStr "Ada" ]})] |}.
Proof. vm_compute. reflexivity. Qed.

(** S2 *)
Example conditional_return :
  responseToSend <$> ProcessConditionalFlow 1 (Some role_flow)
      (<["role" := VStr "admin"]> {[ "name" := VStr "Ada" ]}) store "app" "users"
  = Some (VMap PlainMap (<["ok" := VBool true]> {[ "who" := VStr "Ada" ]}))
  /\ responseToSend <$> ProcessConditionalFlow 1 (Some role_flow)
      (<["role" := VStr "user"]> {[ "name" := VStr "Ada" ]}) store "app" "users"
     = Some (VMap PlainMap {[ "ok" := VBool false ]}).
Proof. split; vm_compute; reflexivity. Qed.

(** S3 *)
Example formula_total :
  ApplyTransformations [total] prices !! "total" = Some (VFloat64 10.5).
Proof. vm_compute. reflexivity. Qed.

(** S5 *)
Example apiCall_chain :
  api.answer <$> api.DynamicAPIHandler 2 routes store
                   (request "GET" "/a" [("uid", "7")] None)
  = Some (api.Sent 200
            (VMap FiberMap
               {[ "user" := VMap PlainMap (<["id" := VStr "7"]> {[ "label" := VStr "u" ]}) ]})).
Proof. vm_compute. reflexivity. Qed.

(** C1.  An [apiCall] whose parameter [uid] is the path [$uid], on data
    without [uid]: the path resolves to [nil], the parameter is left out,
    and the flow of the target runs (its answer, with a [nil] [id], is
    stored under the result field); no "missing required parameter"
    response is returned. *)
Theorem apiCall_null_path_runs_target :
  SubstituteVariables (VStr "$uid") ∅ = VNil
  /\ forall L : GoLib,
       @processAction L (@ProcessConditionalFlow L 1) (Some (callB "out" VNil)) ∅
                      store "app" "users"
       = Some {| responseToSend :=
                   VMap PlainMap
                     {[ "out" := VMap PlainMap (<["id" := VNil]> {[ "label" := VStr "u" ]}) ]};
                 finalDataState :=
                   {[ "out" := VMap PlainMap (<["id" := VNil]> {[ "label" := VStr "u" ]}) ]};
                 shouldSave := false; err := None |}.
Proof. split; [reflexivity|]. intros L. vm_compute. reflexivity. Qed.

(** C6.  Case ["return"] on a list: the empty list gives the response
    [nil], not an empty map; a pair written with [key] and [value] is
    skipped, where [convertArrayToMap] of the handler accepts it. *)
Theorem return_pair_list_slips :
  let pair := VMap PlainMap (<["key" := VStr "a"]> {[ "value" := VStr "x" ]}) in
  forall (L : GoLib) recur (d : datamap) (st : database.Store) (db coll : string),
    responseToSend <$> @processAction L recur (Some (returning (VList SliceAny []))) d st db coll
    = Some VNil
    /\ responseToSend <$> @processAction L recur (Some (returning (VList SliceAny [pair]))) d st db coll
       = Some (VMap PlainMap ∅)
    /\ api.convertArrayToMap (VList SliceAny [pair]) = VMap PlainMap {[ "a" := VStr "x" ]}.
Proof.
  intros pair L recur d st db coll. split; [reflexivity|]. split.
  - unfold processAction. cbn. reflexivity.
  - vm_compute. reflexivity.
Qed.

(** C4, the claim as written, at the empty list: the map returned is the
    map passed, not a new one. *)
Lemma ApplyTransformations_ref_empty_same_map :
  let h : heap := {[ 1%positive := {[ "a" := VStr "v" ]} ]} in
  h !! 1%positive = Some {[ "a" := VStr "v" ]}
  /\ ~ (fst (ApplyTransformations_ref [] 1%positive h) <> 1%positive).
Proof. split; [reflexivity|]. intros H. apply H. reflexivity. Qed.

Lemma ApplyTransformations_ref_frame_witness :
  let h : heap := {[ 1%positive := five_two ]} in
  let result := fst (ApplyTransformations_ref [ratio] 1%positive h) in
  let h' := snd (ApplyTransformations_ref [ratio] 1%positive h) in
  h !! 1%positive = Some five_two
  /\ h' !! 1%positive = Some five_two
  /\ deref h' result = <["r" := VFloat64 2.5]> five_two
  /\ result <> 1%positive.
Proof.
  intros h result h'.
  pose proof (ApplyTransformations_ref_frame [ratio] 1%positive h five_two eq_refl)
    as (Hdata & Hcontents & _ & _ & Hfresh).
  split; [reflexivity|]. split; [exact Hdata|]. split.
  - fold result h' in Hcontents |- *. rewrite Hcontents. vm_compute. reflexivity.
  - apply Hfresh. discriminate.
Defined.

(** C5, the claim as written, on a field that is present: the path
    resolves to [nil] and the field is still there. *)
Lemma set_null_path_keeps_field :
  SubstituteVariables (VStr "$missing") {[ "x" := VStr "old" ]} = VNil
  /\ ~ (ApplyTransformations [copy_to "x" "$missing"] {[ "x" := VStr "old" ]} !! "x" = None).
Proof.
  split; [reflexivity|].
  replace (ApplyTransformations _ _ !! "x") with (Some (VStr "old"))
    by (vm_compute; reflexivity).
  discriminate.
Qed.

Lemma set_path_value_witness :
  ApplyTransformations ([] ++ [copy_to "x" "$missing"]) {[ "x" := VStr "old" ]}
  = {[ "x" := VStr "old" ]}
  /\ ApplyTransformations ([] ++ [copy_to "y" "$x"]) {[ "x" := VStr "old" ]}
     = <["y" := VStr "old"]> {[ "x" := VStr "old" ]}.
Proof.
  split.
  - exact (proj1 (set_path_value [] (copy_to "x" "$missing") {[ "x" := VStr "old" ]}
                    "$missing" eq_refl eq_refl eq_refl) eq_refl).
  - refine (proj2 (set_path_value [] (copy_to "y" "$x") {[ "x" := VStr "old" ]}
                     "$x" eq_refl eq_refl eq_refl) _).
    intros H. vm_compute in H. discriminate H.
Defined.

(** C7, the claim as written, on a transformation whose field name is
    empty: both arguments convert to a number, and neither 0 (divisor 0)
    nor the quotient is written, the transformation is passed over. *)
Lemma calculate_divide_empty_field_skipped :
  let t := {| Operation := "calculate"; TField := ""; TValue := VNil;
              Formula := "divide:$a,$b" |} in
  getValueAsFloat "$a" five_zero = Some 5%float
  /\ getValueAsFloat "$b" five_zero = Some 0%float
  /\ getValueAsFloat "$b" five_two = Some 2%float
  /\ ~ (ApplyTransformations [t] five_zero = <["" := VFloat64 0]> five_zero
        \/ ApplyTransformations [t] five_two = <["" := VFloat64 (5 / 2)]> five_two).
Proof.
  intros t. split; [vm_compute; reflexivity|]. split; [vm_compute; reflexivity|].
  split; [vm_compute; reflexivity|].
  assert (forall d, ApplyTransformations [t] d = d) as Hskip by reflexivity.
  rewrite !Hskip. intros [H|H].
  - assert (five_zero !! "" = None) as Hnone by reflexivity.
    rewrite H, lookup_insert_eq in Hnone. discriminate Hnone.
  - assert (five_two !! "" = None) as Hnone by reflexivity.
    rewrite H, lookup_insert_eq in Hnone. discriminate Hnone.
Qed.

(** S4, and a division that is not by zero. *)
Lemma calculate_divide_witness :
  ApplyTransformations ([] ++ [ratio]) five_zero = <["r" := VFloat64 0]> five_zero
  /\ ApplyTransformations ([] ++ [ratio]) five_two = <["r" := VFloat64 (5 / 2)]> five_two.
Proof.
  split.
  - exact (proj1 (proj2 (calculate_divide [] ratio five_zero "divide" "$a,$b"
                           eq_refl ltac:(cbn; discriminate) eq_refl eq_refl)
                    "$a" "$b" 5%float 0%float eq_refl eq_refl eq_refl) eq_refl).
  - exact (proj2 (proj2 (calculate_divide [] ratio five_two "divide" "$a,$b"
                           eq_refl ltac:(cbn; discriminate) eq_refl eq_refl)
                    "$a" "$b" 5%float 2%float eq_refl eq_refl eq_refl) eq_refl).
Defined.

(** S1 without its required [id]. *)
Lemma required_parameter_missing_witness :
  api.DynamicAPIHandler 0 routes store
    (request "POST" "/u" [] (Some {[ "name" := VStr "Ada" ]}))
  = Some {| api.answer :=
              api.Sent 400
                (VMap FiberMap
                   {[ "error" := VStr "Missing or empty required parameter: id" ]});
            api.trace := [] |}.
Proof.
  set (req := request "POST" "/u" [] (Some {[ "name" := VStr "Ada" ]})).
  set (param := {| PName := "id"; PType := "string"; Required := true |}).
  assert (routes !! (req.(api.ReqMethod) +:+ ":" +:+ req.(api.ReqPath)) = Some defU)
    as Hroute by (vm_compute; reflexivity).
  assert (param ∈ defU.(Params)) as Hin by (left).
  assert (api.requestData req !! param.(PName) = None) as Habsent
    by (vm_compute; reflexivity).
  destruct (required_parameter_missing 0 routes store req defU param
              Hroute Hin eq_refl (or_introl Habsent))
    as (culprit & Hculprit & _ & Hanswer).
  apply list_elem_of_singleton in Hculprit. subst culprit. exact Hanswer.
Defined.

(** A flow that fails on an action of unknown type while asking for a
    save, alone and behind the handler. *)
Lemma no_save_on_error_witness :
  (exists r,
     ProcessConditionalFlow 1 defBad.(Flow) ∅ store "app" "users" = Some r
     /\ r.(err) = Some "unknown action type: bogus"
     /\ r.(shouldSave) = false)
  /\ (exists handled,
        api.DynamicAPIHandler 1 routes store (request "POST" "/bad" [] None) = Some handled
        /\ Forall (fun ev => api.is_save ev = false) handled.(api.trace)).
Proof.
  split.
  - eexists. split; [vm_compute; reflexivity|]. split; [reflexivity|].
    eapply (proj1 (no_save_on_error 1 store) defBad.(Flow) ∅ "app" "users");
      [vm_compute; reflexivity | cbn; eauto].
  - eexists. split; [vm_compute; reflexivity|].
    eapply (proj2 (proj2 (no_save_on_error 1 store)) routes
              (request "POST" "/bad" [] None) defBad);
      [vm_compute; reflexivity | vm_compute; reflexivity | cbn; eauto
      | vm_compute; reflexivity].
Defined.

End Examples.

(** ** More on transformations and substitution *)

Section MoreTransformations.
Context {L : GoLib}.

Lemma applyTransformation_other_field (t : Transformation) (result : datamap)
    (k : string) :
  t.(TField) <> k -> applyTransformation t result !! k = result !! k.
Proof.
  intros Hk. unfold applyTransformation.
  repeat case_match; rewrite ?lookup_insert_ne, ?lookup_delete_ne by exact Hk;
    reflexivity.
Qed.

(** X1.  Transformations write to their own field only: a field that is
    the target of none of the transformations of a list has, after the
    list is applied, the entry it had before (or none). *)
Theorem transformations_leave_other_fields
    (ts : list Transformation) (d : datamap) (k : string) :
  (forall t, t ∈ ts -> t.(TField) <> k) ->
  ApplyTransformations ts d !! k = d !! k.
Proof.
  rewrite ApplyTransformations_foldl. revert d.
  induction ts as [|t ts IH]; intros d Hts; [reflexivity|].
  cbn [foldl]. rewrite IH.
  - apply applyTransformation_other_field, Hts. left.
  - intros t' Hin. apply Hts. right. exact Hin.
Qed.

(** X4.  A [calculate] that cannot be carried out leaves the current map
    as it is: an empty formula or field, a formula without [:], or an
    operation name that is none of the six known ones. *)
Theorem calculate_malformed_unchanged
    (ts : list Transformation) (t : Transformation) (d : datamap) :
  t.(Operation) = "calculate" ->
  (t.(Formula) = "" \/ t.(TField) = ""
   \/ strings.Cut t.(Formula) ":" = None
   \/ exists op args,
        strings.SplitN2 t.(Formula) ":" = [op; args]
        /\ ~ In (ToLower (TrimSpace op))
                ["add"; "sum"; "multiply"; "product"; "subtract"; "divide"]) ->
  ApplyTransformations (ts ++ [t]) d = ApplyTransformations ts d.
Proof.
  intros Hop Hbad. rewrite ApplyTransformations_snoc.
  set (current := ApplyTransformations ts d).
  unfold applyTransformation. rewrite Hop. cbn [String.eqb Ascii.eqb Bool.eqb].
  destruct (String.eqb t.(Formula) "" || String.eqb t.(TField) "") eqn:Hguard;
    [reflexivity|].
  apply orb_false_iff in Hguard as [Hf Hfield].
  apply String.eqb_neq in Hf, Hfield.
  destruct Hbad as [E|[E|[E|(op & args & Hsplit & Hnot)]]]; try congruence.
  - unfold calculate, strings.SplitN2. rewrite E. reflexivity.
  - unfold calculate. rewrite Hsplit. cbn in Hnot.
    repeat match goal with
           | |- context [String.eqb ?a ?b] =>
               let E := fresh in
               destruct (String.eqb a b) eqn:E;
               [apply String.eqb_eq in E; exfalso; apply Hnot; rewrite E; tauto|]
           end.
    reflexivity.
Qed.

(** X5.  [add]/[sum] and [multiply]/[product] pass over an argument that
    is blank or does not convert to a number: the result is the one of
    the other arguments.  When no argument of a product is usable the
    result is 0, not the empty product 1. *)
Theorem sums_and_products_skip_unusable_arguments (result : datamap) :
  (forall before after arg,
     (let a := TrimSpace arg in
      a = ""
      \/ getValueAsFloat (if strings.HasPrefix a "-" then strings.TrimPrefix a "-" else a)
                          result = None) ->
     calcAdd (before ++ arg :: after) result = calcAdd (before ++ after) result)
  /\ (forall before after arg,
        TrimSpace arg = "" \/ getValueAsFloat (TrimSpace arg) result = None ->
        calcMultiply (before ++ arg :: after) result = calcMultiply (before ++ after) result)
  /\ (forall fieldArgs,
        (forall arg, arg ∈ fieldArgs ->
           TrimSpace arg = "" \/ getValueAsFloat (TrimSpace arg) result = None) ->
        calcMultiply fieldArgs result = 0%float).
Proof.
  split; [|split].
  - intros before after arg Hbad. unfold calcAdd. rewrite !foldl_app. cbn [foldl].
    f_equal. cbv zeta in Hbad. destruct Hbad as [->|Hnone]; [reflexivity|].
    destruct (String.eqb (TrimSpace arg) ""); [reflexivity|].
    rewrite Hnone. reflexivity.
  - intros before after arg Hbad. unfold calcMultiply. rewrite !foldl_app. cbn [foldl].
    cbv beta zeta. destruct Hbad as [E|E].
    + rewrite E. reflexivity.
    + destruct (String.eqb (TrimSpace arg) ""); [reflexivity|]. rewrite E. reflexivity.
  - intros fieldArgs Hall. unfold calcMultiply.
    match goal with
    | |- context [foldl ?f ?i fieldArgs] => assert (foldl f i fieldArgs = i) as ->
    end; [|reflexivity].
    generalize (1%float, false). induction fieldArgs as [|arg rest IH]; intros st;
      [reflexivity|].
    cbn [foldl]. cbv beta zeta.
    assert (TrimSpace arg = "" \/ getValueAsFloat (TrimSpace arg) result = None) as Hbad
      by (apply Hall; left).
    assert (forall a, a ∈ rest ->
              TrimSpace a = "" \/ getValueAsFloat (TrimSpace a) result = None) as Hrest
      by (intros a Ha; apply Hall; right; exact Ha).
    destruct Hbad as [E|E].
    + rewrite E. cbn [String.eqb]. apply IH, Hrest.
    + destruct (String.eqb (TrimSpace arg) ""); [apply IH, Hrest|].
      rewrite E. apply IH, Hrest.
Qed.

End MoreTransformations.

(** ** More on substitution *)

Section MoreSubstitution.

Lemma map_fold_sum_bound (f : value -> nat) (m : datamap) (k : string) (x : value) :
  m !! k = Some x ->
  (f x <= map_fold (fun _ y acc => f y + acc) 0 m)%nat.
Proof.
  revert k x.
  apply (map_fold_weak_ind
           (fun acc (m' : datamap) => forall k x, m' !! k = Some x -> (f x <= acc)%nat)).
  - intros k x H. rewrite lookup_empty in H. discriminate.
  - intros i y m' acc _ IH k x H.
    destruct (decide (i = k)) as [->|Hne].
    + rewrite lookup_insert_eq in H. injection H as ->. lia.
    + rewrite lookup_insert_ne in H by exact Hne. specialize (IH k x H). lia.
Qed.

Lemma list_sum_bound (f : value -> nat) (l : list value) (x : value) :
  x ∈ l -> (f x <= list_sum (map f l))%nat.
Proof.
  induction l as [|y l IH]; intros Hin.
  - apply elem_of_nil in Hin as [].
  - apply elem_of_cons in Hin as [->|Hin]; [cbn; lia|].
    specialize (IH Hin). unfold list_sum in *. cbn [map fold_right]. lia.
Qed.

Lemma refFree_entries (t : datamap) :
  analysis.refFree (VMap PlainMap t) = true ->
  forall k x, t !! k = Some x -> analysis.refFree x = true.
Proof.
  cbn [analysis.refFree].
  apply (map_fold_weak_ind
           (fun acc (m' : datamap) =>
              acc = true -> forall k x, m' !! k = Some x -> analysis.refFree x = true)).
  - intros _ k x H. rewrite lookup_empty in H. discriminate.
  - intros i y m' acc _ IH Hacc k x H.
    apply andb_true_iff in Hacc as [Hy Hacc].
    destruct (decide (i = k)) as [->|Hne].
    + rewrite lookup_insert_eq in H. injection H as <-. exact Hy.
    + rewrite lookup_insert_ne in H by exact Hne. exact (IH Hacc k x H).
Qed.

Lemma substitute_refFree_sized (d : datamap) (n : nat) :
  forall template,
    (analysis.vsize template < n)%nat ->
    analysis.refFree template = true ->
    SubstituteVariables template d = template.
Proof.
  induction n as [|n IH]; intros template Hsize Hfree; [lia|].
  destruct template as [| | | | |s|[] l|[] m|]; try reflexivity.
  - cbn in Hfree |- *. apply negb_true_iff in Hfree. rewrite Hfree. reflexivity.
  - cbn [SubstituteVariables]. f_equal.
    cbn [analysis.refFree] in Hfree. cbn [analysis.vsize] in Hsize.
    assert (forall x, x ∈ l -> SubstituteVariables x d = x) as Hall.
    { intros x Hx. apply IH.
      - pose proof (list_sum_bound analysis.vsize l x Hx). lia.
      - rewrite forallb_forall in Hfree. apply Hfree, list_elem_of_In, Hx. }
    clear Hsize Hfree. induction l as [|x l IHl]; [reflexivity|].
    cbn [map]. rewrite (Hall x) by left. f_equal.
    apply IHl. intros y Hy. apply Hall. right. exact Hy.
  - cbn [SubstituteVariables]. f_equal. apply map_eq. intros k.
    rewrite lookup_fmap. destruct (m !! k) as [x|] eqn:Hk; [|reflexivity].
    cbn. f_equal. apply IH.
    + cbn [analysis.vsize] in Hsize.
      pose proof (map_fold_sum_bound analysis.vsize m k x Hk). lia.
    + exact (refFree_entries m Hfree k x Hk).
Qed.

(** X2.  A template in which no string that substitution reaches starts
    with [$] is returned as it is, whatever the data. *)
Theorem substitute_reference_free (template : value) (d : datamap) :
  analysis.refFree template = true ->
  SubstituteVariables template d = template.
Proof.
  apply (substitute_refFree_sized d (S (analysis.vsize template))). lia.
Qed.

Lemma Split_nonempty (s : string) (sep : ascii) : strings.Split s sep <> [].
Proof.
  destruct s as [|c s]; cbn; [discriminate|].
  destruct (Ascii.eqb c sep); [discriminate|].
  destruct (strings.Split s sep); discriminate.
Qed.

(** Splitting a string at a separator byte it contains. *)
Lemma Split_app (s1 s2 : string) (sep : ascii) :
  strings.Split (s1 +:+ String sep s2) sep
  = (strings.Split s1 sep ++ strings.Split s2 sep)%list.
Proof.
  induction s1 as [|c s1 IH]; simpl.
  - rewrite Ascii.eqb_refl. reflexivity.
  - destruct (Ascii.eqb c sep); rewrite IH; [reflexivity|].
    pose proof (Split_nonempty s1 sep) as Hne.
    destruct (strings.Split s1 sep); [congruence|reflexivity].
Qed.

Lemma HasPrefix_empty (s : string) : strings.HasPrefix s "" = true.
Proof. destruct s; reflexivity. Qed.

Lemma lookupPath_app (p q : list string) (v : value) :
  lookupPath (p ++ q) v
  = match lookupPath p v with Some w => lookupPath q w | None => None end.
Proof.
  revert v. induction p as [|part p IH]; intros v; [reflexivity|].
  cbn [app lookupPath]. destruct v as [| | | | | | |[] m|]; try reflexivity.
  destruct (m !! part); [apply IH|reflexivity].
Qed.

(** X3.  A reference [$head.rest] resolves in two steps: [head] is looked
    up in the data, and [rest] in the map found there; when [head] leads
    to no value, or to a value that is not a map, the reference is
    [nil]. *)
Theorem substitute_nested_reference (head rest : string) (d : datamap) :
  SubstituteVariables (VStr ("$" +:+ head +:+ "." +:+ rest)) d
  = match lookupPath (strings.Split head ".") (VMap PlainMap d) with
    | Some (VMap PlainMap m) => SubstituteVariables (VStr ("$" +:+ rest)) m
    | _ => VNil
    end.
Proof.
  change ("$" +:+ head +:+ "." +:+ rest) with (String "$" (head +:+ String "." rest)).
  change ("$" +:+ rest) with (String "$" rest).
  cbn [SubstituteVariables]. unfold strings.TrimPrefix.
  cbn [strings.HasPrefix Ascii.eqb Bool.eqb andb String.length strings.drop_bytes].
  rewrite !HasPrefix_empty.
  rewrite Split_app, lookupPath_app.
  destruct (lookupPath (strings.Split head ".") (VMap PlainMap d)) as [w|]; [|reflexivity].
  pose proof (Split_nonempty rest ".") as Hne.
  destruct (strings.Split rest ".") as [|part parts] eqn:E; [congruence|].
  destruct w as [| | | | | | |[] m|]; reflexivity.
Qed.

End MoreSubstitution.

(** ** More on conditions *)

Section MoreConditions.
Context {L : GoLib}.

(** X6.  For a field name without a dot that is not a key of the data,
    [neq] holds and every other operator fails, whatever the value
    compared with. *)
Theorem missing_flat_field_asymmetry (c : Condition) (d : datamap) :
  strings.Contains c.(Field) "." = false ->
  d !! c.(Field) = None ->
  (c.(Operator) = "neq" -> evaluateCondition c d = true)
  /\ (c.(Operator) <> "neq" -> evaluateCondition c d = false).
Proof.
  intros Hflat Hd. rewrite (evaluateCondition_absent_flat c d Hflat Hd). split.
  - intros ->. reflexivity.
  - intros Hop. apply String.eqb_neq. exact Hop.
Qed.

(** X7.  A condition with an operator other than [neq] can only hold when
    the data has an entry whose key is the whole field name, dots
    included: the value a dotted path leads to is not what is compared. *)
Theorem condition_needs_flat_key (c : Condition) (d : datamap) :
  evaluateCondition c d = true ->
  c.(Operator) <> "neq" ->
  is_Some (d !! c.(Field)).
Proof.
  intros Htrue Hop. destruct (d !! c.(Field)) eqn:Hd; [eauto|].
  destruct Hop. exact (evaluateCondition_no_flat_key c d Hd Htrue).
Qed.

(** X8.  A condition on a dotted field [head.rest] fails, for every
    operator and even when the data has an entry under the whole name,
    unless the data holds a map under [head]. *)
Theorem dotted_field_needs_map_head (c : Condition) (d : datamap) (head rest : string) :
  c.(Field) = head +:+ "." +:+ rest ->
  strings.Contains head "." = false ->
  (forall m, d !! head <> Some (VMap PlainMap m)) ->
  evaluateCondition c d = false.
Proof.
  intros Hfield Hhead Hnomap. unfold evaluateCondition. rewrite Hfield.
  change (head +:+ "." +:+ rest) with (head +:+ String "." rest).
  rewrite Split_app, (Split_no_sep head "." Hhead).
  pose proof (Split_nonempty rest ".") as Hne.
  destruct (strings.Split rest ".") as [|part parts]; [congruence|].
  cbn [app walkField]. unfold index.
  destruct (d !! head) as [[| | | | | | |[] m|]|] eqn:Hd; try reflexivity.
  destruct (Hnomap m). reflexivity.
Qed.

End MoreConditions.

(** ** More on the flow interpreter *)

Section MoreFlow.
Context {L : GoLib}.

Lemma storeNested_cons (part part' : string) (rest : list string) (v : value)
    (current : datamap) :
  storeNested (part :: part' :: rest) v current
  = match (match current !! part with
           | None => <[part := VMap PlainMap ∅]> current
           | Some _ => current
           end) !! part with
    | Some (VMap PlainMap next) =>
        match storeNested (part' :: rest) v next with
        | Some next' =>
            Some (<[part := VMap PlainMap next']>
                    (match current !! part with
                     | None => <[part := VMap PlainMap ∅]> current
                     | Some _ => current
                     end))
        | None => None
        end
    | _ => None
    end.
Proof. reflexivity. Qed.

Lemma storeNested_empty (parts : list string) (v : value) :
  is_Some (storeNested parts v ∅).
Proof.
  induction parts as [|part [|part' rest] IH]; [cbn; eauto..|].
  rewrite storeNested_cons, lookup_empty, lookup_insert_eq.
  destruct IH as [next' ->]. eauto.
Qed.

Lemma storeNested_lookup (parts : list string) (v : value) :
  forall current stored,
    parts <> [] ->
    storeNested parts v current = Some stored ->
    lookupPath parts (VMap PlainMap stored) = Some v.
Proof.
  induction parts as [|part [|part' rest] IH]; intros current stored Hne H.
  - congruence.
  - cbn in H |- *. injection H as <-. rewrite lookup_insert_eq. reflexivity.
  - rewrite storeNested_cons in H.
    set (current' := match current !! part with
                     | Some _ => current
                     | None => <[part := VMap PlainMap ∅]> current
                     end) in H.
    destruct (current' !! part) as [[| | | | | | |[] next|]|]; try congruence.
    destruct (storeNested (part' :: rest) v next) as [next'|] eqn:Hnext; [|congruence].
    injection H as <-. cbn [lookupPath]. rewrite lookup_insert_eq.
    apply (IH next next'); [discriminate|exact Hnext].
Qed.

Lemma storeNested_frame (parts : list string) (v : value) (current stored : datamap)
    (part k : string) (rest : list string) :
  parts = part :: rest -> k <> part ->
  storeNested parts v current = Some stored ->
  stored !! k = current !! k.
Proof.
  intros -> Hk H. destruct rest as [|part' rest].
  - cbn in H. injection H as <-. rewrite lookup_insert_ne by congruence. reflexivity.
  - rewrite storeNested_cons in H.
    destruct (current !! part) eqn:Hc.
    + rewrite Hc in H. destruct v0 as [| | | | | | |[] next|]; try congruence.
      destruct (storeNested (part' :: rest) v next); [|congruence].
      injection H as <-. rewrite lookup_insert_ne by congruence. reflexivity.
    + rewrite lookup_insert_eq in H.
      destruct (storeNested (part' :: rest) v ∅); [|congruence].
      injection H as <-. rewrite !lookup_insert_ne by congruence. reflexivity.
Qed.


(** X10.  Storing at a dotted path whose first segment is not yet a key
    of the data always succeeds, creates the maps in between, and leaves
    every other entry of the data as it was. *)
Theorem storeNested_fresh_head
    (part : string) (rest : list string) (v : value) (current : datamap) :
  current !! part = None ->
  exists stored,
    storeNested (part :: rest) v current = Some stored
    /\ lookupPath (part :: rest) (VMap PlainMap stored) = Some v
    /\ forall k, k <> part -> stored !! k = current !! k.
Proof.
  intros Hfresh.
  assert (is_Some (storeNested (part :: rest) v current)) as [stored Hstored].
  { destruct rest as [|part' rest]; [cbn; eauto|].
    rewrite storeNested_cons, Hfresh, lookup_insert_eq.
    destruct (storeNested_empty (part' :: rest) v) as [next' ->]. eauto. }
  exists stored. split; [exact Hstored|]. split.
  - apply (storeNested_lookup _ v current stored); [discriminate|exact Hstored].
  - intros k Hk. exact (storeNested_frame _ v current stored part k rest eq_refl Hk Hstored).
Qed.

(** X11.  Case ["return"] on a list that is not empty: the response is
    the substitution into the map folded from the pairs that have a
    string under ["Key"] (a later pair replaces an earlier one with the
    same key); the data returned is the transformed data and the save
    flag is the action's. *)
Theorem return_pairs_nonempty
    (recur : option ConditionalBlock -> datamap -> database.Store -> string -> string
             -> option FlowResult)
    (action : ActionDefinition) (v : list value) (d : datamap)
    (store : database.Store) (db coll : string) :
  action.(Type_) = "return" ->
  action.(ReturnData) = VList SliceAny v ->
  v <> [] ->
  processAction recur (Some action) d store db coll
  = Some {| responseToSend :=
              SubstituteVariables (VMap PlainMap (foldPairs v))
                                  (ApplyTransformations action.(Transform) d);
            finalDataState := ApplyTransformations action.(Transform) d;
            shouldSave := action.(SaveData); err := None |}.
Proof.
  intros Htype Hdata Hne. unfold processAction. rewrite Htype, Hdata.
  cbn [String.eqb Ascii.eqb Bool.eqb]. rewrite (returnFromPairs_nonempty v _ Hne).
  reflexivity.
Qed.

Lemma nilParam_found (callParams : datamap) (k : string) :
  callParams !! k = Some VNil -> is_Some (nilParam callParams).
Proof.
  intros Hk. unfold nilParam.
  assert ((k, VNil) ∈ filter (fun kv => is_nil kv.2) (map_to_list callParams)) as Hin.
  { apply list_elem_of_filter. split; [exact I|]. apply elem_of_map_to_list. exact Hk. }
  destruct (filter _ _) as [|[k' v'] rest]; [apply elem_of_nil in Hin as []|eauto].
Qed.

(** X12.  An [apiCall] with a parameter written as a literal [nil]: once
    the target definition is found, the action answers "Missing required
    parameter" for such a parameter, with no error and no save, and the
    flow of the target is not run (the answer is the same whatever the
    recursive call would do). *)
Theorem apiCall_literal_nil_parameter
    (action : ActionDefinition) (apiCall : ApiCall) (target : ApiDefinition)
    (d : datamap) (store : database.Store) (db coll k : string) :
  action.(Type_) = "apiCall" ->
  action.(ApiCall_) = Some apiCall ->
  store.(database.GetAPIDefinitionByName) apiCall.(ApiName) = inl target ->
  apiCall.(Parameters) !! k = Some VNil ->
  exists k',
    apiCall.(Parameters) !! k' = Some VNil
    /\ forall recur,
         processAction recur (Some action) d store db coll
         = Some {| responseToSend := statusErrorMap ("Missing required parameter: " +:+ k');
                   finalDataState := ApplyTransformations action.(Transform) d;
                   shouldSave := false; err := None |}.
Proof.
  intros Htype Hcall Hstore Hk.
  set (dat := ApplyTransformations action.(Transform) d).
  set (callParams := omap (fun v => callParam v dat) apiCall.(Parameters)).
  assert (callParams !! k = Some VNil) as Hnil
    by (unfold callParams; rewrite lookup_omap, Hk; reflexivity).
  destruct (nilParam_found callParams k Hnil) as [k' Hk'].
  exists k'. split; [exact (nilParam_literal _ _ _ Hk')|].
  intros recur. unfold processAction. rewrite Htype, Hcall, Hstore.
  cbn [String.eqb Ascii.eqb Bool.eqb]. fold dat. fold callParams. rewrite Hk'.
  reflexivity.
Qed.

(** *** Flows without calls *)

Lemma processAction_callFree
    (recur recur' : option ConditionalBlock -> datamap -> database.Store -> string -> string
                    -> option FlowResult)
    (action : ActionDefinition) (d : datamap) (store store' : database.Store)
    (db coll db' coll' : string) :
  analysis.actionCallFree action = true ->
  (forall b d', action.(ConditionalFlow) = Some b ->
                recur (Some b) d' store db coll = recur' (Some b) d' store' db' coll') ->
  processAction recur (Some action) d store db coll
  = processAction recur' (Some action) d store' db' coll'.
Proof.
  destruct action as [type_ returnData nested save transform apiCall].
  cbn [analysis.actionCallFree ConditionalFlow]. intros Hfree Hrec.
  apply andb_true_iff in Hfree as [Htype _]. apply negb_true_iff in Htype.
  unfold processAction. cbn [Type_ ReturnData ConditionalFlow SaveData Transform ApiCall_].
  destruct (String.eqb type_ "return"); [reflexivity|].
  destruct (String.eqb type_ "conditionalBlock").
  { destruct nested as [b|]; [apply Hrec; reflexivity|reflexivity]. }
  destruct (String.eqb type_ "continue"); [reflexivity|].
  rewrite Htype. reflexivity.
Qed.

Lemma callFree_store_independent (fuel : nat) :
  forall b d store db coll store' db' coll',
    analysis.blockCallFree b = true ->
    ProcessConditionalFlow fuel (Some b) d store db coll
    = ProcessConditionalFlow fuel (Some b) d store' db' coll'.
Proof.
  induction fuel as [|fuel IH]; intros b d store db coll store' db' coll' Hfree;
    [reflexivity|].
  rewrite !ProcessConditionalFlow_S.
  destruct b as [conds then_ else_]. cbn [Conditions Then Else].
  cbn [analysis.blockCallFree] in Hfree. apply andb_true_iff in Hfree as [Hthen Helse].
  destruct (if evaluateConditions conds d then then_ else else_) as [action|] eqn:Hsel;
    [|reflexivity].
  assert (analysis.actionCallFree action = true) as Haction.
  { destruct (evaluateConditions conds d); subst; assumption. }
  rewrite (processAction_callFree (ProcessConditionalFlow fuel) (ProcessConditionalFlow fuel)
             action d store store' db coll db' coll' Haction); [reflexivity|].
  intros b d' Hnested. apply IH.
  destruct action as [type_ returnData nested save transform apiCall].
  cbn [ConditionalFlow] in Hnested. subst nested.
  cbn [analysis.actionCallFree] in Haction. apply andb_true_iff in Haction as [_ H].
  exact H.
Qed.

Lemma callFree_terminates (fuel : nat) :
  forall b d store db coll,
    analysis.blockCallFree b = true ->
    (analysis.blockDepth b <= fuel)%nat ->
    is_Some (ProcessConditionalFlow fuel (Some b) d store db coll).
Proof.
  induction fuel as [|fuel IH]; intros b d store db coll Hfree Hdepth.
  { destruct b; cbn in Hdepth; lia. }
  rewrite ProcessConditionalFlow_S.
  destruct b as [conds then_ else_]. cbn [Conditions Then Else].
  cbn [analysis.blockCallFree] in Hfree. apply andb_true_iff in Hfree as [Hthen Helse].
  cbn [analysis.blockDepth] in Hdepth.
  destruct (if evaluateConditions conds d then then_ else else_) as [action|] eqn:Hsel;
    [|eauto].
  assert (analysis.actionCallFree action = true
          /\ (analysis.actionDepth action <= fuel)%nat) as [Haction Hadepth].
  { destruct (evaluateConditions conds d); subst; split; try assumption; lia. }
  assert (is_Some (processAction (ProcessConditionalFlow fuel) (Some action)
                                 d store db coll)) as [r ->].
  { destruct action as [type_ returnData nested save transform apiCall].
    cbn [analysis.actionCallFree] in Haction.
    apply andb_true_iff in Haction as [Htype Hnested]. apply negb_true_iff in Htype.
    cbn [analysis.actionDepth] in Hadepth.
    unfold processAction.
    cbn [Type_ ReturnData ConditionalFlow SaveData Transform ApiCall_].
    destruct (String.eqb type_ "return"); [eauto|].
    destruct (String.eqb type_ "conditionalBlock").
    { destruct nested as [b|]; [apply IH; assumption|eauto]. }
    destruct (String.eqb type_ "continue"); [eauto|].
    rewrite Htype. eauto. }
  destruct (err r); eauto.
Qed.

(** X13.  A flow none of whose actions is an [apiCall] always ends,
    within a depth equal to the nesting of its blocks, and its result
    does not depend on the store or on the database and collection
    names. *)
Theorem call_free_flow_ends (b : ConditionalBlock) (fuel : nat) (d : datamap)
    (store : database.Store) (db coll : string) :
  analysis.blockCallFree b = true ->
  (analysis.blockDepth b <= fuel)%nat ->
  exists r,
    ProcessConditionalFlow fuel (Some b) d store db coll = Some r
    /\ forall store' db' coll',
         ProcessConditionalFlow fuel (Some b) d store' db' coll' = Some r.
Proof.
  intros Hfree Hdepth.
  destruct (callFree_terminates fuel b d store db coll Hfree Hdepth) as [r Hr].
  exists r. split; [exact Hr|]. intros store' db' coll'.
  rewrite <- Hr. symmetry. apply callFree_store_independent. exact Hfree.
Qed.

End MoreFlow.

(** ** More on the dispatcher *)

Section MoreHandler.
Context {L : GoLib}.

Lemma convertArrayToMap_cases (data : value) :
  api.convertArrayToMap data = data
  \/ exists m, api.convertArrayToMap data = VMap PlainMap m.
Proof.
  destruct data as [| | | | | |[] slice| |]; try (left; reflexivity).
  all: unfold api.convertArrayToMap.
  all: destruct (length slice =? 0)%nat; [left; reflexivity|].
  all: destruct (forallb api.hasKeyValue slice); [right; eauto|left; reflexivity].
Qed.

(** [convertArrayToMap] changes a value at most once. *)
Lemma convertArrayToMap_idempotent (data : value) :
  api.convertArrayToMap (api.convertArrayToMap data) = api.convertArrayToMap data.
Proof.
  destruct (convertArrayToMap_cases data) as [H|[m H]].
  - rewrite H. exact H.
  - rewrite H. reflexivity.
Qed.

(** The loop over the query arguments keeps what is there and adds the
    first argument of each new name. *)
Lemma query_fold_kept (args : list (string * string)) (reqData : datamap)
    (k : string) (x : value) :
  reqData !! k = Some x ->
  foldl (fun (reqData : datamap) kv =>
           match reqData !! fst kv with
           | None => <[fst kv := VStr (snd kv)]> reqData
           | Some _ => reqData
           end) reqData args !! k = Some x.
Proof.
  revert reqData. induction args as [|[k' v'] args IH]; intros reqData Hk; [exact Hk|].
  cbn [foldl fst snd]. apply IH.
  destruct (reqData !! k') eqn:Hk'; [exact Hk|].
  rewrite lookup_insert_ne by congruence. exact Hk.
Qed.

Lemma query_fold_absent (args : list (string * string)) (reqData : datamap) (k : string) :
  reqData !! k = None ->
  k ∉ map fst args ->
  foldl (fun (reqData : datamap) kv =>
           match reqData !! fst kv with
           | None => <[fst kv := VStr (snd kv)]> reqData
           | Some _ => reqData
           end) reqData args !! k = None.
Proof.
  revert reqData. induction args as [|[k' v'] args IH]; intros reqData Hk Hnot;
    [exact Hk|].
  cbn [map fst] in Hnot. apply not_elem_of_cons in Hnot as [Hne Hnot].
  cbn [foldl fst snd]. apply IH; [|exact Hnot].
  destruct (reqData !! k'); [exact Hk|].
  rewrite lookup_insert_ne by congruence. exact Hk.
Qed.

Lemma query_fold_first (before after : list (string * string)) (reqData : datamap)
    (k v : string) :
  reqData !! k = None ->
  k ∉ map fst before ->
  foldl (fun (reqData : datamap) kv =>
           match reqData !! fst kv with
           | None => <[fst kv := VStr (snd kv)]> reqData
           | Some _ => reqData
           end) reqData (before ++ (k, v) :: after) !! k = Some (VStr v).
Proof.
  intros Hk Hnot. rewrite foldl_app. cbn [foldl fst snd].
  rewrite (query_fold_absent before reqData k Hk Hnot).
  apply query_fold_kept. apply lookup_insert_eq.
Qed.

(** X14.  The request data gives precedence to path parameters, then to
    the first query argument of a name, then to the body, which counts
    for POST, PUT and PATCH only. *)
Theorem requestData_precedence (req : api.Request) (k : string) :
  (forall v, req.(api.AllParams) !! k = Some v ->
             api.requestData req !! k = Some (VStr v))
  /\ (forall before after v,
        req.(api.AllParams) !! k = None ->
        req.(api.QueryArgs) = (before ++ (k, v) :: after)%list ->
        k ∉ map fst before ->
        api.requestData req !! k = Some (VStr v))
  /\ (req.(api.AllParams) !! k = None ->
      k ∉ map fst req.(api.QueryArgs) ->
      api.requestData req !! k
      = if String.eqb req.(api.ReqMethod) "POST" || String.eqb req.(api.ReqMethod) "PUT"
           || String.eqb req.(api.ReqMethod) "PATCH"
        then match req.(api.Body) with Some bodyData => bodyData !! k | None => None end
        else None).
Proof.
  unfold api.requestData.
  set (merged := foldl _ _ req.(api.QueryArgs)).
  assert (forall x, merged !! k = Some x ->
            (if String.eqb req.(api.ReqMethod) "POST" || String.eqb req.(api.ReqMethod) "PUT"
                || String.eqb req.(api.ReqMethod) "PATCH"
             then match req.(api.Body) with
                  | Some bodyData => merged ∪ bodyData
                  | None => merged
                  end
             else merged) !! k = Some x) as Hkeep.
  { intros x Hx. destruct (_ || _); [|exact Hx].
    destruct req.(api.Body); [|exact Hx]. apply lookup_union_Some_l. exact Hx. }
  split; [|split].
  - intros v Hv. apply Hkeep. subst merged. apply query_fold_kept.
    rewrite lookup_fmap, Hv. reflexivity.
  - intros before after v Hpath Hquery Hfirst. apply Hkeep. subst merged.
    rewrite Hquery. apply query_fold_first; [|exact Hfirst].
    rewrite lookup_fmap, Hpath. reflexivity.
  - intros Hpath Hquery.
    assert (merged !! k = None) as Hnone.
    { subst merged. apply query_fold_absent; [|exact Hquery].
      rewrite lookup_fmap, Hpath. reflexivity. }
    destruct (_ || _); [|exact Hnone].
    destruct req.(api.Body) as [bodyData|]; [|exact Hnone].
    rewrite lookup_union_r by exact Hnone. reflexivity.
Qed.

(** X15.  A matched definition whose required parameters are all there
    but whose database or collection name is empty is answered 500, and
    neither the flow nor the default logic nor the store is reached. *)
Theorem missing_target_is_config_error
    (fuel : nat) (routes : gmap string ApiDefinition) (store : database.Store)
    (req : api.Request) (def : ApiDefinition) :
  routes !! (req.(api.ReqMethod) +:+ ":" +:+ req.(api.ReqPath)) = Some def ->
  api.missingRequired def.(Params) (api.requestData req) = None ->
  def.(Database) = "" \/ def.(Collection) = "" ->
  api.DynamicAPIHandler fuel routes store req
  = Some {| api.answer :=
              api.Sent 500
                (VMap FiberMap
                   {[ "error" := VStr "API configuration error: missing target database or collection" ]});
            api.trace := [] |}.
Proof.
  intros Hroute Hparams Hempty. unfold api.DynamicAPIHandler.
  rewrite Hroute, Hparams.
  assert (String.eqb def.(Database) "" || String.eqb def.(Collection) "" = true) as ->;
    [|reflexivity].
  apply orb_true_iff. rewrite !String.eqb_eq. exact Hempty.
Qed.

(** The handler once a definition is matched, its parameters are there
    and its target is named. *)
Lemma handler_after_checks
    (fuel : nat) (routes : gmap string ApiDefinition) (store : database.Store)
    (req : api.Request) (def : ApiDefinition) :
  routes !! (req.(api.ReqMethod) +:+ ":" +:+ req.(api.ReqPath)) = Some def ->
  api.missingRequired def.(Params) (api.requestData req) = None ->
  def.(Database) <> "" -> def.(Collection) <> "" ->
  api.DynamicAPIHandler fuel routes store req
  = match api.processLogic fuel def store req.(api.ReqMethod) (api.requestData req) with
    | None => None
    | Some st =>
        match api.saveStep def store st with
        | inr evs => Some {| api.answer := api.Panic; api.trace := evs |}
        | inl st' => Some {| api.answer := api.finish st'; api.trace := st'.(api.events) |}
        end
    end.
Proof.
  intros Hroute Hparams Hdb Hcoll. unfold api.DynamicAPIHandler.
  rewrite Hroute, Hparams.
  apply String.eqb_neq in Hdb, Hcoll. rewrite Hdb, Hcoll. reflexivity.
Qed.

(** X16.  The default DELETE without any request data is refused with
    400 before the store is called.  (For a request that reached the
    default logic: its route is registered, no required parameter is
    missing, the database and the collection are named.) *)
Theorem default_delete_needs_parameters
    (fuel : nat) (routes : gmap string ApiDefinition) (store : database.Store)
    (req : api.Request) (def : ApiDefinition) :
  routes !! (req.(api.ReqMethod) +:+ ":" +:+ req.(api.ReqPath)) = Some def ->
  api.missingRequired def.(Params) (api.requestData req) = None ->
  def.(Database) <> "" -> def.(Collection) <> "" ->
  def.(Flow) = None ->
  req.(api.ReqMethod) = "DELETE" ->
  api.requestData req = ∅ ->
  api.DynamicAPIHandler fuel routes store req
  = Some {| api.answer :=
              api.Sent 400
                (VMap FiberMap
                   {[ "error" := VStr "DELETE requires parameters to identify data to delete" ]});
            api.trace := [api.EvDefault] |}.
Proof.
  intros Hroute Hparams Hdb Hcoll Hflow Hmethod Hdata.
  rewrite (handler_after_checks fuel routes store req def Hroute Hparams Hdb Hcoll).
  unfold api.processLogic. rewrite Hflow, Hmethod, Hdata. reflexivity.
Qed.

(** X17.  The default GET uses the whole request data as the filter of
    one find and never saves: it answers the documents found, or 500
    with the error of the store.  (For a request that reached the
    default logic: its route is registered, no required parameter is
    missing, the database and the collection are named.) *)
Theorem default_get_finds
    (fuel : nat) (routes : gmap string ApiDefinition) (store : database.Store)
    (req : api.Request) (def : ApiDefinition) :
  routes !! (req.(api.ReqMethod) +:+ ":" +:+ req.(api.ReqPath)) = Some def ->
  api.missingRequired def.(Params) (api.requestData req) = None ->
  def.(Database) <> "" -> def.(Collection) <> "" ->
  def.(Flow) = None ->
  req.(api.ReqMethod) = "GET" ->
  api.DynamicAPIHandler fuel routes store req
  = Some {| api.answer :=
              match store.(database.FindData) def.(Database) def.(Collection)
                                              (api.requestData req) with
              | inl results => api.Sent 200 (VList SliceBsonM (VMap BsonM <$> results))
              | inr e =>
                  api.Sent 500
                    (VMap FiberMap {[ "error" := VStr ("failed to retrieve data: " +:+ e) ]})
              end;
            api.trace :=
              [api.EvDefault;
               api.EvFind def.(Database) def.(Collection) (api.requestData req)] |}.
Proof.
  intros Hroute Hparams Hdb Hcoll Hflow Hmethod.
  rewrite (handler_after_checks fuel routes store req def Hroute Hparams Hdb Hcoll).
  unfold api.processLogic. rewrite Hflow, Hmethod. cbn [String.eqb Ascii.eqb Bool.eqb].
  destruct (database.FindData store _ _ _) as [results|e]; reflexivity.
Qed.

(** X18.  The default POST or PUT whose save fails does not answer: the
    response at that point is the request data, a
    [map[string]interface{}], and the handler asserts it to be a
    [fiber.Map], which panics; the save has been attempted once. *)
Theorem default_post_save_failure_panics
    (fuel : nat) (routes : gmap string ApiDefinition) (store : database.Store)
    (req : api.Request) (def : ApiDefinition) (e : error) :
  routes !! (req.(api.ReqMethod) +:+ ":" +:+ req.(api.ReqPath)) = Some def ->
  api.missingRequired def.(Params) (api.requestData req) = None ->
  def.(Database) <> "" -> def.(Collection) <> "" ->
  def.(Flow) = None ->
  req.(api.ReqMethod) = "POST" \/ req.(api.ReqMethod) = "PUT" ->
  store.(database.SaveData) def.(Database) def.(Collection) def.(UniqueKey)
                            (api.requestData req) = Some e ->
  api.DynamicAPIHandler fuel routes store req
  = Some {| api.answer := api.Panic;
            api.trace :=
              [api.EvDefault;
               api.EvSave def.(Database) def.(Collection) def.(UniqueKey)
                          (api.requestData req)] |}.
Proof.
  intros Hroute Hparams Hdb Hcoll Hflow Hmethod Hsave.
  rewrite (handler_after_checks fuel routes store req def Hroute Hparams Hdb Hcoll).
  unfold api.processLogic. rewrite Hflow.
  destruct Hmethod as [-> | ->]; cbn [String.eqb Ascii.eqb Bool.eqb orb];
    unfold api.saveStep; cbn; rewrite Hsave; reflexivity.
Qed.

(** X19.  An error of the flow is answered 500 with the message of the
    error after "failed to process request logic: ", and nothing is
    saved. *)
Theorem flow_error_is_500
    (fuel : nat) (routes : gmap string ApiDefinition) (store : database.Store)
    (req : api.Request) (def : ApiDefinition) (r : FlowResult) (e : error) :
  routes !! (req.(api.ReqMethod) +:+ ":" +:+ req.(api.ReqPath)) = Some def ->
  api.missingRequired def.(Params) (api.requestData req) = None ->
  def.(Database) <> "" -> def.(Collection) <> "" ->
  is_Some def.(Flow) ->
  ProcessConditionalFlow fuel def.(Flow) (api.requestData req) store
                         def.(Database) def.(Collection) = Some r ->
  r.(err) = Some e ->
  api.DynamicAPIHandler fuel routes store req
  = Some {| api.answer :=
              api.Sent 500
                (VMap FiberMap
                   {[ "error" := VStr ("failed to process request logic: " +:+ e) ]});
            api.trace := [api.EvFlow] |}.
Proof.
  intros Hroute Hparams Hdb Hcoll [flow Hflow] Hrun Herr.
  rewrite (handler_after_checks fuel routes store req def Hroute Hparams Hdb Hcoll).
  unfold api.processLogic. rewrite Hflow in Hrun |- *. rewrite Hrun, Herr.
  reflexivity.
Qed.

End MoreHandler.

(** ** The store *)

Section StoreData.
Context {L : GoLib}.

Lemma upsertSet_spec (uniqueKey : string) (data : datamap) :
  (forall k, fst (dbstore.upsertSet uniqueKey data) !! k
             = if dbstore.excluded uniqueKey k then None else data !! k)
  /\ (snd (dbstore.upsertSet uniqueKey data) = true
      <-> exists k v, data !! k = Some v /\ dbstore.excluded uniqueKey k = false).
Proof.
  unfold dbstore.upsertSet.
  apply (map_fold_weak_ind
           (fun (st : datamap * bool) (m : datamap) =>
              (forall k, fst st !! k = if dbstore.excluded uniqueKey k then None else m !! k)
              /\ (snd st = true <-> exists k v, m !! k = Some v /\ dbstore.excluded uniqueKey k = false))).
  - split.
    + intros k. cbn. rewrite !lookup_empty. destruct (dbstore.excluded uniqueKey k); reflexivity.
    + cbn. split; [discriminate|]. intros (k & v & H & _). rewrite lookup_empty in H.
      discriminate.
  - intros i x m st Hi [IHl IHb].
    assert (negb (String.eqb i "_id") && negb (String.eqb i uniqueKey)
            = negb (dbstore.excluded uniqueKey i)) as ->
      by (unfold dbstore.excluded; rewrite negb_orb; reflexivity).
    destruct (dbstore.excluded uniqueKey i) eqn:Hex; cbn [negb fst snd].
    + split.
      * intros k. rewrite IHl. destruct (dbstore.excluded uniqueKey k) eqn:Hk; [reflexivity|].
        rewrite lookup_insert_ne by congruence. reflexivity.
      * rewrite IHb. split; intros (k & v & Hk & Hexk); exists k, v; split; try assumption.
        -- rewrite lookup_insert_ne by congruence. exact Hk.
        -- rewrite lookup_insert_ne in Hk by congruence. exact Hk.
    + split.
      * intros k. destruct (decide (i = k)) as [->|Hne].
        -- rewrite Hex, !lookup_insert_eq. reflexivity.
        -- rewrite !lookup_insert_ne by exact Hne. apply IHl.
      * split; [|reflexivity]. intros _. exists i, x. rewrite lookup_insert_eq. eauto.
Qed.

(** X20.  Without a database name or without a collection name, saving,
    finding and deleting all fail with the configuration error, and the
    driver is not called. *)
Theorem dynamic_store_needs_target
    (drv : dbstore.DataDriver) (dbName collName uniqueKey : string) (d : datamap) :
  dbName = "" \/ collName = "" ->
  exists e,
    dbstore.Is e dbstore.ErrConfigError = true
    /\ dbstore.SaveData drv dbName collName uniqueKey d = (Some e, [])
    /\ dbstore.FindData drv dbName collName d = (inr e, [])
    /\ dbstore.DeleteData drv dbName collName d = (inr e, []).
Proof.
  intros Hempty.
  exists (dbstore.wrapping dbstore.ErrConfigError
            "Database and Collection names cannot be empty for dynamic operation").
  assert (dbstore.getDynamicCollection dbName collName
          = Some (dbstore.wrapping dbstore.ErrConfigError
                    "Database and Collection names cannot be empty for dynamic operation"))
    as Hget.
  { unfold dbstore.getDynamicCollection.
    assert (String.eqb dbName "" || String.eqb collName "" = true) as ->; [|reflexivity].
    apply orb_true_iff. rewrite !String.eqb_eq. exact Hempty. }
  unfold dbstore.SaveData, dbstore.FindData, dbstore.DeleteData. rewrite Hget.
  repeat split; reflexivity.
Qed.

Lemma getDynamicCollection_ok (dbName collName : string) :
  dbName <> "" -> collName <> "" -> dbstore.getDynamicCollection dbName collName = None.
Proof.
  intros Hdb Hcoll. unfold dbstore.getDynamicCollection.
  apply String.eqb_neq in Hdb, Hcoll. rewrite Hdb, Hcoll. reflexivity.
Qed.

(** X21.  On a named database and collection, with a usable unique key
    (present, not [nil], not printed as the empty string) and at least
    one field besides the key and [_id], [SaveData] makes one upsert: the filter is the key with its value, and the fields set are
    those of the data except [_id] and the key itself. *)
Theorem SaveData_upserts
    (drv : dbstore.DataDriver) (dbName collName uniqueKey : string) (d : datamap)
    (uniqueValue : value) :
  dbName <> "" -> collName <> "" -> uniqueKey <> "" ->
  d !! uniqueKey = Some uniqueValue ->
  uniqueValue <> VNil -> Sprint uniqueValue <> "" ->
  (exists k v, d !! k = Some v /\ k <> "_id" /\ k <> uniqueKey) ->
  exists set,
    (forall k, set !! k = if String.eqb k "_id" || String.eqb k uniqueKey
                          then None else d !! k)
    /\ dbstore.SaveData drv dbName collName uniqueKey d
       = (match drv.(dbstore.UpdateOne) dbName collName {[ uniqueKey := uniqueValue ]} set with
          | Some e => Some (dbstore.wrapping dbstore.ErrSaveFailed ("upsert failed: " +:+ e))
          | None => None
          end,
          [dbstore.CallUpdateOne dbName collName {[ uniqueKey := uniqueValue ]} set]).
Proof.
  intros Hdb Hcoll Hkey Hd Hnil Hprint (k & v & Hk & Hk1 & Hk2).
  destruct (upsertSet_spec uniqueKey d) as [Hset Hflag].
  exists (fst (dbstore.upsertSet uniqueKey d)). split; [exact Hset|].
  unfold dbstore.SaveData. rewrite (getDynamicCollection_ok _ _ Hdb Hcoll), Hd.
  apply String.eqb_neq in Hkey, Hprint. rewrite Hkey, Hprint.
  assert (is_nil uniqueValue = false) as ->
    by (destruct uniqueValue; try reflexivity; destruct Hnil; reflexivity).
  cbn [negb andb].
  assert (snd (dbstore.upsertSet uniqueKey d) = true) as Hsnd.
  { apply Hflag. exists k, v. split; [exact Hk|]. unfold dbstore.excluded.
    apply String.eqb_neq in Hk1, Hk2. rewrite Hk1, Hk2. reflexivity. }
  destruct (dbstore.upsertSet uniqueKey d) as [updateData hasOtherFields].
  cbn [fst snd] in *. subst hasOtherFields. reflexivity.
Qed.

(** X22.  With a usable unique key and no field besides the key and
    [_id], [SaveData] succeeds without calling the driver.  (On a named
    database and collection; X20 has the other case.) *)
Theorem SaveData_key_only
    (drv : dbstore.DataDriver) (dbName collName uniqueKey : string) (d : datamap)
    (uniqueValue : value) :
  dbName <> "" -> collName <> "" -> uniqueKey <> "" ->
  d !! uniqueKey = Some uniqueValue ->
  uniqueValue <> VNil -> Sprint uniqueValue <> "" ->
  (forall k, is_Some (d !! k) -> k = "_id" \/ k = uniqueKey) ->
  dbstore.SaveData drv dbName collName uniqueKey d = (None, []).
Proof.
  intros Hdb Hcoll Hkey Hd Hnil Hprint Honly.
  destruct (upsertSet_spec uniqueKey d) as [_ Hflag].
  unfold dbstore.SaveData. rewrite (getDynamicCollection_ok _ _ Hdb Hcoll), Hd.
  apply String.eqb_neq in Hkey, Hprint. rewrite Hkey, Hprint.
  assert (is_nil uniqueValue = false) as ->
    by (destruct uniqueValue; try reflexivity; destruct Hnil; reflexivity).
  cbn [negb andb].
  assert (snd (dbstore.upsertSet uniqueKey d) = false) as Hsnd.
  { destruct (snd (dbstore.upsertSet uniqueKey d)) eqn:E; [|reflexivity].
    destruct (proj1 Hflag eq_refl) as (k & v & Hk & Hex). unfold dbstore.excluded in Hex.
    apply orb_false_iff in Hex as [H1 H2]. apply String.eqb_neq in H1, H2.
    destruct (Honly k (ex_intro _ v Hk)) as [?|?]; congruence. }
  destruct (dbstore.upsertSet uniqueKey d) as [updateData hasOtherFields].
  cbn [snd] in Hsnd. subst hasOtherFields. reflexivity.
Qed.

(** X23.  Without a usable unique key (none configured, or its value is
    absent from the data, [nil], or printed as the empty string)
    [SaveData] makes one insert of the whole data; it fails exactly when
    the insert does, with an error that is [ErrSaveFailed].  (On a named
    database and collection; X20 has the other case.) *)
Theorem SaveData_inserts
    (drv : dbstore.DataDriver) (dbName collName uniqueKey : string) (d : datamap) :
  dbName <> "" -> collName <> "" ->
  (uniqueKey = "" \/ d !! uniqueKey = None \/ d !! uniqueKey = Some VNil
   \/ exists v, d !! uniqueKey = Some v /\ Sprint v = "") ->
  snd (dbstore.SaveData drv dbName collName uniqueKey d)
  = [dbstore.CallInsertOne dbName collName d]
  /\ (fst (dbstore.SaveData drv dbName collName uniqueKey d) = None
      <-> drv.(dbstore.InsertOne) dbName collName d = None)
  /\ (forall e, fst (dbstore.SaveData drv dbName collName uniqueKey d) = Some e ->
                dbstore.Is e dbstore.ErrSaveFailed = true).
Proof.
  intros Hdb Hcoll Hcase.
  assert (exists why,
            dbstore.SaveData drv dbName collName uniqueKey d
            = (match drv.(dbstore.InsertOne) dbName collName d with
               | Some e => Some (dbstore.wrapping dbstore.ErrSaveFailed
                                   ("insert failed (" +:+ why +:+ "): " +:+ e))
               | None => None
               end, [dbstore.CallInsertOne dbName collName d])) as [why ->].
  { unfold dbstore.SaveData. rewrite (getDynamicCollection_ok _ _ Hdb Hcoll).
    destruct (String.eqb uniqueKey "") eqn:Hkey; [eauto|]. cbn [negb].
    destruct Hcase as [->|[->|[->|(v & -> & Hv)]]]; [discriminate|eauto..|].
    apply String.eqb_eq in Hv. rewrite Hv, andb_false_r. eauto. }
  cbn [fst snd]. split; [reflexivity|].
  destruct (dbstore.InsertOne drv dbName collName d); split;
    try (split; congruence); intros e' H; try discriminate.
  injection H as <-. reflexivity.
Qed.

(** X24.  [DeleteData] never passes an empty filter to the driver: an
    empty filter is refused with [ErrDeleteFailed] before any call. *)
Theorem DeleteData_refuses_empty_filter
    (drv : dbstore.DataDriver) (dbName collName : string) (filter : datamap) :
  (filter = ∅ ->
   exists e, dbstore.Is e dbstore.ErrDeleteFailed || dbstore.Is e dbstore.ErrConfigError = true
             /\ dbstore.DeleteData drv dbName collName filter = (inr e, []))
  /\ (forall db coll f,
        dbstore.CallDeleteMany db coll f ∈ snd (dbstore.DeleteData drv dbName collName filter) ->
        f <> ∅).
Proof.
  unfold dbstore.DeleteData. split.
  - intros ->. destruct (dbstore.getDynamicCollection dbName collName) as [e|] eqn:Hget.
    + exists e. split; [|reflexivity]. unfold dbstore.getDynamicCollection in Hget.
      destruct (_ || _); [|discriminate]. injection Hget as <-. reflexivity.
    + eexists. split; [|reflexivity]. reflexivity.
  - intros db coll f. destruct (dbstore.getDynamicCollection dbName collName);
      [intros H; apply elem_of_nil in H as []|].
    destruct (size filter =? 0)%nat eqn:Hsize;
      [intros H; apply elem_of_nil in H as []|].
    cbn [snd]. intros H. apply list_elem_of_singleton in H. injection H as -> -> ->.
    intros ->. rewrite map_size_empty in Hsize. discriminate.
Qed.

End StoreData.

(** ** The definitions and the route table *)

Section Definitions.

Lemma loadStep_usable (m : gmap string ApiDefinition) (api : ApiDefinition) :
  dbstore.usable api -> dbstore.loadStep m (Some api) = <[dbstore.routeKey api := api]> m.
Proof.
  intros [Hm He]. unfold dbstore.loadStep. apply String.eqb_neq in Hm, He.
  rewrite Hm, He. reflexivity.
Qed.

Lemma loadStep_cases (m : gmap string ApiDefinition) (doc : option ApiDefinition) :
  dbstore.loadStep m doc = m
  \/ exists api, doc = Some api /\ dbstore.usable api
                 /\ dbstore.loadStep m doc = <[dbstore.routeKey api := api]> m.
Proof.
  destruct doc as [api|]; [|left; reflexivity]. unfold dbstore.loadStep.
  destruct (String.eqb api.(Method) "") eqn:Hm; [left; reflexivity|].
  destruct (String.eqb api.(Endpoint) "") eqn:He; [left; reflexivity|].
  right. exists api. apply String.eqb_neq in Hm, He. repeat split; assumption.
Qed.

Lemma load_origin (docs : list (option ApiDefinition)) :
  forall key api,
    foldl dbstore.loadStep ∅ docs !! key = Some api ->
    key = dbstore.routeKey api /\ Some api ∈ docs /\ dbstore.usable api.
Proof.
  induction docs as [|doc docs IH] using rev_ind; intros key api.
  - cbn. rewrite lookup_empty. discriminate.
  - rewrite foldl_app. cbn [foldl].
    destruct (loadStep_cases (foldl dbstore.loadStep ∅ docs) doc)
      as [->|(api' & -> & Hus & ->)].
    + intros H. destruct (IH key api H) as (Hk & Hin & Hu).
      split; [exact Hk|]. split; [|exact Hu]. apply elem_of_app. left. exact Hin.
    + destruct (decide (dbstore.routeKey api' = key)) as [<-|Hne].
      * rewrite lookup_insert_eq. intros [= <-].
        split; [reflexivity|]. split; [|exact Hus]. apply elem_of_app. right. left.
      * rewrite lookup_insert_ne by exact Hne. intros H.
        destruct (IH key api H) as (Hk & Hin & Hu).
        split; [exact Hk|]. split; [|exact Hu]. apply elem_of_app. left. exact Hin.
Qed.

Lemma load_kept (after : list (option ApiDefinition)) (api : ApiDefinition) :
  forall m,
    m !! dbstore.routeKey api = Some api ->
    (forall api', Some api' ∈ after -> dbstore.usable api' ->
                  dbstore.routeKey api' <> dbstore.routeKey api) ->
    foldl dbstore.loadStep m after !! dbstore.routeKey api = Some api.
Proof.
  induction after as [|doc after IH]; intros m Hm Hafter; [exact Hm|].
  cbn [foldl]. apply IH.
  - destruct (loadStep_cases m doc) as [->|(api' & -> & Hus & ->)]; [exact Hm|].
    rewrite lookup_insert_ne; [exact Hm|]. apply Hafter; [left|exact Hus].
  - intros api' Hin. apply Hafter. right. exact Hin.
Qed.

(** X25.  [LoadAPIs] fails only when the query does.  Otherwise every
    entry of the table it builds is a document that was read, has a
    method and an endpoint, and sits under the key made of them; and of
    the documents with the same method and endpoint the last one read is
    the one kept. *)
Theorem LoadAPIs_table (drv : dbstore.DefDriver) (docs : list (option ApiDefinition)) :
  drv.(dbstore.FindAll) = inr docs ->
  exists table,
    dbstore.LoadAPIs drv = inl table
    /\ (forall key api, table !! key = Some api ->
          key = dbstore.routeKey api /\ Some api ∈ docs /\ dbstore.usable api)
    /\ (forall before after api,
          docs = (before ++ Some api :: after)%list ->
          dbstore.usable api ->
          (forall api', Some api' ∈ after -> dbstore.usable api' ->
                        dbstore.routeKey api' <> dbstore.routeKey api) ->
          table !! dbstore.routeKey api = Some api).
Proof.
  intros Hfind. exists (foldl dbstore.loadStep ∅ docs). split; [|split].
  - unfold dbstore.LoadAPIs. rewrite Hfind. reflexivity.
  - apply load_origin.
  - intros before after api -> Hus Hafter. rewrite foldl_app. cbn [foldl].
    apply load_kept; [|exact Hafter].
    rewrite (loadStep_usable _ api Hus). apply lookup_insert_eq.
Qed.

Lemma complete_guard (api : ApiDefinition) :
  String.eqb api.(Name) "" || String.eqb api.(Endpoint) ""
  || String.eqb api.(Method) "" || String.eqb api.(Database) ""
  || String.eqb api.(Collection) "" = false
  <-> dbstore.complete api.
Proof.
  unfold dbstore.complete. rewrite !orb_false_iff, !String.eqb_neq. tauto.
Qed.

Lemma CreateAPIDefinition_incomplete (drv : dbstore.DefDriver) (api : ApiDefinition) :
  ~ dbstore.complete api ->
  dbstore.CreateAPIDefinition drv api
  = (inr (dbstore.exported dbstore.ErrMissingRequiredFields), []).
Proof.
  intros Hinc. unfold dbstore.CreateAPIDefinition.
  destruct (_ || _ || _ || _ || _) eqn:Hguard; [reflexivity|].
  apply complete_guard in Hguard. destruct (Hinc Hguard).
Qed.

(** X26.  [CreateAPIDefinition] inserts only a definition whose five
    required fields are there and after both duplicate checks have found
    nothing; without the required fields it fails with
    [ErrMissingRequiredFields] and does not call the driver; and it
    returns an identifier exactly when the insert was made and went
    through. *)
Theorem CreateAPIDefinition_checks_first (drv : dbstore.DefDriver) (api : ApiDefinition) :
  (~ dbstore.complete api ->
   dbstore.CreateAPIDefinition drv api
   = (inr (dbstore.exported dbstore.ErrMissingRequiredFields), []))
  /\ (forall c, c ∈ snd (dbstore.CreateAPIDefinition drv api) ->
        dbstore.is_write c = true ->
        c = dbstore.CallInsertDef drv.(dbstore.NewObjectID) api
        /\ dbstore.complete api
        /\ (exists n, drv.(dbstore.CountName) api.(Name) = inr n /\ (n <= 0)%Z)
        /\ (exists n, drv.(dbstore.CountEndpoint) api.(Method) api.(Endpoint) = inr n
                      /\ (n <= 0)%Z))
  /\ (forall id, fst (dbstore.CreateAPIDefinition drv api) = inl id <->
        id = drv.(dbstore.NewObjectID)
        /\ dbstore.CallInsertDef id api ∈ snd (dbstore.CreateAPIDefinition drv api)
        /\ drv.(dbstore.InsertDef) id api = None).
Proof.
  split; [apply CreateAPIDefinition_incomplete|].
  unfold dbstore.CreateAPIDefinition.
  destruct (_ || _ || _ || _ || _) eqn:Hguard.
  { cbn [fst snd]. split.
    - intros c H. apply elem_of_nil in H as [].
    - intros id. split; [discriminate|]. intros (_ & H & _). apply elem_of_nil in H as []. }
  apply complete_guard in Hguard.
  repeat case_match; cbn [fst snd];
    (split; [intros c Hc Hw | intros id; split; [intros Hid | intros (Hid & Hc & Hins)]]);
    try discriminate;
    repeat match goal with
           | H : _ ∈ (_ ++ _)%list |- _ => apply elem_of_app in H as [H|H]
           | H : _ ∈ _ :: _ |- _ => apply elem_of_cons in H as [H|H]
           | H : _ ∈ [] |- _ => apply elem_of_nil in H as []
           end;
    subst; try discriminate; try congruence;
    repeat match goal with
           | H : (0 <? _)%Z = false |- _ => apply Z.ltb_ge in H
           end.
  all: try (split; [reflexivity|]; split; [exact Hguard|]; split; eexists; split;
            first [reflexivity | eassumption]).
  all: try (injection Hid as <-; split; [reflexivity|]; split; [|assumption];
            apply elem_of_app; right; left).
Qed.

(** X27.  [CreateAPI] touches the route table only on success (201):
    then the table gains the definition under its method and endpoint and
    nothing else changes, and a request with that method and path is
    dispatched to a definition instead of being passed on.  On any
    failure the table is as it was. *)
Theorem CreateAPI_route_table
    (drv : dbstore.DefDriver) (table : gmap string ApiDefinition)
    (parsed : option ApiDefinition) :
  let out := crud.CreateAPI drv table parsed in
  (out.(crud.code) <> 201%Z -> out.(crud.routes) = table)
  /\ (out.(crud.code) = 201%Z ->
      exists api,
        parsed = Some api
        /\ out.(crud.routes) = <[dbstore.routeKey api := api]> table
        /\ forall (L : GoLib) fuel store req,
             req.(api.ReqMethod) = api.(Method) ->
             req.(api.ReqPath) = api.(Endpoint) ->
             api.answer <$> @api.DynamicAPIHandler L fuel out.(crud.routes) store req
             <> Some api.Next).
Proof.
  intros out. subst out. unfold crud.CreateAPI.
  destruct parsed as [api|]; [|split; [reflexivity|discriminate]].
  destruct (dbstore.CreateAPIDefinition drv api) as [[id|e] cs].
  - cbn [crud.code crud.routes]. split; [intros H; destruct H; reflexivity|]. intros _.
    exists api. split; [reflexivity|]. split; [reflexivity|].
    intros L fuel store req Hm Hp. unfold api.DynamicAPIHandler.
    rewrite Hm, Hp. fold (dbstore.routeKey api). rewrite lookup_insert_eq.
    repeat case_match; cbn; unfold api.finish; repeat case_match; congruence.
  - repeat case_match; cbn [crud.code crud.routes]; (split; [reflexivity|discriminate]).
Qed.

End Definitions.

Section RouteTable.

(** X28.  [UpdateAPI] touches the route table only on success (200):
    then the updated definition is under its method and endpoint, the key
    of the definition as it was before is gone when it differs, and every
    other entry is as it was.  On any failure the table is as it was. *)
Theorem UpdateAPI_route_table
    (drv : dbstore.DefDriver) (table : gmap string ApiDefinition) (name : string)
    (parsed : option ApiDefinition) :
  let out := crud.UpdateAPI drv table name parsed in
  (out.(crud.code) <> 200%Z -> out.(crud.routes) = table)
  /\ (out.(crud.code) = 200%Z ->
      exists payload id existing id' updated,
        parsed = Some payload
        /\ fst (dbstore.GetAPIDefinitionByName drv name) = inl (id, existing)
        /\ fst (dbstore.UpdateAPIDefinition drv name payload) = inl (id', updated)
        /\ out.(crud.routes) !! dbstore.routeKey updated = Some updated
        /\ (dbstore.routeKey existing <> dbstore.routeKey updated ->
            out.(crud.routes) !! dbstore.routeKey existing = None)
        /\ (forall k, k <> dbstore.routeKey existing -> k <> dbstore.routeKey updated ->
                      out.(crud.routes) !! k = table !! k)).
Proof.
  intros out. subst out. unfold crud.UpdateAPI.
  destruct (String.eqb name ""); [split; [reflexivity|discriminate]|].
  destruct parsed as [payload|]; [|split; [reflexivity|discriminate]].
  destruct (dbstore.GetAPIDefinitionByName drv name) as [[[id existing]|e] cs];
    [|split; [reflexivity|discriminate]].
  destruct (dbstore.UpdateAPIDefinition drv name payload) as [[[id' updated]|e] cs']
    eqn:Hupd.
  2: { repeat case_match; cbn [crud.code crud.routes]; (split; [reflexivity|discriminate]). }
  cbn [crud.code crud.routes fst]. split; [intros H; destruct H; reflexivity|]. intros _.
  exists payload, id, existing, id', updated.
  fold (dbstore.routeKey existing) (dbstore.routeKey updated).
  split; [reflexivity|]. split; [reflexivity|]. split; [rewrite Hupd; reflexivity|].
  split; [apply lookup_insert_eq|]. split.
  - intros Hne. rewrite lookup_insert_ne by congruence.
    apply String.eqb_neq in Hne. rewrite Hne. cbn [negb andb].
    destruct (String.eqb (dbstore.routeKey existing) "") eqn:Hempty.
    + apply String.eqb_eq in Hempty. unfold dbstore.routeKey in Hempty.
      destruct (Method existing); discriminate.
    + cbn [negb]. apply lookup_delete_eq.
  - intros k Hold Hnew. rewrite lookup_insert_ne by congruence.
    destruct (_ && _); [|reflexivity]. rewrite lookup_delete_ne by congruence. reflexivity.
Qed.

(** X29.  [DeleteAPI] touches the route table only on success (200):
    then the key of the definition found under the name is removed, and
    a request with that method and path is passed on to the next handler.
    On any failure the table is as it was. *)
Theorem DeleteAPI_route_table
    (drv : dbstore.DefDriver) (table : gmap string ApiDefinition) (name : string) :
  let out := crud.DeleteAPI drv table name in
  (out.(crud.code) <> 200%Z -> out.(crud.routes) = table)
  /\ (out.(crud.code) = 200%Z ->
      exists id api,
        fst (dbstore.GetAPIDefinitionByName drv name) = inl (id, api)
        /\ out.(crud.routes) = delete (dbstore.routeKey api) table
        /\ forall (L : GoLib) fuel store req,
             req.(api.ReqMethod) = api.(Method) ->
             req.(api.ReqPath) = api.(Endpoint) ->
             @api.DynamicAPIHandler L fuel out.(crud.routes) store req
             = Some {| api.answer := api.Next; api.trace := [] |}).
Proof.
  intros out. subst out. unfold crud.DeleteAPI.
  destruct (String.eqb name ""); [split; [reflexivity|discriminate]|].
  destruct (dbstore.GetAPIDefinitionByName drv name) as [[[id api]|e] cs];
    [|split; [reflexivity|discriminate]].
  destruct (dbstore.DeleteAPIDefinitionByName drv name) as [[deletedCount|e] cs'];
    [|split; [reflexivity|discriminate]].
  destruct (deletedCount =? 0)%Z; [split; [reflexivity|discriminate]|].
  cbn [crud.code crud.routes fst]. split; [intros H; destruct H; reflexivity|]. intros _.
  exists id, api. split; [reflexivity|]. split; [reflexivity|].
  intros L fuel store req Hm Hp. unfold api.DynamicAPIHandler.
  rewrite Hm, Hp, lookup_delete_eq. reflexivity.
Qed.

Lemma keyed_insert (table : gmap string ApiDefinition) (api : ApiDefinition) :
  crud.keyed table -> crud.keyed (<[dbstore.routeKey api := api]> table).
Proof.
  intros Hk key api'. destruct (decide (dbstore.routeKey api = key)) as [<-|Hne].
  - rewrite lookup_insert_eq. intros [= <-]. reflexivity.
  - rewrite lookup_insert_ne by exact Hne. apply Hk.
Qed.

Lemma keyed_delete (table : gmap string ApiDefinition) (key : string) :
  crud.keyed table -> crud.keyed (delete key table).
Proof.
  intros Hk key' api. destruct (decide (key = key')) as [<-|Hne].
  - rewrite lookup_delete_eq. discriminate.
  - rewrite lookup_delete_ne by exact Hne. apply Hk.
Qed.

(** X30.  The route table keeps every definition under the key made of
    its own method and endpoint: the table [LoadAPIs] builds is so, and
    creating, updating and deleting definitions keep it so, whatever the
    driver answers. *)
Theorem route_table_keyed (drv : dbstore.DefDriver) :
  (forall table, dbstore.LoadAPIs drv = inl table -> crud.keyed table)
  /\ (forall table parsed,
        crud.keyed table -> crud.keyed (crud.CreateAPI drv table parsed).(crud.routes))
  /\ (forall table name parsed,
        crud.keyed table -> crud.keyed (crud.UpdateAPI drv table name parsed).(crud.routes))
  /\ (forall table name,
        crud.keyed table -> crud.keyed (crud.DeleteAPI drv table name).(crud.routes)).
Proof.
  split; [|split; [|split]].
  - unfold dbstore.LoadAPIs. destruct (dbstore.FindAll drv) as [e|docs]; [discriminate|].
    intros table [= <-] key api H. exact (proj1 (load_origin docs key api H)).
  - intros table parsed Hk. unfold crud.CreateAPI.
    repeat case_match; cbn [crud.routes]; try exact Hk.
    apply (keyed_insert table _ Hk).
  - intros table name parsed Hk. unfold crud.UpdateAPI.
    repeat case_match; cbn [crud.routes]; try exact Hk.
    + apply (keyed_insert _ _ (keyed_delete table _ Hk)).
    + apply (keyed_insert table _ Hk).
  - intros table name Hk. unfold crud.DeleteAPI.
    repeat case_match; cbn [crud.routes]; try exact Hk.
    apply keyed_delete, Hk.
Qed.

End RouteTable.

(** ** The further properties on the example data *)

Section MoreExamples.
#[local] Existing Instance smallLib.lib.
Import scenario fixtures.

Lemma transformations_leave_other_fields_witness :
  ApplyTransformations [ratio] five_two !! "a" = five_two !! "a".
Proof.
  apply transformations_leave_other_fields.
  intros t Ht. apply list_elem_of_singleton in Ht. subst t.
  intros H. vm_compute in H. discriminate H.
Defined.

Lemma substitute_reference_free_witness :
  SubstituteVariables (VMap PlainMap {[ "ok" := VBool false ]}) five_two
  = VMap PlainMap {[ "ok" := VBool false ]}.
Proof.
  apply substitute_reference_free. vm_compute. reflexivity.
Defined.

Lemma calculate_malformed_unchanged_witness :
  ApplyTransformations ([ratio] ++ [noColon]) five_two = ApplyTransformations [ratio] five_two.
Proof.
  apply calculate_malformed_unchanged; [reflexivity|].
  right. right. left. vm_compute. reflexivity.
Defined.

Lemma sums_and_products_skip_unusable_arguments_witness :
  calcAdd (["$a"] ++ "oops" :: ["$b"]) five_two = calcAdd (["$a"] ++ ["$b"]) five_two
  /\ calcMultiply (["$a"] ++ " " :: ["$b"]) five_two = calcMultiply (["$a"] ++ ["$b"]) five_two
  /\ calcMultiply ["$x"; " "] five_two = 0%float.
Proof.
  destruct (sums_and_products_skip_unusable_arguments five_two) as (Hadd & Hmul & Hnone).
  split; [|split].
  - apply Hadd. right. vm_compute. reflexivity.
  - apply Hmul. left. vm_compute. reflexivity.
  - apply Hnone. intros arg Harg.
    apply list_elem_of_In in Harg. cbn [In] in Harg.
    destruct Harg as [<-|[<-|[]]]; [right|left]; vm_compute; reflexivity.
Defined.

Lemma missing_flat_field_asymmetry_witness :
  evaluateCondition {| Field := "role"; Operator := "neq"; Value := VStr "admin" |} ∅ = true.
Proof.
  refine (proj1 (missing_flat_field_asymmetry
                   {| Field := "role"; Operator := "neq"; Value := VStr "admin" |} ∅ _ _) _);
    reflexivity.
Defined.

Lemma condition_needs_flat_key_witness :
  is_Some (({[ "role" := VStr "admin" ]} : datamap) !! "role").
Proof.
  refine (condition_needs_flat_key
            {| Field := "role"; Operator := "eq"; Value := VStr "admin" |}
            {[ "role" := VStr "admin" ]} _ _).
  - vm_compute. reflexivity.
  - intros H. vm_compute in H. discriminate H.
Defined.

Lemma dotted_field_needs_map_head_witness :
  evaluateCondition {| Field := "a.b"; Operator := "neq"; Value := VStr "x" |}
                    {[ "a.b" := VStr "y" ]} = false.
Proof.
  refine (dotted_field_needs_map_head _ _ "a" "b" _ _ _).
  - reflexivity.
  - reflexivity.
  - intros m H. vm_compute in H. discriminate H.
Defined.


Lemma storeNested_fresh_head_witness :
  exists stored,
    storeNested ["out"; "user"] (VStr "u") five_two = Some stored
    /\ lookupPath ["out"; "user"] (VMap PlainMap stored) = Some (VStr "u")
    /\ forall k, k <> "out" -> stored !! k = five_two !! k.
Proof.
  apply storeNested_fresh_head. vm_compute. reflexivity.
Defined.

Lemma return_pairs_nonempty_witness :
  processAction (fun _ _ _ _ _ => None) (Some returnPair) {[ "name" := VStr "Ada" ]}
                store "app" "users"
  = Some {| responseToSend :=
              SubstituteVariables
                (VMap PlainMap
                   (foldPairs [VMap PlainMap (<["Key" := VStr "who"]> {[ "Value" := VStr "$name" ]})]))
                (ApplyTransformations [] {[ "name" := VStr "Ada" ]});
            finalDataState := ApplyTransformations [] {[ "name" := VStr "Ada" ]};
            shouldSave := false; err := None |}.
Proof.
  refine (return_pairs_nonempty _ returnPair _ _ _ _ _ _ _ _).
  - reflexivity.
  - reflexivity.
  - intros H. discriminate H.
Defined.

Lemma apiCall_literal_nil_parameter_witness :
  exists k',
    ({[ "uid" := VNil ]} : datamap) !! k' = Some VNil
    /\ forall recur,
         processAction recur (Some callWithNil) five_two store "app" "users"
         = Some {| responseToSend := statusErrorMap ("Missing required parameter: " +:+ k');
                   finalDataState := ApplyTransformations [] five_two;
                   shouldSave := false; err := None |}.
Proof.
  refine (apiCall_literal_nil_parameter callWithNil
            {| ApiName := "B"; Parameters := {[ "uid" := VNil ]}; ResultField := "out" |}
            defB five_two store "app" "users" "uid" _ _ _ _);
    reflexivity.
Defined.

Lemma call_free_flow_ends_witness :
  exists r,
    ProcessConditionalFlow 1 (Some role_flow) five_two store "app" "users" = Some r
    /\ forall store' db' coll',
         ProcessConditionalFlow 1 (Some role_flow) five_two store' db' coll' = Some r.
Proof.
  apply call_free_flow_ends.
  - vm_compute. reflexivity.
  - vm_compute. repeat constructor.
Defined.

Lemma requestData_precedence_witness :
  api.requestData mixed !! "id" = Some (VStr "1")
  /\ api.requestData mixed !! "q" = Some (VStr "x")
  /\ api.requestData mixed !! "w" = Some (VStr "v").
Proof.
  split; [|split].
  - apply (proj1 (requestData_precedence mixed "id")). reflexivity.
  - refine (proj1 (proj2 (requestData_precedence mixed "q")) [("id", "2")] [("q", "y")] "x" _ _ _).
    + reflexivity.
    + reflexivity.
    + intros H. apply list_elem_of_In in H. vm_compute in H. destruct H as [H|[]].
      discriminate H.
  - refine (eq_trans (proj2 (proj2 (requestData_precedence mixed "w")) _ _) _).
    + reflexivity.
    + intros H. apply list_elem_of_In in H. vm_compute in H.
      destruct H as [H|[H|[H|[]]]]; discriminate H.
    + reflexivity.
Defined.

Lemma missing_target_is_config_error_witness :
  api.DynamicAPIHandler 1 table store (request "GET" "/lost" [] None)
  = Some {| api.answer :=
              api.Sent 500
                (VMap FiberMap
                   {[ "error" := VStr "API configuration error: missing target database or collection" ]});
            api.trace := [] |}.
Proof.
  refine (missing_target_is_config_error 1 table store (request "GET" "/lost" [] None)
            noTarget _ _ _).
  - vm_compute. reflexivity.
  - vm_compute. reflexivity.
  - left. reflexivity.
Defined.

Lemma default_delete_needs_parameters_witness :
  api.DynamicAPIHandler 1 table store (request "DELETE" "/items" [] None)
  = Some {| api.answer :=
              api.Sent 400
                (VMap FiberMap
                   {[ "error" := VStr "DELETE requires parameters to identify data to delete" ]});
            api.trace := [api.EvDefault] |}.
Proof.
  refine (default_delete_needs_parameters 1 table store (request "DELETE" "/items" [] None)
            (plain "DELETE") _ _ _ _ _ _ _).
  - vm_compute. reflexivity.
  - vm_compute. reflexivity.
  - intros H. vm_compute in H. discriminate H.
  - intros H. vm_compute in H. discriminate H.
  - reflexivity.
  - reflexivity.
  - vm_compute. reflexivity.
Defined.

Lemma default_get_finds_witness :
  api.DynamicAPIHandler 1 table readOnly (request "GET" "/items" [] None)
  = Some {| api.answer :=
              api.Sent 200 (VList SliceBsonM [VMap BsonM {[ "id" := VStr "7" ]}]);
            api.trace := [api.EvDefault; api.EvFind "app" "items" ∅] |}.
Proof.
  refine (eq_trans (default_get_finds 1 table readOnly (request "GET" "/items" [] None)
                      (plain "GET") _ _ _ _ _ _) _).
  - vm_compute. reflexivity.
  - vm_compute. reflexivity.
  - intros H. vm_compute in H. discriminate H.
  - intros H. vm_compute in H. discriminate H.
  - reflexivity.
  - reflexivity.
  - vm_compute. reflexivity.
Defined.

Lemma default_post_save_failure_panics_witness :
  api.DynamicAPIHandler 1 table readOnly
    (request "POST" "/items" [] (Some {[ "id" := VStr "7" ]}))
  = Some {| api.answer := api.Panic;
            api.trace := [api.EvDefault;
                          api.EvSave "app" "items" "id" {[ "id" := VStr "7" ]}] |}.
Proof.
  refine (eq_trans (default_post_save_failure_panics 1 table readOnly
                      (request "POST" "/items" [] (Some {[ "id" := VStr "7" ]}))
                      (plain "POST") "connection refused" _ _ _ _ _ _ _) _).
  - vm_compute. reflexivity.
  - vm_compute. reflexivity.
  - intros H. vm_compute in H. discriminate H.
  - intros H. vm_compute in H. discriminate H.
  - reflexivity.
  - left. reflexivity.
  - reflexivity.
  - vm_compute. reflexivity.
Defined.

Lemma flow_error_is_500_witness :
  exists e,
    api.DynamicAPIHandler 1 table store (request "POST" "/bad" [] None)
    = Some {| api.answer :=
                api.Sent 500
                  (VMap FiberMap
                     {[ "error" := VStr ("failed to process request logic: " +:+ e) ]});
              api.trace := [api.EvFlow] |}.
Proof.
  eexists.
  eapply (flow_error_is_500 1 table store (request "POST" "/bad" [] None) defBad).
  - vm_compute. reflexivity.
  - vm_compute. reflexivity.
  - intros H. vm_compute in H. discriminate H.
  - intros H. vm_compute in H. discriminate H.
  - eexists. reflexivity.
  - vm_compute. reflexivity.
  - reflexivity.
Defined.

Lemma dynamic_store_needs_target_witness :
  exists e,
    dbstore.Is e dbstore.ErrConfigError = true
    /\ dbstore.SaveData dataDriver "" "items" "id" ada = (Some e, [])
    /\ dbstore.FindData dataDriver "" "items" ada = (inr e, [])
    /\ dbstore.DeleteData dataDriver "" "items" ada = (inr e, []).
Proof.
  apply dynamic_store_needs_target. left. reflexivity.
Defined.

Lemma SaveData_upserts_witness :
  exists set,
    (forall k, set !! k = if String.eqb k "_id" || String.eqb k "id"
                          then None else ada !! k)
    /\ dbstore.SaveData dataDriver "app" "items" "id" ada
       = (match dataDriver.(dbstore.UpdateOne) "app" "items" {[ "id" := VStr "7" ]} set with
          | Some e => Some (dbstore.wrapping dbstore.ErrSaveFailed ("upsert failed: " +:+ e))
          | None => None
          end,
          [dbstore.CallUpdateOne "app" "items" {[ "id" := VStr "7" ]} set]).
Proof.
  apply SaveData_upserts.
  - intros H. discriminate H.
  - intros H. discriminate H.
  - intros H. discriminate H.
  - reflexivity.
  - intros H. discriminate H.
  - intros H. vm_compute in H. discriminate H.
  - exists "name", (VStr "Ada"). split; [reflexivity|]. split; intros H; discriminate H.
Defined.

Lemma SaveData_key_only_witness :
  dbstore.SaveData dataDriver "app" "items" "id" keyOnly = (None, []).
Proof.
  apply (SaveData_key_only dataDriver "app" "items" "id" keyOnly (VStr "7")).
  - intros H. discriminate H.
  - intros H. discriminate H.
  - intros H. discriminate H.
  - reflexivity.
  - intros H. discriminate H.
  - intros H. vm_compute in H. discriminate H.
  - intros k [v Hk]. unfold keyOnly in Hk.
    destruct (decide (k = "id")) as [->|Hid]; [right; reflexivity|].
    destruct (decide (k = "_id")) as [->|Hoid]; [left; reflexivity|].
    rewrite lookup_insert_ne, lookup_singleton_ne in Hk by congruence. discriminate Hk.
Defined.

Lemma SaveData_inserts_witness :
  snd (dbstore.SaveData dataDriver "app" "items" "" ada)
  = [dbstore.CallInsertOne "app" "items" ada]
  /\ (fst (dbstore.SaveData dataDriver "app" "items" "" ada) = None
      <-> dataDriver.(dbstore.InsertOne) "app" "items" ada = None)
  /\ (forall e, fst (dbstore.SaveData dataDriver "app" "items" "" ada) = Some e ->
                dbstore.Is e dbstore.ErrSaveFailed = true).
Proof.
  apply SaveData_inserts.
  - intros H. discriminate H.
  - intros H. discriminate H.
  - left. reflexivity.
Defined.

Lemma DeleteData_refuses_empty_filter_witness :
  exists e, dbstore.Is e dbstore.ErrDeleteFailed || dbstore.Is e dbstore.ErrConfigError = true
            /\ dbstore.DeleteData dataDriver "app" "items" ∅ = (inr e, []).
Proof.
  exact (proj1 (DeleteData_refuses_empty_filter dataDriver "app" "items" ∅) eq_refl).
Defined.

Lemma LoadAPIs_table_witness :
  exists table,
    dbstore.LoadAPIs defDriver = inl table
    /\ (forall key api, table !! key = Some api ->
          key = dbstore.routeKey api
          /\ Some api ∈ [Some defA; None; Some noEndpoint; Some defB]
          /\ dbstore.usable api)
    /\ (forall before after api,
          [Some defA; None; Some noEndpoint; Some defB] = (before ++ Some api :: after)%list ->
          dbstore.usable api ->
          (forall api', Some api' ∈ after -> dbstore.usable api' ->
                        dbstore.routeKey api' <> dbstore.routeKey api) ->
          table !! dbstore.routeKey api = Some api).
Proof.
  apply LoadAPIs_table. reflexivity.
Defined.

Lemma CreateAPIDefinition_checks_first_witness :
  dbstore.CreateAPIDefinition defDriver noEndpoint
  = (inr (dbstore.exported dbstore.ErrMissingRequiredFields), [])
  /\ (fst (dbstore.CreateAPIDefinition defDriver defB) = inl 7%positive
      -> dbstore.CallInsertDef 7%positive defB
           ∈ snd (dbstore.CreateAPIDefinition defDriver defB)).
Proof.
  split.
  - refine (proj1 (CreateAPIDefinition_checks_first defDriver noEndpoint) _).
    intros (_ & H & _). apply H. reflexivity.
  - intros H.
    exact (proj1 (proj2 (proj1 (proj2 (proj2 (CreateAPIDefinition_checks_first defDriver defB))
                                  7%positive) H))).
Defined.

Lemma CreateAPI_route_table_witness :
  exists api,
    Some defB = Some api
    /\ (crud.CreateAPI defDriver table (Some defB)).(crud.routes)
       = <[dbstore.routeKey api := api]> table
    /\ forall (L : GoLib) fuel store req,
         req.(api.ReqMethod) = api.(Method) ->
         req.(api.ReqPath) = api.(Endpoint) ->
         api.answer <$> @api.DynamicAPIHandler L fuel
                          (crud.CreateAPI defDriver table (Some defB)).(crud.routes) store req
         <> Some api.Next.
Proof.
  refine (proj2 (CreateAPI_route_table defDriver table (Some defB)) _).
  vm_compute. reflexivity.
Defined.

Lemma UpdateAPI_route_table_witness :
  exists payload id existing id' updated,
    Some movedA = Some payload
    /\ fst (dbstore.GetAPIDefinitionByName defDriver "A") = inl (id, existing)
    /\ fst (dbstore.UpdateAPIDefinition defDriver "A" payload) = inl (id', updated)
    /\ (crud.UpdateAPI defDriver routes "A" (Some movedA)).(crud.routes)
         !! dbstore.routeKey updated = Some updated
    /\ (dbstore.routeKey existing <> dbstore.routeKey updated ->
        (crud.UpdateAPI defDriver routes "A" (Some movedA)).(crud.routes)
          !! dbstore.routeKey existing = None)
    /\ (forall k, k <> dbstore.routeKey existing -> k <> dbstore.routeKey updated ->
                  (crud.UpdateAPI defDriver routes "A" (Some movedA)).(crud.routes) !! k
                  = routes !! k).
Proof.
  refine (proj2 (UpdateAPI_route_table defDriver routes "A" (Some movedA)) _).
  vm_compute. reflexivity.
Defined.

Lemma DeleteAPI_route_table_witness :
  exists id api,
    fst (dbstore.GetAPIDefinitionByName defDriver "A") = inl (id, api)
    /\ (crud.DeleteAPI defDriver routes "A").(crud.routes)
       = delete (dbstore.routeKey api) routes
    /\ forall (L : GoLib) fuel store req,
         req.(api.ReqMethod) = api.(Method) ->
         req.(api.ReqPath) = api.(Endpoint) ->
         @api.DynamicAPIHandler L fuel (crud.DeleteAPI defDriver routes "A").(crud.routes)
                                store req
         = Some {| api.answer := api.Next; api.trace := [] |}.
Proof.
  refine (proj2 (DeleteAPI_route_table defDriver routes "A") _).
  vm_compute. reflexivity.
Defined.

Lemma route_table_keyed_witness :
  crud.keyed (crud.UpdateAPI defDriver
                (crud.CreateAPI defDriver ∅ (Some defB)).(crud.routes)
                "A" (Some movedA)).(crud.routes).
Proof.
  destruct (route_table_keyed defDriver) as (_ & Hcreate & Hupdate & _).
  apply Hupdate, Hcreate.
  intros key api H. rewrite lookup_empty in H. discriminate H.
Defined.

End MoreExamples.
